(** * Variable-name classification of [neo4j/load_adam_dc_graph.py]

    A shallow embedding of [build_pattern_lookup], [build_suffix_lookup] and
    [create_of_class_relationships], together with the parts of the Python
    runtime they rest on: [str] methods, insertion-ordered [dict]s, stable
    [sorted], the fragment of [re] that template names generate, and the
    Cypher queries that the functions send to the Neo4j session.  The
    reading of the two CSV files by [load_adam_class_data] and
    [load_adam_variables], and the nodes and relationships that the former
    creates, follow.

    Names are strings over 8-bit characters (code points below 256).  On that
    range the Unicode class [\d] of Python's [re] is exactly ['0'..'9']. *)

From Stdlib Require Import String Ascii List Arith NArith Bool Lia.
From Stdlib Require Import Permutation Sorted DecimalString.
Import ListNotations.
Local Open Scope string_scope.
Local Open Scope list_scope.

Set Implicit Arguments.

(** ** Python [str] operations *)

Module PyStr.

(** [s.startswith(p)] *)
Definition startswith (s p : string) : bool := String.prefix p s.

(** [s.endswith(suf)]: some tail of [s] is [suf]. *)
Fixpoint endswith (s suf : string) : bool :=
  (s =? suf) ||
  match s with
  | EmptyString => false
  | String _ s' => endswith s' suf
  end.

(** [s[n:]] *)
Fixpoint slice_from (n : nat) (s : string) : string :=
  match n, s with
  | O, _ => s
  | S _, EmptyString => EmptyString
  | S n', String _ s' => slice_from n' s'
  end.

(** [s.replace(old, new)] for a non-empty [old]: occurrences are found
    scanning left to right and do not overlap.  [skip] counts the characters
    of an occurrence just replaced that are still to be dropped. *)
Fixpoint replace_from (skip : nat) (old new s : string) : string :=
  match s with
  | EmptyString => EmptyString
  | String c s' =>
      match skip with
      | S k => replace_from k old new s'
      | O =>
          if String.prefix old s
          then new ++ replace_from (String.length old - 1) old new s'
          else String c (replace_from 0 old new s')
      end
  end.

Definition replace (old new s : string) : string := replace_from 0 old new s.

(** a character occurs in a string *)
Fixpoint has_char (p : ascii -> bool) (s : string) : bool :=
  match s with
  | EmptyString => false
  | String c s' => p c || has_char p s'
  end.

Definition is_digit (c : ascii) : bool :=
  let n := nat_of_ascii c in Nat.leb 48 n && Nat.leb n 57.

Definition is_lower (c : ascii) : bool :=
  let n := nat_of_ascii c in Nat.leb 97 n && Nat.leb n 122.

(** [str(n)] for a non-negative integer *)
Definition of_nat (n : nat) : string := NilEmpty.string_of_uint (Nat.to_uint n).

End PyStr.

(** ** Insertion-ordered dictionaries

    A Python [dict] keeps its keys in the order of their first insertion;
    assigning to a key that is present replaces the value in place. *)

Module PyDict.

Section Dict.
Variable V : Type.

Definition t := list (string * V).

Fixpoint set (k : string) (v : V) (d : t) : t :=
  match d with
  | [] => [(k, v)]
  | (k', v') :: d' => if (k' =? k)%string then (k', v) :: d' else (k', v') :: set k v d'
  end.

Fixpoint get (k : string) (d : t) : option V :=
  match d with
  | [] => None
  | (k', v') :: d' => if (k' =? k)%string then Some v' else get k d'
  end.

Definition keys (d : t) : list string := map fst d.
Definition items (d : t) : list (string * V) := d.

End Dict.

End PyDict.

(** ** The fragment of Python's [re] reached by template names

    [re.compile] is modelled for patterns built from literal characters,
    [.], [^], [$], [\d], capturing groups, alternation and the quantifiers
    [*], [+], [?] and [{n}].  A pattern that uses anything else (character
    sets, other escapes, group extensions, lazy or possessive quantifiers,
    other brace forms) is reported as [Unsupported]: nothing is claimed about
    it. *)

Module Re.

Inductive regex : Type :=
| Eps
| Lit (c : ascii)
| AnyChar
| Digit
| AtBeginning
| AtEnd
| Cat (r1 r2 : regex)
| Alt (r1 r2 : regex)
| Group (r : regex)
| Repeat (r : regex) (lo : nat) (more : option nat).

(** [Repeat r lo more]: [lo] mandatory iterations of [r] followed by at most
    [more] optional ones ([None]: no upper bound). *)

(** [re.compile] returns a pattern, or raises ([re.error], or
    [OverflowError] for a repetition count that is too large), or the pattern
    is outside the fragment. *)
Inductive compiled : Type :=
| Compiled (r : regex)
| Error (exn : string) (msg : string)
| Unsupported.

(** *** Parsing *)

(** One frame per open group: the finished branches of its alternation and
    the items of the branch being read, both latest first. *)
Record frame : Type := Frame { branches : list regex; items : list regex }.

Fixpoint seq_of (rs : list regex) : regex :=
  match rs with
  | [] => Eps
  | [r] => r
  | r :: rs' => Cat r (seq_of rs')
  end.

Fixpoint alt_of (rs : list regex) : regex :=
  match rs with
  | [] => Eps
  | [r] => r
  | r :: rs' => Alt r (alt_of rs')
  end.

Definition close_frame (f : frame) : regex :=
  alt_of (rev (seq_of (rev (items f)) :: branches f)).

Definition push_item (r : regex) (f : frame) : frame :=
  Frame (branches f) (r :: items f).

Definition MAXREPEAT : N := 4294967295%N.

Inductive quantified : Type :=
| Quantified (f : frame)
| NothingToRepeat
| MultipleRepeat.

(** the item a quantifier applies to is the last one of the current branch *)
Definition quantify (lo : nat) (more : option nat) (f : frame) : quantified :=
  match items f with
  | [] => NothingToRepeat
  | AtBeginning :: _ | AtEnd :: _ => NothingToRepeat
  | Repeat _ _ _ :: _ => MultipleRepeat
  | r :: rs => Quantified (Frame (branches f) (Repeat r lo more :: rs))
  end.

Definition digit_value (c : ascii) : N := (N_of_ascii c - 48)%N.

(** [count]: the digits read so far of a brace quantifier [{n}] being read. *)
Fixpoint parse (count : option (option N)) (top : frame) (stack : list frame)
    (s : string) : compiled :=
  match count with
  | Some digits =>
      match s with
      | EmptyString => Unsupported
      | String c s' =>
          if PyStr.is_digit c then
            parse (Some (Some (10 * match digits with Some n => n | None => 0 end
                               + digit_value c)%N)) top stack s'
          else if Ascii.eqb c "}" then
            match digits with
            | None => Unsupported
            | Some n =>
                if (MAXREPEAT <=? n)%N
                then Error "OverflowError" "the repetition number is too large"
                else
                  match quantify (N.to_nat n) (Some 0) top with
                  | NothingToRepeat => Error "re.error" "nothing to repeat"
                  | MultipleRepeat => Error "re.error" "multiple repeat"
                  | Quantified top' =>
                      match s' with
                      | String "?" _ | String "+" _ => Unsupported
                      | _ => parse None top' stack s'
                      end
                  end
            end
          else Unsupported
      end
  | None =>
      match s with
      | EmptyString =>
          match stack with
          | [] => Compiled (close_frame top)
          | _ :: _ => Error "re.error" "missing ), unterminated subpattern"
          end
      | String "\" EmptyString => Error "re.error" "bad escape (end of pattern)"
      | String "\" (String "d" s') => parse None (push_item Digit top) stack s'
      | String "\" (String _ _) => Unsupported
      | String "[" _ => Unsupported
      | String "(" (String "?" _) => Unsupported
      | String "(" s' => parse None (Frame [] []) (top :: stack) s'
      | String ")" s' =>
          match stack with
          | [] => Error "re.error" "unbalanced parenthesis"
          | outer :: stack' =>
              parse None (push_item (Group (close_frame top)) outer) stack' s'
          end
      | String "|" s' =>
          parse None (Frame (seq_of (rev (items top)) :: branches top) []) stack s'
      | String "." s' => parse None (push_item AnyChar top) stack s'
      | String "^" s' => parse None (push_item AtBeginning top) stack s'
      | String "$" s' => parse None (push_item AtEnd top) stack s'
      | String "{" s' => parse (Some None) top stack s'
      | String ("*" | "+" | "?") s' as whole =>
          let '(lo, more) :=
            match whole with
            | String "*" _ => (0, None)
            | String "+" _ => (1, None)
            | _ => (0, Some 1)
            end in
          match quantify lo more top with
          | NothingToRepeat => Error "re.error" "nothing to repeat"
          | MultipleRepeat =>
              match whole with
              | String "*" _ => Error "re.error" "multiple repeat"
              | _ => Unsupported
              end
          | Quantified top' =>
              match s' with
              | String "?" _ | String "+" _ => Unsupported
              | _ => parse None top' stack s'
              end
          end
      | String c s' => parse None (push_item (Lit c) top) stack s'
      end
  end.

(** [re.compile(pattern)] *)
Definition compile (pattern : string) : compiled :=
  parse None (Frame [] []) [] pattern.

(** *** Matching

    Only the truth value of [pattern.match(string)] is observed by the
    program, so the matcher decides whether some way of matching exists.  A
    matcher takes the position reached, the rest of the subject and what has
    to hold of the position and rest it leaves. *)

Definition cont : Type := nat -> string -> bool.
Definition matcher : Type := nat -> string -> cont -> bool.

Definition newline : ascii := ascii_of_nat 10.

(** [lo] mandatory iterations *)
Fixpoint at_least (m : matcher) (lo : nat) : matcher :=
  fun pos s k =>
    match lo with
    | O => k pos s
    | S lo' => m pos s (fun pos' s' => at_least m lo' pos' s' k)
    end.

Definition fewer (more : option nat) : option (option nat) :=
  match more with
  | None => Some None
  | Some O => None
  | Some (S n) => Some (Some n)
  end.

(** at most [more] further iterations, each of which consumes a character
    (an iteration that consumes nothing leaves the state as it was) *)
Fixpoint at_most (m : matcher) (fuel : nat) (more : option nat) : matcher :=
  fun pos s k =>
    k pos s ||
    match fuel, fewer more with
    | S fuel', Some more' =>
        m pos s (fun pos' s' =>
                   Nat.ltb (String.length s') (String.length s)
                   && at_most m fuel' more' pos' s' k)
    | _, _ => false
    end.

Fixpoint run (r : regex) : matcher :=
  fun pos s k =>
    match r with
    | Eps => k pos s
    | Lit c =>
        match s with
        | String c' s' => Ascii.eqb c c' && k (S pos) s'
        | EmptyString => false
        end
    | AnyChar =>
        match s with
        | String c' s' => negb (Ascii.eqb c' newline) && k (S pos) s'
        | EmptyString => false
        end
    | Digit =>
        match s with
        | String c' s' => PyStr.is_digit c' && k (S pos) s'
        | EmptyString => false
        end
    | AtBeginning => Nat.eqb pos 0 && k pos s
    | AtEnd =>
        match s with
        | EmptyString => k pos s
        | String c' EmptyString => Ascii.eqb c' newline && k pos s
        | _ => false
        end
    | Cat r1 r2 => run r1 pos s (fun pos' s' => run r2 pos' s' k)
    | Alt r1 r2 => run r1 pos s k || run r2 pos s k
    | Group r' => run r' pos s k
    | Repeat r' lo more =>
        at_least (run r') lo pos s
          (fun pos' s' => at_most (run r') (String.length s') more pos' s' k)
    end.

(** [pattern.match(string)] is truthy *)
Definition matches (r : regex) (s : string) : bool :=
  run r 0 s (fun _ _ => true).

End Re.

(** ** The Neo4j session

    The graph behind the session, as far as the classification reads and
    writes it: the [ADaM Class Variable] nodes (keyed by [name]), the
    [ADaM Variable] nodes (keyed by [name] and [dataset]) and the [OF_CLASS]
    relationships between them.  A node is identified by its position in its
    list; no node is deleted after [clear_graph]. *)

Module Neo4j.

Record graph : Type := Graph {
  class_variable_nodes : list string;
  adam_variable_nodes : list (string * string);
  of_class : list (nat * nat)
}.

(** [MATCH (n) DETACH DELETE n] *)
Definition clear : graph := Graph [] [] [].

Definition same_key (k k' : string * string) : bool :=
  (fst k =? fst k') && (snd k =? snd k').

(** [MERGE (v:`ADaM Class Variable` {name: $name})] *)
Definition merge_class_variable (name : string) (g : graph) : graph :=
  if existsb (String.eqb name) (class_variable_nodes g) then g
  else Graph (class_variable_nodes g ++ [name]) (adam_variable_nodes g) (of_class g).

(** [MERGE (v:`ADaM Variable` {name: $name, dataset: $dataset})] *)
Definition merge_adam_variable (key : string * string) (g : graph) : graph :=
  if existsb (same_key key) (adam_variable_nodes g) then g
  else Graph (class_variable_nodes g) (adam_variable_nodes g ++ [key]) (of_class g).

(** the nodes a [MATCH] with the given property values binds *)
Fixpoint positions (A : Type) (p : A -> bool) (from : nat) (l : list A) : list nat :=
  match l with
  | [] => []
  | a :: l' => if p a then from :: positions p (S from) l' else positions p (S from) l'
  end.

Definition same_edge (e e' : nat * nat) : bool :=
  Nat.eqb (fst e) (fst e') && Nat.eqb (snd e) (snd e').

(** [MERGE (v)-[:OF_CLASS]->(cv)] for one bound pair *)
Definition merge_edge (edges : list (nat * nat)) (e : nat * nat) : list (nat * nat) :=
  if existsb (same_edge e) edges then edges else edges ++ [e].

(** The query sent by every tier:
<<
  MATCH (v:`ADaM Variable` {name: $var_name, dataset: $dataset})
  MATCH (cv:`ADaM Class Variable` {name: $class_var_name})
  MERGE (v)-[:OF_CLASS]->(cv)
  RETURN count( * ) as cnt
>>
    It returns the graph after the merge and [cnt], the number of rows. *)
Definition run_of_class (var_name dataset class_var_name : string) (g : graph)
  : graph * nat :=
  let vs := positions (same_key (var_name, dataset)) 0 (adam_variable_nodes g) in
  let cvs := positions (String.eqb class_var_name) 0 (class_variable_nodes g) in
  let rows := list_prod vs cvs in
  (Graph (class_variable_nodes g) (adam_variable_nodes g)
         (fold_left merge_edge rows (of_class g)),
   List.length rows).

End Neo4j.

(** ** [load_adam_dc_graph.py] *)

(** A row of [adam-class-var.csv] or of [adam-var.csv] as the loaders keep
    it: of the keys of these dictionaries the functions below read ["name"]
    and ["dataset"] only. *)
Record variable : Type := Variable_ { name : string; dataset : string }.

(** What a call does: it returns, raises an exception, or leaves the
    modelled fragment of [re], in which case nothing is said about it. *)
Inductive outcome (A : Type) : Type :=
| Returned (a : A)
| Raised (exn : string) (msg : string)
| Unmodelled (pattern : string).

Arguments Returned {A} a.
Arguments Raised {A} exn msg.
Arguments Unmodelled {A} pattern.

Definition bind (A B : Type) (m : outcome A) (f : A -> outcome B) : outcome B :=
  match m with
  | Returned a => f a
  | Raised exn msg => Raised exn msg
  | Unmodelled p => Unmodelled p
  end.

Notation "x <- m ;; k" := (bind m (fun x => k))
  (at level 61, m at next level, right associativity).
Notation "' pat <- m ;; k" := (bind m (fun x => let 'pat := x in k))
  (at level 61, pat pattern, m at next level, right associativity).

(** The regular expression a template name is turned into
    ([build_pattern_lookup], the five [replace] calls and the anchors). *)
Definition template_regex (var_name : string) : string :=
  let regex := var_name in
  let regex := PyStr.replace "xx" "(\d{2})" regex in
  let regex := PyStr.replace "zz" "(\d{2})" regex in
  let regex := PyStr.replace "y" "(\d+)" regex in
  let regex := PyStr.replace "w" "(\d+)" regex in
  let regex := PyStr.replace "x" "(\d)" regex in
  "^" ++ regex ++ "$".

(** [re.search(r"[a-z]", var_name)] is truthy *)
Definition has_placeholder (var_name : string) : bool :=
  PyStr.has_char PyStr.is_lower var_name.

(** The body of [for var in class_variables] in [build_pattern_lookup]. *)
Definition pattern_step (pattern_lookup : PyDict.t string) (var : variable)
  : PyDict.t string :=
  let var_name := name var in
  (* skip variables starting with -- *)
  if PyStr.startswith var_name "--" then pattern_lookup
  else if has_placeholder var_name
       then PyDict.set (template_regex var_name) var_name pattern_lookup
       else pattern_lookup.

Definition build_pattern_lookup (class_variables : list variable)
  : PyDict.t string * list string :=
  let class_var_names := map name class_variables in
  let pattern_lookup := fold_left pattern_step class_variables [] in
  (pattern_lookup, class_var_names).

(** The body of [for var in class_variables] in [build_suffix_lookup]. *)
Definition suffix_step (suffix_lookup : PyDict.t string) (var : variable)
  : PyDict.t string :=
  let var_name := name var in
  if PyStr.startswith var_name "--"
  then let suffix := PyStr.slice_from 2 var_name in
       PyDict.set suffix var_name suffix_lookup
  else suffix_lookup.

Definition build_suffix_lookup (class_variables : list variable) : PyDict.t string :=
  fold_left suffix_step class_variables [].

(** [sorted(keys, key=len, reverse=True)]: a stable sort, longest first. *)
Fixpoint insert_by_len (x : string) (l : list string) : list string :=
  match l with
  | [] => [x]
  | y :: l' =>
      if Nat.ltb (String.length x) (String.length y)
      then y :: insert_by_len x l'
      else x :: l
  end.

Definition sorted_by_len_desc (l : list string) : list string :=
  fold_right insert_by_len [] l.

(** [{re.compile(p): var_name for p, var_name in pattern_lookup.items()}] *)
Fixpoint compile_patterns (items : list (string * string))
  : outcome (list (Re.regex * string)) :=
  match items with
  | [] => Returned []
  | (p, var_name) :: items' =>
      match Re.compile p with
      | Re.Compiled r =>
          rest <- compile_patterns items' ;;
          Returned ((r, var_name) :: rest)
      | Re.Error exn msg => Raised exn msg
      | Re.Unsupported => Unmodelled p
      end
  end.

(** The tier whose branch of the loop body sent a query. *)
Inductive tier : Type := Exact | Suffix | Pattern.

Record query : Type := Query {
  q_tier : tier;
  q_var_name : string;
  q_dataset : string;
  q_class_var_name : string;
  q_cnt : nat
}.

(** The state the loop of [create_of_class_relationships] works on: the
    graph behind [session], the local [count], and the record of the
    queries sent so far, earliest first. *)
Record state : Type := State {
  st_session : Neo4j.graph;
  st_count : nat;
  st_sent : list query
}.

(** The locals computed before the loop. *)
Record index : Type := Index {
  class_var_names : list string;
  suffix_lookup : PyDict.t string;
  sorted_suffixes : list string;
  compiled_patterns : list (Re.regex * string)
}.

(** [session.run(...)] of a tier, then
    [if record and record["cnt"] > 0: count += 1; matched = True] *)
Definition send (t : tier) (var : variable) (class_var_name : string)
    (st : state) (matched : bool) : state * bool :=
  let '(g, cnt) :=
    Neo4j.run_of_class (name var) (dataset var) class_var_name (st_session st) in
  let q := Query t (name var) (dataset var) class_var_name cnt in
  if Nat.ltb 0 cnt
  then (State g (S (st_count st)) (st_sent st ++ [q]), true)
  else (State g (st_count st) (st_sent st ++ [q]), matched).

(** One iteration of [for var in adam_variables]. *)
Definition of_class_step (idx : index) (st : state) (var : variable)
  : outcome state :=
  let var_name := name var in
  let matched := false in
  (* 1. exact match with a class variable name *)
  let '(st, matched) :=
    if existsb (String.eqb var_name) (class_var_names idx)
    then send Exact var var_name st matched
    else (st, matched) in
  (* 2. suffix matching *)
  '(st, matched) <-
    (if negb matched then
       match find (PyStr.endswith var_name) (sorted_suffixes idx) with
       | Some suffix =>
           match PyDict.get suffix (suffix_lookup idx) with
           | Some class_var_name =>
               Returned (send Suffix var class_var_name st matched)
           | None => Raised "KeyError" suffix
           end
       | None => Returned (st, matched)
       end
     else Returned (st, matched)) ;;
  (* 3. placeholder pattern matching *)
  if negb matched then
    match find (fun item => Re.matches (fst item) var_name) (compiled_patterns idx) with
    | Some (_, class_var_name) =>
        Returned (fst (send Pattern var class_var_name st matched))
    | None => Returned st
    end
  else Returned st.

(** The locals [create_of_class_relationships] computes before its loop. *)
Definition build_index (class_variables : list variable) : outcome index :=
  let '(pattern_lookup, class_var_names) := build_pattern_lookup class_variables in
  let suffix_lookup := build_suffix_lookup class_variables in
  compiled_patterns <- compile_patterns (PyDict.items pattern_lookup) ;;
  let sorted_suffixes := sorted_by_len_desc (PyDict.keys suffix_lookup) in
  Returned (Index class_var_names suffix_lookup sorted_suffixes compiled_patterns).

Fixpoint of_class_loop (idx : index) (st : state) (adam_variables : list variable)
  : outcome state :=
  match adam_variables with
  | [] => Returned st
  | var :: rest =>
      st' <- of_class_step idx st var ;;
      of_class_loop idx st' rest
  end.

(** What a run leaves behind: the graph, the lines printed, and the queries
    sent. *)
Record run : Type := Run {
  final : Neo4j.graph;
  stdout : list string;
  queries : list query
}.

Definition create_of_class_relationships (session : Neo4j.graph)
    (adam_variables class_variables : list variable) : outcome run :=
  let line1 := "Creating OF_CLASS relationships (ADaM Variable -> ADaM Class Variable)..." in
  idx <- build_index class_variables ;;
  st <- of_class_loop idx (State session 0 []) adam_variables ;;
  let line2 :=
    ("  Created " ++ PyStr.of_nat (st_count st) ++ " OF_CLASS relationships")%string in
  Returned (Run (st_session st) [line1; line2] (st_sent st)).

(** The node-creating loops of [load_adam_class_data] and
    [load_adam_variables], over the rows they keep. *)
Definition load_adam_class_data (session : Neo4j.graph) (variables : list variable)
  : Neo4j.graph :=
  fold_left (fun g var => Neo4j.merge_class_variable (name var) g) variables session.

Definition load_adam_variables (session : Neo4j.graph) (variables : list variable)
  : Neo4j.graph :=
  fold_left (fun g var => Neo4j.merge_adam_variable (name var, dataset var) g)
            variables session.

(** [main], from [clear_graph] to the classification.  The loaders left out
    here create nodes of other labels and relationships of other types;
    they touch neither the two kinds of node nor [OF_CLASS]. *)
Definition main (class_variables adam_variables : list variable) : outcome run :=
  let session := Neo4j.clear in
  let session := load_adam_class_data session class_variables in
  let session := load_adam_variables session adam_variables in
  create_of_class_relationships session adam_variables class_variables.

(** ** Classify, as the specification words it

    The tiers in the order exact, suffix, pattern, returning on the first
    hit.  [main_refines_classify] below compares the loop of the source with
    it. *)
Definition classify (idx : index) (var_name : string) : option (tier * string) :=
  if existsb (String.eqb var_name) (class_var_names idx)
  then Some (Exact, var_name)
  else
    match find (PyStr.endswith var_name) (sorted_suffixes idx) with
    | Some suffix =>
        option_map (pair Suffix) (PyDict.get suffix (suffix_lookup idx))
    | None =>
        match find (fun item => Re.matches (fst item) var_name) (compiled_patterns idx) with
        | Some (_, class_var_name) => Some (Pattern, class_var_name)
        | None => None
        end
    end.

(** a template name that gets a pattern: it does not start with [--] and
    holds a lowercase letter *)
Definition eligible (var_name : string) : bool :=
  negb (PyStr.startswith var_name "--") && has_placeholder var_name.

(** a list without its repetitions, every element kept where it first occurs *)
Fixpoint first_occurrences (l : list string) : list string :=
  match l with
  | [] => []
  | x :: l' => x :: filter (fun y => negb (String.eqb y x)) (first_occurrences l')
  end.

(** the store holds a node for every name the index can answer with *)
Definition index_loaded (idx : index) (g : Neo4j.graph) : Prop :=
  (forall n, In n (class_var_names idx) -> In n (Neo4j.class_variable_nodes g)) /\
  (forall s, In s (sorted_suffixes idx) ->
     exists c, PyDict.get s (suffix_lookup idx) = Some c /\
               In c (Neo4j.class_variable_nodes g)) /\
  (forall cp, In cp (compiled_patterns idx) ->
     In (snd cp) (Neo4j.class_variable_nodes g)).

(** the queries the specification's Classify stands for *)
Definition classified (idx : index) (var : variable)
  : list (tier * string * string * string) :=
  match classify idx (name var) with
  | Some (t, class_var_name) => [(t, name var, dataset var, class_var_name)]
  | None => []
  end.

(** two graphs with the same nodes *)
Definition same_nodes (g g' : Neo4j.graph) : Prop :=
  Neo4j.class_variable_nodes g' = Neo4j.class_variable_nodes g /\
  Neo4j.adam_variable_nodes g' = Neo4j.adam_variable_nodes g.

(** a string made of decimal digits *)
Fixpoint all_digits (s : string) : bool :=
  match s with
  | EmptyString => true
  | String c s' => PyStr.is_digit c && all_digits s'
  end.

(** a character that does not occur in a string *)
Definition free_of (c : ascii) (s : string) : bool :=
  negb (PyStr.has_char (Ascii.eqb c) s).

(** a literal part of a template: none of the placeholder letters in it *)
Definition placeholder_free (s : string) : bool :=
  free_of "x" s && free_of "z" s && free_of "y" s && free_of "w" s.

(** the literal parts of the conventional template names: capital letters
    and digits *)
Definition plain_char (c : ascii) : bool :=
  let n := nat_of_ascii c in
  (Nat.leb 65 n && Nat.leb n 90) || PyStr.is_digit c.

Fixpoint all_plain (s : string) : bool :=
  match s with
  | EmptyString => true
  | String c s' => plain_char c && all_plain s'
  end.

Definition literals (s : string) : list Re.regex :=
  map Re.Lit (list_ascii_of_string s).

(** the pattern of a template with one slot between two literal parts *)
Definition slot_pattern (p : string) (slot : Re.regex) (q : string) : Re.regex :=
  Re.seq_of (Re.AtBeginning :: literals p ++ slot :: literals q ++ [Re.AtEnd]).

Definition two_digits : Re.regex := Re.Group (Re.Repeat Re.Digit 2 (Some 0)).
Definition digit_run : Re.regex := Re.Group (Re.Repeat Re.Digit 1 None).

(** how the keys of a dictionary grow on an assignment *)
Definition add_key (acc : list string) (k : string) : list string :=
  if existsb (String.eqb k) acc then acc else acc ++ [k].

(** an entry of [compiled_patterns] comes from an entry of [pattern_lookup] *)
Definition compiles_to (item : string * string) (cp : Re.regex * string) : Prop :=
  Re.compile (fst item) = Re.Compiled (fst cp) /\ snd item = snd cp.

(** the order of [sorted(..., key=len, reverse=True)] *)
Definition longer_first (a b : string) : Prop := String.length b <= String.length a.

(** what a query says, without the count the store answered *)
Definition q_key (q : query) : tier * string * string * string :=
  (q_tier q, q_var_name q, q_dataset q, q_class_var_name q).

(** ** Further notions about a run *)

(** a query that the store answered with a row *)
Definition hit (q : query) : bool := Nat.ltb 0 (q_cnt q).

Definition tier_rank (t : tier) : nat :=
  match t with Exact => 0 | Suffix => 1 | Pattern => 2 end.

(** the tiers of a list of queries come in the order exact, suffix,
    pattern, each at most once *)
Fixpoint in_tier_order (l : list query) : bool :=
  match l with
  | [] => true
  | q :: l' =>
      forallb (fun q' => Nat.ltb (tier_rank (q_tier q)) (tier_rank (q_tier q'))) l'
      && in_tier_order l'
  end.

(** no query but the last was answered with a row *)
Fixpoint hits_only_last (l : list query) : bool :=
  match l with
  | [] => true
  | [q] => true
  | q :: l' => negb (hit q) && hits_only_last l'
  end.

(** the number of rows the store answers a query with *)
Definition rows (g : Neo4j.graph) (var : variable) (class_var_name : string) : nat :=
  snd (Neo4j.run_of_class (name var) (dataset var) class_var_name g).

(** what is known of the state after some queries for a variable *)
Definition step_facts (var : variable) (st st' : state) (new : list query) : Prop :=
  st_sent st' = st_sent st ++ new /\
  st_count st' = st_count st + List.length (filter hit new) /\
  same_nodes (st_session st) (st_session st') /\
  (exists added,
     Neo4j.of_class (st_session st') = Neo4j.of_class (st_session st) ++ added) /\
  (NoDup (Neo4j.of_class (st_session st)) ->
   NoDup (Neo4j.of_class (st_session st'))) /\
  Forall (fun q => q_var_name q = name var /\ q_dataset q = dataset var /\
                   q_cnt q = rows (st_session st) var (q_class_var_name q)) new.

(** the queries one variable gets from a run over the store [g] *)
Definition group_ok (g : Neo4j.graph) (var : variable) (grp : list query) : Prop :=
  in_tier_order grp = true /\ hits_only_last grp = true /\
  Forall (fun q => q_var_name q = name var /\ q_dataset q = dataset var /\
                   q_cnt q = rows g var (q_class_var_name q)) grp.

(** where the class variable name of a query comes from *)
Definition answer_of (idx : index) (var : variable) (q : query) : Prop :=
  match q_tier q with
  | Exact =>
      existsb (String.eqb (name var)) (class_var_names idx) = true /\
      q_class_var_name q = name var
  | Suffix =>
      exists suffix,
        find (PyStr.endswith (name var)) (sorted_suffixes idx) = Some suffix /\
        PyDict.get suffix (suffix_lookup idx) = Some (q_class_var_name q)
  | Pattern =>
      exists re,
        find (fun item => Re.matches (fst item) (name var)) (compiled_patterns idx)
        = Some (re, q_class_var_name q)
  end.

(** what the class variable name of a query is, for the index of a
    catalogue *)
Definition answer_shape (cvs : list variable) (q : query) : Prop :=
  In (q_class_var_name q) (map name cvs) /\
  match q_tier q with
  | Exact => q_class_var_name q = q_var_name q
  | Suffix =>
      PyStr.startswith (q_class_var_name q) "--" = true /\
      PyStr.endswith (q_var_name q) (PyStr.slice_from 2 (q_class_var_name q)) = true
  | Pattern =>
      eligible (q_class_var_name q) = true /\
      exists re,
        Re.compile (template_regex (q_class_var_name q)) = Re.Compiled re /\
        Re.matches re (q_var_name q) = true
  end.

(** the pairs of nodes that the two [MATCH] clauses of a query bind *)
Definition bound_pairs (g : Neo4j.graph) (q : query) : list (nat * nat) :=
  list_prod
    (Neo4j.positions (Neo4j.same_key (q_var_name q, q_dataset q)) 0
                     (Neo4j.adam_variable_nodes g))
    (Neo4j.positions (String.eqb (q_class_var_name q)) 0
                     (Neo4j.class_variable_nodes g)).

(** two states of the loop that differ in the relationships of the store
    at most *)
Definition alike (st st' : state) : Prop :=
  st_count st' = st_count st /\ st_sent st' = st_sent st /\
  same_nodes (st_session st) (st_session st').

(** the calls of [session.run] of a part of the loop, one after the other *)
Definition sends (trace : list (variable * tier * string)) (st : state) : state :=
  fold_left (fun s x => fst (send (snd (fst x)) (fst (fst x)) (snd x) s false)) trace st.

(** Classify has an answer for the name of a variable *)
Definition answered (idx : index) (var : variable) : bool :=
  match classify idx (name var) with Some _ => true | None => false end.

(** a lowercase letter that [build_pattern_lookup] has no replacement for *)
Definition literal_letter (c : ascii) : bool :=
  PyStr.is_lower c && negb (Ascii.eqb c "x") && negb (Ascii.eqb c "y")
  && negb (Ascii.eqb c "w").

(** the pattern of a template without a slot *)
Definition literal_pattern (t : string) : Re.regex :=
  Re.seq_of (Re.AtBeginning :: literals t ++ [Re.AtEnd]).

(** ** Reading the CSV files

    [str.strip] removes the characters for which [str.isspace] holds from
    both ends; among the code points below 256 these are 9 to 13, 28 to 32,
    133 and 160. *)

Module Strip.

Definition is_space (c : ascii) : bool :=
  let n := nat_of_ascii c in
  (Nat.leb 9 n && Nat.leb n 13) || (Nat.leb 28 n && Nat.leb n 32)
  || Nat.eqb n 133 || Nat.eqb n 160.

Fixpoint lstrip (p : ascii -> bool) (s : string) : string :=
  match s with
  | EmptyString => EmptyString
  | String c s' => if p c then lstrip p s' else s
  end.

Fixpoint rstrip (p : ascii -> bool) (s : string) : string :=
  match s with
  | EmptyString => EmptyString
  | String c s' =>
      match rstrip p s' with
      | EmptyString => if p c then EmptyString else String c EmptyString
      | String c' r => String c (String c' r)
      end
  end.

(** [s.strip()] *)
Definition strip (s : string) : string := rstrip is_space (lstrip is_space s).

(** every character of a string satisfies a test *)
Fixpoint all_chars (p : ascii -> bool) (s : string) : bool :=
  match s with
  | EmptyString => true
  | String c s' => p c && all_chars p s'
  end.

(** the last character of a string *)
Fixpoint last_char (s : string) : option ascii :=
  match s with
  | EmptyString => None
  | String c EmptyString => Some c
  | String _ s' => last_char s'
  end.

End Strip.

Module Csv.

(** A row as [csv.DictReader] yields it: a dictionary from the names of the
    header line to the fields of the line; a line that is too short has
    [None] for the columns it does not reach. *)
Definition row : Type := PyDict.t (option string).

(** the field of a row, [""] where it has none *)
Definition value (r : row) (key : string) : string :=
  match PyDict.get key r with
  | Some (Some v) => v
  | _ => EmptyString
  end.

(** no column of the row is [None] *)
Definition complete (r : row) : Prop :=
  forall key, PyDict.get key r <> Some None.

End Csv.

(** [row.get(key, "").strip()] *)
Definition get_strip (r : Csv.row) (key : string) : outcome string :=
  match PyDict.get key r with
  | Some (Some v) => Returned (Strip.strip v)
  | Some None => Raised "AttributeError" "'NoneType' object has no attribute 'strip'"
  | None => Returned (Strip.strip "")
  end.

(** the truth value of a string: it is not empty *)
Definition truthy (s : string) : bool := negb (s =? "")%string.

(** ** [load_adam_class_data], from the rows of the file to the store

    The store as this function reads and writes it: the names of the
    [ADaM Class Dataset] nodes, the [ADaM Class Variable] nodes with the
    properties the function sets, and the [CONTAINS] relationships from the
    former to the latter. *)

Module ClassData.

(** an entry of [variables]; an [ADaM Class Variable] node carries the same
    six properties *)
Record class_variable : Type := ClassVariable {
  cv_dataset : string;
  cv_name : string;
  cv_label : string;
  cv_type : string;
  cv_core : string;
  cv_variable_set : string
}.

Record graph : Type := Graph {
  class_dataset_nodes : list string;
  class_variable_nodes : list class_variable;
  contains : list (nat * nat)
}.

(** the body of [for row in reader] *)
Definition read_row (r : Csv.row) (variables : list class_variable)
  : outcome (list class_variable) :=
  ds_name <- get_strip r "Data Structure Name" ;;
  var_name <- get_strip r "Variable Name" ;;
  if truthy var_name then
    label <- get_strip r "Variable Label" ;;
    type <- get_strip r "Type" ;;
    core <- get_strip r "Core" ;;
    variable_set <- get_strip r "Variable Set" ;;
    Returned (variables ++ [ClassVariable ds_name var_name label type core variable_set])
  else Returned variables.

Fixpoint read_rows (reader : list Csv.row) (variables : list class_variable)
  : outcome (list class_variable) :=
  match reader with
  | [] => Returned variables
  | r :: reader' =>
      variables <- read_row r variables ;;
      read_rows reader' variables
  end.

Definition same_name (var n : class_variable) : bool :=
  (cv_name n =? cv_name var)%string.

(** [MERGE (v:`ADaM Class Variable` {name: $name}) SET v.label = $label, ...]:
    every node of that name gets the five properties of [var]; without such
    a node one is created. *)
Definition merge_set (var : class_variable) (g : graph) : graph :=
  Graph (class_dataset_nodes g)
        (if existsb (same_name var) (class_variable_nodes g)
         then map (fun n => if same_name var n then var else n) (class_variable_nodes g)
         else class_variable_nodes g ++ [var])
        (contains g).

(** [MATCH (d:`ADaM Class Dataset` {name: $ds_name})
     MATCH (v:`ADaM Class Variable` {name: $var_name})
     MERGE (d)-[:CONTAINS]->(v)] *)
Definition merge_contains (var : class_variable) (g : graph) : graph :=
  let ds := Neo4j.positions (String.eqb (cv_dataset var)) 0 (class_dataset_nodes g) in
  let vs := Neo4j.positions (same_name var) 0 (class_variable_nodes g) in
  Graph (class_dataset_nodes g) (class_variable_nodes g)
        (fold_left Neo4j.merge_edge (list_prod ds vs) (contains g)).

(** what the function leaves: the store, the lines printed and the list it
    returns *)
Record loaded : Type := Loaded {
  session : graph;
  printed : list string;
  variables : list class_variable
}.

Definition load_adam_class_data (session : graph) (csv_path : string)
    (reader : list Csv.row) : outcome loaded :=
  let line1 := ("Loading ADaM Class Variables from " ++ csv_path ++ "...")%string in
  variables <- read_rows reader [] ;;
  let line2 :=
    ("  Creating " ++ PyStr.of_nat (List.length variables)
                   ++ " ADaM Class Variable nodes...")%string in
  let session := fold_left (fun g var => merge_set var g) variables session in
  let line3 := "  Creating CONTAINS relationships (Class Dataset -> Class Variable)..." in
  let session :=
    fold_left (fun g var => if truthy (cv_dataset var) then merge_contains var g else g)
              variables session in
  Returned (Loaded session [line1; line2; line3] variables).

(** the row as the classification reads it *)
Definition as_variable (v : class_variable) : variable :=
  Variable_ (cv_name v) (cv_dataset v).

End ClassData.

(** what [load_adam_class_data] makes of a row without [None]: whether it
    keeps it, and the entry it keeps *)
Definition kept (r : Csv.row) : bool :=
  truthy (Strip.strip (Csv.value r "Variable Name")).

Definition entry (r : Csv.row) : ClassData.class_variable :=
  ClassData.ClassVariable
    (Strip.strip (Csv.value r "Data Structure Name"))
    (Strip.strip (Csv.value r "Variable Name"))
    (Strip.strip (Csv.value r "Variable Label"))
    (Strip.strip (Csv.value r "Type"))
    (Strip.strip (Csv.value r "Core"))
    (Strip.strip (Csv.value r "Variable Set")).

(** a string that [strip] leaves as it is *)
Definition stripped (s : string) : Prop := Strip.strip s = s.

(** ** [load_adam_variables]: the rows of [adam-var.csv] *)

Module VarData.

(** an entry of [variables] *)
Record adam_variable : Type := AdamVariable {
  av_name : string;
  av_dataset : string;
  av_label : string;
  av_type : string;
  av_length : string;
  av_display_format : string;
  av_controlled_terms : string
}.

(** the body of [for row in reader] *)
Definition read_row (r : Csv.row) (variables : list adam_variable)
  : outcome (list adam_variable) :=
  var_name <- get_strip r "Variable" ;;
  ds_name <- get_strip r "Dataset" ;;
  if truthy var_name && truthy ds_name then
    label <- get_strip r "Variable Label" ;;
    type <- get_strip r "Type" ;;
    length <- get_strip r "Length" ;;
    display_format <- get_strip r "Display Format" ;;
    controlled_terms <- get_strip r "Controlled Terms" ;;
    Returned (variables ++ [AdamVariable var_name ds_name label type length
                                         display_format controlled_terms])
  else Returned variables.

Fixpoint read_rows (reader : list Csv.row) (variables : list adam_variable)
  : outcome (list adam_variable) :=
  match reader with
  | [] => Returned variables
  | r :: reader' =>
      variables <- read_row r variables ;;
      read_rows reader' variables
  end.

(** the row as the classification reads it *)
Definition as_variable (v : adam_variable) : variable :=
  Variable_ (av_name v) (av_dataset v).

End VarData.

(** [main] with the reading of the two files: the lists that
    [load_adam_class_data] and [load_adam_variables] return are the ones
    [create_of_class_relationships] works on. *)
Definition main_from_rows (class_reader var_reader : list Csv.row) : outcome run :=
  class_variables <- ClassData.read_rows class_reader [] ;;
  adam_variables <- VarData.read_rows var_reader [] ;;
  main (map ClassData.as_variable class_variables)
       (map VarData.as_variable adam_variables).

(** a name as the loaders return it: not empty, no whitespace at either end *)
Definition clean (s : string) : Prop := s <> EmptyString /\ stripped s.

(** ** Templates as sequences of literal parts and slots *)

Module Template.

(** the placeholder tokens that [build_pattern_lookup] replaces *)
Inductive slot : Type := XX | ZZ | Y | W | X.

Inductive segment : Type :=
| Literal (s : string)
| Slot (t : slot).

Definition token (t : slot) : string :=
  match t with XX => "xx" | ZZ => "zz" | Y => "y" | W => "w" | X => "x" end.

(** what the [replace] call of a token puts in its place *)
Definition fragment (t : slot) : string :=
  match t with XX | ZZ => "(\d{2})" | Y | W => "(\d+)" | X => "(\d)" end.





Definition item (t : slot) : Re.regex :=
  match t with XX | ZZ => two_digits | Y | W => digit_run | X => Re.Group Re.Digit end.

Fixpoint items (segs : list segment) : list Re.regex :=
  match segs with
  | [] => []
  | Literal s :: segs' => literals s ++ items segs'
  | Slot t :: segs' => item t :: items segs'
  end.

Definition pattern (segs : list segment) : Re.regex :=
  Re.seq_of (Re.AtBeginning :: items segs ++ [Re.AtEnd]).





End Template.

(** * Properties *)

Unset Implicit Arguments.

(** ** Strings *)

Section StringFacts.

Lemma append_nil_r (s : string) : (s ++ "")%string = s.
Proof. induction s as [|c s IH]; simpl; [reflexivity | now rewrite IH]. Qed.

Lemma append_assoc (a b c : string) :
  ((a ++ b) ++ c)%string = (a ++ (b ++ c))%string.
Proof. induction a as [|x a IH]; simpl; [reflexivity | now rewrite IH]. Qed.

Lemma length_append (a b : string) :
  String.length (a ++ b) = String.length a + String.length b.
Proof. induction a as [|x a IH]; simpl; [reflexivity | now rewrite IH]. Qed.

Lemma prefix_append (p s : string) : String.prefix p (p ++ s) = true.
Proof.
  induction p as [|c p IH]; simpl.
  - now destruct s.
  - destruct (ascii_dec c c) as [_|n]; [exact IH | now destruct n].
Qed.

Lemma prefix_split (p s : string) :
  String.prefix p s = true -> s = (p ++ PyStr.slice_from (String.length p) s)%string.
Proof.
  revert s; induction p as [|c p IH]; intros s H; simpl.
  - reflexivity.
  - destruct s as [|c' s]; simpl in H; [discriminate|].
    destruct (ascii_dec c c') as [->|]; [|discriminate].
    simpl. now rewrite <- IH.
Qed.

Lemma startswith_dashes (s : string) :
  PyStr.startswith s "--" = true <-> s = ("--" ++ PyStr.slice_from 2 s)%string.
Proof.
  split; intro H.
  - exact (prefix_split "--" s H).
  - rewrite H. apply prefix_append.
Qed.

Lemma endswith_nil (suf : string) :
  PyStr.endswith "" suf = ("" =? suf)%string || false.
Proof. reflexivity. Qed.

Lemma endswith_cons (c : ascii) (s suf : string) :
  PyStr.endswith (String c s) suf = (String c s =? suf)%string || PyStr.endswith s suf.
Proof. reflexivity. Qed.

Lemma endswith_spec (s suf : string) :
  PyStr.endswith s suf = true <-> exists p, s = (p ++ suf)%string.
Proof.
  split.
  - induction s as [|c s IH]; intro H.
    + rewrite endswith_nil, orb_false_r in H. apply String.eqb_eq in H. now exists "".
    + rewrite endswith_cons in H. apply orb_true_iff in H. destruct H as [H|H].
      * apply String.eqb_eq in H. now exists "".
      * destruct (IH H) as [p ->]. now exists (String c p).
  - intros [p ->]. induction p as [|c p IH].
    + destruct suf as [|c suf].
      * reflexivity.
      * change ("" ++ String c suf)%string with (String c suf).
        rewrite endswith_cons. now rewrite String.eqb_refl.
    + change (String c p ++ suf)%string with (String c (p ++ suf)).
      rewrite endswith_cons, IH. apply orb_true_r.
Qed.

Lemma append_inj_length (p1 p2 s1 s2 : string) :
  (p1 ++ s1)%string = (p2 ++ s2)%string -> String.length s1 = String.length s2 ->
  s1 = s2.
Proof.
  revert p2; induction p1 as [|c p1 IH]; intros p2 H L.
  - destruct p2 as [|c2 p2]; simpl in H; [assumption|].
    exfalso. apply (f_equal String.length) in H. simpl in H.
    rewrite length_append in H. lia.
  - destruct p2 as [|c2 p2]; simpl in H.
    + exfalso. apply (f_equal String.length) in H. simpl in H.
      rewrite length_append in H. lia.
    + injection H as _ H. exact (IH _ H L).
Qed.

(** two tails of one string that have the same length are the same *)
Lemma endswith_unique (s a b : string) :
  PyStr.endswith s a = true -> PyStr.endswith s b = true ->
  String.length a = String.length b -> a = b.
Proof.
  intros Ha Hb L. apply endswith_spec in Ha, Hb.
  destruct Ha as [p1 E1], Hb as [p2 E2]. rewrite E1 in E2.
  exact (append_inj_length _ _ _ _ E2 L).
Qed.

Lemma existsb_eqb_In (x : string) (l : list string) :
  existsb (String.eqb x) l = true <-> In x l.
Proof.
  rewrite existsb_exists. split.
  - intros [y [Hy E]]. apply String.eqb_eq in E. now subst.
  - intro H. exists x. split; [assumption | apply String.eqb_refl].
Qed.

End StringFacts.

(** ** Dictionaries *)

Section DictFacts.
Variable V : Type.
Implicit Types (d : PyDict.t V) (k : string) (v : V).

Lemma get_set_same d k v : PyDict.get k (PyDict.set k v d) = Some v.
Proof.
  induction d as [|[k' v'] d IH]; simpl.
  - now rewrite String.eqb_refl.
  - destruct (k' =? k)%string eqn:E; simpl; rewrite E; [reflexivity | exact IH].
Qed.

Lemma get_set_other d k k' v :
  k <> k' -> PyDict.get k' (PyDict.set k v d) = PyDict.get k' d.
Proof.
  intro N. induction d as [|[k0 v0] d IH]; simpl.
  - destruct (k =? k')%string eqn:E; [apply String.eqb_eq in E; contradiction | reflexivity].
  - destruct (k0 =? k)%string eqn:E; simpl.
    + apply String.eqb_eq in E. subst k0.
      destruct (k =? k')%string eqn:E'; [apply String.eqb_eq in E'; contradiction | reflexivity].
    + now rewrite IH.
Qed.

(** assigning to a key keeps the order of the keys; a new key goes last *)
Lemma keys_set d k v :
  PyDict.keys (PyDict.set k v d) =
  if existsb (String.eqb k) (PyDict.keys d) then PyDict.keys d
  else PyDict.keys d ++ [k].
Proof.
  unfold PyDict.keys. induction d as [|[k' v'] d IH]; simpl.
  - reflexivity.
  - rewrite (String.eqb_sym k k'). destruct (k' =? k)%string eqn:E; simpl.
    + reflexivity.
    + rewrite IH. now destruct (existsb (String.eqb k) (map fst d)).
Qed.

Lemma get_In_keys d k v : PyDict.get k d = Some v -> In k (PyDict.keys d).
Proof.
  unfold PyDict.keys. induction d as [|[k' v'] d IH]; simpl; [discriminate|].
  destruct (k' =? k)%string eqn:E.
  - apply String.eqb_eq in E. now left.
  - intro H. right. now apply IH.
Qed.

Lemma In_keys_get d k : In k (PyDict.keys d) -> exists v, PyDict.get k d = Some v.
Proof.
  unfold PyDict.keys. induction d as [|[k' v'] d IH]; simpl; [contradiction|].
  intro H. destruct (k' =? k)%string eqn:E.
  - now exists v'.
  - destruct H as [H|H]; [subst; rewrite String.eqb_refl in E; discriminate | now apply IH].
Qed.

Lemma get_In d k v : PyDict.get k d = Some v -> In (k, v) d.
Proof.
  induction d as [|[k' v'] d IH]; simpl; [discriminate|].
  destruct (k' =? k)%string eqn:E.
  - apply String.eqb_eq in E. intro H. injection H as ->. subst. now left.
  - intro H. right. now apply IH.
Qed.

Lemma NoDup_keys_set d k v :
  NoDup (PyDict.keys d) -> NoDup (PyDict.keys (PyDict.set k v d)).
Proof.
  intro H. rewrite keys_set.
  destruct (existsb (String.eqb k) (PyDict.keys d)) eqn:E; [assumption|].
  apply NoDup_app; [assumption | repeat constructor; intros [] | ].
  intros x Hx [<-|[]]. apply existsb_eqb_In in Hx. congruence.
Qed.

Lemma In_NoDup_keys_get d k v :
  NoDup (PyDict.keys d) -> In (k, v) d -> PyDict.get k d = Some v.
Proof.
  unfold PyDict.keys. induction d as [|[k' v'] d IH]; simpl; [contradiction|].
  intros ND [H|H].
  - injection H as -> ->. now rewrite String.eqb_refl.
  - inversion ND as [|? ? Hn ND']; subst.
    destruct (k' =? k)%string eqn:E.
    + apply String.eqb_eq in E. subst. exfalso. apply Hn.
      change k with (fst (k, v)). now apply in_map.
    + now apply IH.
Qed.

End DictFacts.

(** ** [sorted(..., key=len, reverse=True)] *)

Section SortFacts.

Lemma insert_by_len_perm (x : string) (l : list string) :
  Permutation (insert_by_len x l) (x :: l).
Proof.
  induction l as [|y l IH]; simpl.
  - apply Permutation_refl.
  - destruct (Nat.ltb (String.length x) (String.length y)).
    + eapply perm_trans; [apply perm_skip, IH | apply perm_swap].
    + apply Permutation_refl.
Qed.

Lemma sorted_by_len_desc_perm (l : list string) :
  Permutation (sorted_by_len_desc l) l.
Proof.
  induction l as [|x l IH]; simpl.
  - constructor.
  - eapply perm_trans; [apply insert_by_len_perm | now apply perm_skip].
Qed.

Lemma insert_by_len_sorted (x : string) (l : list string) :
  StronglySorted longer_first l -> StronglySorted longer_first (insert_by_len x l).
Proof.
  induction 1 as [|y l Hs IH Hall]; simpl.
  - repeat constructor.
  - destruct (Nat.ltb (String.length x) (String.length y)) eqn:E.
    + apply Nat.ltb_lt in E. constructor; [exact IH|].
      apply (Permutation_Forall (Permutation_sym (insert_by_len_perm x l))).
      constructor; [unfold longer_first; lia | exact Hall].
    + apply Nat.ltb_ge in E. constructor.
      * now constructor.
      * constructor; [exact E|].
        eapply Forall_impl; [|exact Hall]. unfold longer_first. intros; lia.
Qed.

Lemma sorted_by_len_desc_sorted (l : list string) :
  StronglySorted longer_first (sorted_by_len_desc l).
Proof.
  induction l as [|x l IH]; simpl; [constructor | now apply insert_by_len_sorted].
Qed.

(** the first hit of a scan over a list sorted longest first is a longest hit *)
Lemma find_sorted_longest (p : string -> bool) (l : list string) (s : string) :
  StronglySorted longer_first l -> find p l = Some s ->
  forall s', In s' l -> p s' = true -> String.length s' <= String.length s.
Proof.
  induction 1 as [|y l Hs IH Hall]; simpl; [discriminate|].
  destruct (p y) eqn:E.
  - intros H s' [<-|Hin] _; injection H as <-; [lia|].
    rewrite Forall_forall in Hall. exact (Hall _ Hin).
  - intros H s' [<-|Hin] Hp; [congruence | now apply IH].
Qed.

Lemma find_none_iff (A : Type) (p : A -> bool) (l : list A) :
  find p l = None <-> forall x, In x l -> p x = false.
Proof.
  split; [apply find_none|].
  induction l as [|y l IH]; simpl; [reflexivity|].
  intro H. rewrite (H y (or_introl eq_refl)). apply IH. intros; apply H; now right.
Qed.

End SortFacts.

(** ** The lookups *)

Section LookupFacts.

Lemma build_suffix_lookup_fold (cvs : list variable) :
  build_suffix_lookup cvs = fold_left suffix_step cvs [].
Proof. reflexivity. Qed.

Lemma pattern_step_eligible (d : PyDict.t string) (var : variable) :
  pattern_step d var =
  if eligible (name var) then PyDict.set (template_regex (name var)) (name var) d else d.
Proof.
  unfold pattern_step, eligible.
  destruct (PyStr.startswith (name var) "--"); simpl; [reflexivity|].
  now destruct (has_placeholder (name var)).
Qed.

Lemma In_set (V : Type) (d : PyDict.t V) (k k' : string) (v v' : V) :
  In (k', v') (PyDict.set k v d) -> In (k', v') d \/ (k' = k /\ v' = v).
Proof.
  induction d as [|[k0 v0] d IH]; simpl.
  - intros [H|[]]. injection H as <- <-. now right.
  - destruct (k0 =? k)%string eqn:E; simpl.
    + apply String.eqb_eq in E. subst k0.
      intros [H|H]; [injection H as <- <-; now right | left; now right].
    + intros [H|H]; [left; now left|].
      destruct (IH H) as [H'|H']; [left; now right | now right].
Qed.

(** every entry of the suffix map comes from a template [--suffix] *)
Lemma suffix_fold_entries (cvs : list variable) (d : PyDict.t string) (k t : string) :
  In (k, t) (fold_left suffix_step cvs d) ->
  In (k, t) d \/ (t = ("--" ++ k)%string /\ In t (map name cvs)).
Proof.
  revert d; induction cvs as [|cv cvs IH]; intros d H; simpl in *; [now left|].
  destruct (IH _ H) as [H'|[E Hin]]; [|right; split; [assumption | now right]].
  unfold suffix_step in H'.
  destruct (PyStr.startswith (name cv) "--") eqn:S; [|now left].
  apply In_set in H'. destruct H' as [H''|[-> ->]]; [now left|].
  right. split; [now apply startswith_dashes | now left].
Qed.

Lemma suffix_fold_NoDup (cvs : list variable) (d : PyDict.t string) :
  NoDup (PyDict.keys d) -> NoDup (PyDict.keys (fold_left suffix_step cvs d)).
Proof.
  revert d; induction cvs as [|cv cvs IH]; intros d H; simpl; [assumption|].
  apply IH. unfold suffix_step.
  destruct (PyStr.startswith (name cv) "--"); [now apply NoDup_keys_set | assumption].
Qed.

Lemma suffix_fold_keeps_keys (cvs : list variable) (d : PyDict.t string) (k : string) :
  In k (PyDict.keys d) -> In k (PyDict.keys (fold_left suffix_step cvs d)).
Proof.
  revert d; induction cvs as [|cv cvs IH]; intros d H; simpl; [assumption|].
  apply IH. unfold suffix_step.
  destruct (PyStr.startswith (name cv) "--"); [|assumption].
  rewrite keys_set. destruct (existsb _ _); [assumption | apply in_or_app; now left].
Qed.

Lemma suffix_fold_registers (cvs : list variable) (d : PyDict.t string) (cv : variable) :
  In cv cvs -> PyStr.startswith (name cv) "--" = true ->
  In (PyStr.slice_from 2 (name cv)) (PyDict.keys (fold_left suffix_step cvs d)).
Proof.
  revert d; induction cvs as [|c cvs IH]; intros d Hin S; [destruct Hin|].
  destruct Hin as [->|Hin]; simpl.
  - apply suffix_fold_keeps_keys. unfold suffix_step. rewrite S.
    eapply get_In_keys. apply get_set_same.
  - now apply IH.
Qed.

(** the suffix map: its keys are the names of the [--] templates without
    their first two characters, each mapped to its template *)
Lemma suffix_lookup_get (cvs : list variable) (k t : string) :
  PyDict.get k (build_suffix_lookup cvs) = Some t ->
  t = ("--" ++ k)%string /\ In t (map name cvs).
Proof.
  intro H. apply get_In in H. rewrite build_suffix_lookup_fold in H.
  apply suffix_fold_entries in H. destruct H as [[]|H']. exact H'.
Qed.

Lemma suffix_lookup_keys (cvs : list variable) (k : string) :
  In k (PyDict.keys (build_suffix_lookup cvs)) <->
  In ("--" ++ k)%string (map name cvs).
Proof.
  split; intro H.
  - apply In_keys_get in H. destruct H as [t Ht].
    apply suffix_lookup_get in Ht. destruct Ht as [-> Hin]. exact Hin.
  - apply in_map_iff in H. destruct H as [cv [E Hin]].
    assert (S : PyStr.startswith (name cv) "--" = true)
      by (rewrite E; apply prefix_append).
    pose proof (suffix_fold_registers cvs [] cv Hin S) as K.
    rewrite E in K. exact K.
Qed.

Lemma suffix_lookup_value (cvs : list variable) (k : string) :
  In k (PyDict.keys (build_suffix_lookup cvs)) ->
  PyDict.get k (build_suffix_lookup cvs) = Some ("--" ++ k)%string.
Proof.
  intro H. apply In_keys_get in H. destruct H as [t Ht].
  rewrite Ht. apply suffix_lookup_get in Ht. now destruct Ht as [-> _].
Qed.

Lemma pattern_fold_entries (cvs : list variable) (d : PyDict.t string) (k t : string) :
  In (k, t) (fold_left pattern_step cvs d) ->
  In (k, t) d \/
  (In t (map name cvs) /\ eligible t = true /\ k = template_regex t).
Proof.
  revert d; induction cvs as [|cv cvs IH]; intros d H; simpl in *; [now left|].
  destruct (IH _ H) as [H'|[Hin E]]; [|right; split; [now right | assumption]].
  rewrite pattern_step_eligible in H'.
  destruct (eligible (name cv)) eqn:El; [|now left].
  apply In_set in H'. destruct H' as [H''|[-> ->]]; [now left|].
  right. repeat split; [now left | assumption].
Qed.

Lemma pattern_fold_NoDup (cvs : list variable) (d : PyDict.t string) :
  NoDup (PyDict.keys d) -> NoDup (PyDict.keys (fold_left pattern_step cvs d)).
Proof.
  revert d; induction cvs as [|cv cvs IH]; intros d H; simpl; [assumption|].
  apply IH. rewrite pattern_step_eligible.
  destruct (eligible (name cv)); [now apply NoDup_keys_set | assumption].
Qed.

(** a later assignment to another key leaves the entry of a key alone *)
Lemma pattern_fold_keeps (cvs : list variable) (d : PyDict.t string) (k : string) :
  (forall c, In c cvs -> eligible (name c) = true -> template_regex (name c) <> k) ->
  PyDict.get k (fold_left pattern_step cvs d) = PyDict.get k d.
Proof.
  revert d; induction cvs as [|cv cvs IH]; intros d H; simpl; [reflexivity|].
  rewrite IH by (intros c Hc; apply H; now right).
  rewrite pattern_step_eligible.
  destruct (eligible (name cv)) eqn:El; [|reflexivity].
  apply get_set_other. apply H; [now left | assumption].
Qed.

(** the value of a key is the name of the last template that compiles to it *)
Lemma pattern_fold_last (l1 l2 : list variable) (cv : variable) (d : PyDict.t string) :
  eligible (name cv) = true ->
  (forall c, In c l2 -> eligible (name c) = true ->
             template_regex (name c) <> template_regex (name cv)) ->
  PyDict.get (template_regex (name cv)) (fold_left pattern_step (l1 ++ cv :: l2) d)
  = Some (name cv).
Proof.
  intros El H. rewrite fold_left_app. simpl.
  rewrite pattern_fold_keeps by exact H.
  rewrite pattern_step_eligible, El. apply get_set_same.
Qed.


Lemma filter_filter (A : Type) (p q : A -> bool) (l : list A) :
  filter p (filter q l) = filter (fun x => q x && p x) l.
Proof.
  induction l as [|x l IH]; simpl; [reflexivity|].
  destruct (q x); simpl; [destruct (p x); now rewrite IH | exact IH].
Qed.

Lemma add_keys_first_occurrences (ks acc : list string) :
  fold_left add_key ks acc =
  acc ++ filter (fun k => negb (existsb (String.eqb k) acc)) (first_occurrences ks).
Proof.
  revert acc; induction ks as [|k ks IH]; intros acc; simpl.
  - now rewrite app_nil_r.
  - rewrite IH. unfold add_key.
    destruct (existsb (String.eqb k) acc) eqn:E; simpl.
    + f_equal. rewrite filter_filter. apply filter_ext_in. intros y _.
      destruct (y =? k)%string eqn:Ey; simpl; [|reflexivity].
      apply String.eqb_eq in Ey. subst y. now rewrite E.
    + rewrite <- app_assoc. simpl. do 2 f_equal.
      rewrite filter_filter. apply filter_ext_in. intros y _.
      rewrite existsb_app. simpl. rewrite orb_false_r, negb_orb.
      apply andb_comm.
Qed.


Lemma pattern_lookup_entries (cvs : list variable) (k t : string) :
  In (k, t) (fst (build_pattern_lookup cvs)) ->
  In t (map name cvs) /\ eligible t = true /\ k = template_regex t.
Proof.
  simpl. intro H. apply pattern_fold_entries in H. now destruct H as [[]|H].
Qed.

(** *** [compile_patterns] *)

Lemma compile_patterns_returned (items : list (string * string))
    (cps : list (Re.regex * string)) :
  compile_patterns items = Returned cps -> Forall2 compiles_to items cps.
Proof.
  revert cps; induction items as [|[p t] items IH]; intros cps H; simpl in H.
  - injection H as <-. constructor.
  - destruct (Re.compile p) eqn:E; try discriminate.
    destruct (compile_patterns items) as [rest| |] eqn:E'; try discriminate.
    simpl in H. injection H as <-. constructor; [now split | now apply IH].
Qed.

Lemma compile_patterns_total (items : list (string * string)) :
  (forall item, In item items -> exists r, Re.compile (fst item) = Re.Compiled r) ->
  exists cps, compile_patterns items = Returned cps.
Proof.
  induction items as [|[p t] items IH]; intro H; simpl.
  - now exists [].
  - destruct (H (p, t) (or_introl eq_refl)) as [r E]. simpl in E. rewrite E.
    destruct IH as [cps ->]; [intros; apply H; now right|].
    simpl. eauto.
Qed.

Lemma Forall2_in_left (A B : Type) (R : A -> B -> Prop) (l : list A) (l' : list B)
    (a : A) :
  Forall2 R l l' -> In a l -> exists b, In b l' /\ R a b.
Proof.
  induction 1 as [|x y l l' Hxy _ IH]; intros Hin; [destruct Hin|].
  destruct Hin as [->|Hin].
  - exists y. split; [now left | assumption].
  - destruct (IH Hin) as [b [Hb Rb]]. exists b. split; [now right | assumption].
Qed.

Lemma Forall2_map_snd (items : list (string * string)) (cps : list (Re.regex * string)) :
  Forall2 compiles_to items cps -> map snd cps = map snd items.
Proof.
  induction 1 as [|? ? ? ? [_ E]]; simpl; [reflexivity | now f_equal].
Qed.

End LookupFacts.

(** ** The store *)

Section StoreFacts.

Lemma positions_length (A : Type) (p : A -> bool) (from : nat) (l : list A) (a : A) :
  In a l -> p a = true -> 0 < List.length (Neo4j.positions p from l).
Proof.
  revert from; induction l as [|x l IH]; intros from Hin Hp; [destruct Hin|].
  simpl. destruct Hin as [->|Hin].
  - rewrite Hp. simpl. lia.
  - destruct (p x); simpl; [lia | now apply IH].
Qed.

Lemma same_key_refl (k : string * string) : Neo4j.same_key k k = true.
Proof. unfold Neo4j.same_key. now rewrite !String.eqb_refl. Qed.

Lemma same_key_eq (k k' : string * string) : Neo4j.same_key k k' = true -> k = k'.
Proof.
  destruct k, k'. unfold Neo4j.same_key. simpl. intro H.
  apply andb_true_iff in H. destruct H as [H1 H2].
  apply String.eqb_eq in H1, H2. now subst.
Qed.

(** the query answers with at least one row when both nodes are there, and
    it leaves the nodes as they are *)
Lemma run_of_class_rows (var_name ds class_var_name : string) (g : Neo4j.graph) :
  In (var_name, ds) (Neo4j.adam_variable_nodes g) ->
  In class_var_name (Neo4j.class_variable_nodes g) ->
  0 < snd (Neo4j.run_of_class var_name ds class_var_name g).
Proof.
  intros Hv Hc. unfold Neo4j.run_of_class. simpl. rewrite length_prod.
  apply Nat.mul_pos_pos.
  - eapply positions_length; [exact Hv | apply same_key_refl].
  - eapply positions_length; [exact Hc | apply String.eqb_refl].
Qed.

Lemma run_of_class_nodes (var_name ds class_var_name : string) (g : Neo4j.graph) :
  Neo4j.class_variable_nodes (fst (Neo4j.run_of_class var_name ds class_var_name g))
  = Neo4j.class_variable_nodes g /\
  Neo4j.adam_variable_nodes (fst (Neo4j.run_of_class var_name ds class_var_name g))
  = Neo4j.adam_variable_nodes g.
Proof. split; reflexivity. Qed.

Lemma load_adam_class_data_nodes (cvs : list variable) (g : Neo4j.graph) :
  (forall n, In n (Neo4j.class_variable_nodes g) \/ In n (map name cvs) ->
             In n (Neo4j.class_variable_nodes (load_adam_class_data g cvs))) /\
  Neo4j.adam_variable_nodes (load_adam_class_data g cvs) = Neo4j.adam_variable_nodes g.
Proof.
  unfold load_adam_class_data.
  revert g; induction cvs as [|cv cvs IH]; intros g; simpl.
  - split; [intros n [H|[]]; exact H | reflexivity].
  - destruct (IH (Neo4j.merge_class_variable (name cv) g)) as [IH1 IH2].
    unfold Neo4j.merge_class_variable in *.
    destruct (existsb (String.eqb (name cv)) (Neo4j.class_variable_nodes g)) eqn:E.
    + split; [|exact IH2]. intros n [H|[<-|H]]; apply IH1; auto.
      left. now apply existsb_eqb_In.
    + simpl in *. split; [|exact IH2].
      intros n [H|[<-|H]]; apply IH1; auto; left; apply in_or_app; simpl; auto.
Qed.

Lemma load_adam_variables_nodes (avs : list variable) (g : Neo4j.graph) :
  (forall k, In k (Neo4j.adam_variable_nodes g) \/
             In k (map (fun av => (name av, dataset av)) avs) ->
             In k (Neo4j.adam_variable_nodes (load_adam_variables g avs))) /\
  Neo4j.class_variable_nodes (load_adam_variables g avs) = Neo4j.class_variable_nodes g.
Proof.
  unfold load_adam_variables.
  revert g; induction avs as [|av avs IH]; intros g; simpl.
  - split; [intros n [H|[]]; exact H | reflexivity].
  - destruct (IH (Neo4j.merge_adam_variable (name av, dataset av) g)) as [IH1 IH2].
    unfold Neo4j.merge_adam_variable in *.
    destruct (existsb (Neo4j.same_key (name av, dataset av))
                      (Neo4j.adam_variable_nodes g)) eqn:E.
    + split; [|exact IH2]. intros n [H|[<-|H]]; apply IH1; auto.
      left. apply existsb_exists in E. destruct E as [k [Hk Ek]].
      apply same_key_eq in Ek. now rewrite Ek.
    + simpl in *. split; [|exact IH2].
      intros n [H|[<-|H]]; apply IH1; auto; left; apply in_or_app; simpl; auto.
Qed.

End StoreFacts.

(** ** The loop of [create_of_class_relationships] *)

Section LoopFacts.

Lemma send_loaded (t : tier) (var : variable) (c : string) (st : state) (m : bool) :
  In (name var, dataset var) (Neo4j.adam_variable_nodes (st_session st)) ->
  In c (Neo4j.class_variable_nodes (st_session st)) ->
  exists g cnt,
    send t var c st m =
      (State g (S (st_count st))
             (st_sent st ++ [Query t (name var) (dataset var) c cnt]), true) /\
    0 < cnt /\ same_nodes (st_session st) g.
Proof.
  intros Hv Hc. unfold send.
  pose proof (run_of_class_rows _ _ _ _ Hv Hc) as R.
  pose proof (run_of_class_nodes (name var) (dataset var) c (st_session st)) as N.
  destruct (Neo4j.run_of_class (name var) (dataset var) c (st_session st)) as [g cnt].
  simpl in R, N. exists g, cnt.
  apply Nat.ltb_lt in R. rewrite R. apply Nat.ltb_lt in R. now repeat split.
Qed.

Lemma index_loaded_same_nodes (idx : index) (g g' : Neo4j.graph) :
  same_nodes g g' -> index_loaded idx g -> index_loaded idx g'.
Proof.
  intros [E _] (H1 & H2 & H3). unfold index_loaded. rewrite E. now repeat split.
Qed.

(** With the nodes in the store, one iteration sends the one query that
    Classify stands for, or none, and the store answers it with a row. *)
Lemma step_loaded (idx : index) (st : state) (var : variable) :
  index_loaded idx (st_session st) ->
  In (name var, dataset var) (Neo4j.adam_variable_nodes (st_session st)) ->
  exists st' new,
    of_class_step idx st var = Returned st' /\
    st_sent st' = st_sent st ++ new /\
    map q_key new = classified idx var /\
    Forall (fun q => 0 < q_cnt q) new /\
    same_nodes (st_session st) (st_session st').
Proof.
  intros (H1 & H2 & H3) Hv.
  unfold of_class_step, classified, classify.
  destruct (existsb (String.eqb (name var)) (class_var_names idx)) eqn:Ex.
  - apply existsb_eqb_In in Ex.
    destruct (send_loaded Exact var (name var) st false Hv (H1 _ Ex))
      as (g & cnt & -> & Hc & Hn).
    simpl. eexists; eexists. split; [reflexivity|]. simpl.
    split; [reflexivity|]. repeat split; auto; apply Hn.
  - simpl.
    destruct (find (PyStr.endswith (name var)) (sorted_suffixes idx)) as [s|] eqn:Fs.
    + destruct (H2 s) as (c & Hg & Hin); [eapply find_some; exact Fs|].
      rewrite Hg.
      destruct (send_loaded Suffix var c st false Hv Hin) as (g & cnt & -> & Hc & Hn).
      simpl. eexists; eexists. split; [reflexivity|]. simpl.
      split; [reflexivity|]. repeat split; auto; apply Hn.
    + simpl.
      destruct (find (fun item => Re.matches (fst item) (name var))
                     (compiled_patterns idx)) as [[r c]|] eqn:Fp.
      * assert (Hin : In c (Neo4j.class_variable_nodes (st_session st))).
        { apply find_some in Fp. exact (H3 _ (proj1 Fp)). }
        destruct (send_loaded Pattern var c st false Hv Hin) as (g & cnt & -> & Hc & Hn).
        simpl. eexists; eexists. split; [reflexivity|]. simpl.
        split; [reflexivity|]. repeat split; auto; apply Hn.
      * exists st, []. rewrite app_nil_r. repeat split; auto.
Qed.

Lemma loop_loaded (idx : index) (avs : list variable) (st : state) :
  index_loaded idx (st_session st) ->
  (forall av, In av avs ->
     In (name av, dataset av) (Neo4j.adam_variable_nodes (st_session st))) ->
  exists st' new,
    of_class_loop idx st avs = Returned st' /\
    st_sent st' = st_sent st ++ new /\
    map q_key new = flat_map (classified idx) avs /\
    Forall (fun q => 0 < q_cnt q) new.
Proof.
  revert st; induction avs as [|av avs IH]; intros st Hi Hv; simpl.
  - exists st, []. rewrite app_nil_r. repeat split; auto.
  - destruct (step_loaded idx st av Hi (Hv av (or_introl eq_refl)))
      as (st1 & new1 & -> & S1 & K1 & P1 & Hn).
    simpl.
    destruct (IH st1) as (st' & new & -> & S2 & K2 & P2).
    + eapply index_loaded_same_nodes; eassumption.
    + intros a Ha. destruct Hn as [_ ->]. apply Hv. now right.
    + exists st', (new1 ++ new). split; [reflexivity|].
      rewrite S2, S1, app_assoc. split; [reflexivity|].
      rewrite map_app, K1, K2. split; [reflexivity | now apply Forall_app].
Qed.

Lemma build_index_returned (cvs : list variable) (idx : index) :
  build_index cvs = Returned idx ->
  exists cps,
    compile_patterns (fst (build_pattern_lookup cvs)) = Returned cps /\
    idx = Index (map name cvs) (build_suffix_lookup cvs)
                (sorted_by_len_desc (PyDict.keys (build_suffix_lookup cvs))) cps.
Proof.
  unfold build_index. simpl. unfold PyDict.items.
  destruct (compile_patterns (fold_left pattern_step cvs [])) as [cps| |];
    simpl; try discriminate.
  intro H. injection H as <-. now exists cps.
Qed.

Lemma build_index_loaded (cvs : list variable) (idx : index) (g : Neo4j.graph) :
  build_index cvs = Returned idx ->
  (forall n, In n (map name cvs) -> In n (Neo4j.class_variable_nodes g)) ->
  index_loaded idx g.
Proof.
  intros H Hg. apply build_index_returned in H. destruct H as (cps & Hc & ->).
  unfold index_loaded. simpl. split; [exact Hg|]. split.
  - intros s Hs.
    apply (Permutation_in _ (sorted_by_len_desc_perm _)) in Hs.
    exists ("--" ++ s)%string. split; [now apply suffix_lookup_value|].
    apply Hg. now apply suffix_lookup_keys.
  - intros [r t] Hin. simpl. apply Hg.
    apply compile_patterns_returned in Hc.
    assert (Ht : In t (map snd cps)) by (change t with (snd (r, t)); now apply in_map).
    rewrite (Forall2_map_snd _ _ Hc) in Ht.
    apply in_map_iff in Ht. destruct Ht as [[k t'] [E Hkt]]. simpl in E. subst t'.
    now apply pattern_lookup_entries in Hkt.
Qed.

(** [main] refines Classify: when the patterns compile, the queries it
    sends are, variable by variable, the ones Classify stands for, and each
    is answered with a row. *)
Lemma main_refines_classify (cvs avs : list variable) (idx : index) :
  build_index cvs = Returned idx ->
  exists r,
    main cvs avs = Returned r /\
    map q_key (queries r) = flat_map (classified idx) avs /\
    Forall (fun q => 0 < q_cnt q) (queries r).
Proof.
  intro Hb. unfold main, create_of_class_relationships. rewrite Hb. simpl.
  set (g := load_adam_variables (load_adam_class_data Neo4j.clear cvs) avs).
  destruct (load_adam_variables_nodes avs (load_adam_class_data Neo4j.clear cvs))
    as [Hav Hcl].
  destruct (load_adam_class_data_nodes cvs Neo4j.clear) as [Hcv _].
  destruct (loop_loaded idx avs (State g 0 [])) as (st' & new & -> & S & K & P).
  - simpl. apply (build_index_loaded cvs idx g Hb).
    intros n Hn. unfold g. rewrite Hcl. apply Hcv. now right.
  - simpl. intros av Hin. apply Hav. right.
    apply in_map_iff. now exists av.
  - simpl in S. subst new. simpl. eexists. split; [reflexivity|]. now split.
Qed.

End LoopFacts.

(** ** [str.replace] *)

Section ReplaceFacts.

Lemma has_char_append (p : ascii -> bool) (a b : string) :
  PyStr.has_char p (a ++ b) = PyStr.has_char p a || PyStr.has_char p b.
Proof.
  induction a as [|c a IH]; simpl; [reflexivity | now rewrite IH, orb_assoc].
Qed.

Lemma free_of_append (c : ascii) (a b : string) :
  free_of c (a ++ b) = free_of c a && free_of c b.
Proof. unfold free_of. now rewrite has_char_append, negb_orb. Qed.

Lemma free_of_cons (c x : ascii) (s : string) :
  free_of c (String x s) = negb (Ascii.eqb c x) && free_of c s.
Proof. unfold free_of. simpl. now rewrite negb_orb. Qed.

Lemma prefix_cons_neq (o c : ascii) (old s : string) :
  Ascii.eqb o c = false -> String.prefix (String o old) (String c s) = false.
Proof.
  intro H. simpl. destruct (ascii_dec o c) as [->|]; [|reflexivity].
  now rewrite Ascii.eqb_refl in H.
Qed.

Lemma prefix_cons_eq (o : ascii) (old s : string) :
  String.prefix (String o old) (String o s) = String.prefix old s.
Proof.
  simpl. destruct (ascii_dec o o) as [_|n]; [reflexivity | now destruct n].
Qed.

(** no occurrence starts inside a part that lacks the first character of
    [old] *)
Lemma replace_free_prefix (o : ascii) (old new a b : string) :
  free_of o a = true ->
  PyStr.replace (String o old) new (a ++ b) = (a ++ PyStr.replace (String o old) new b)%string.
Proof.
  unfold PyStr.replace. induction a as [|c a IH]; intro H; [reflexivity|].
  rewrite free_of_cons in H. apply andb_true_iff in H. destruct H as [Hc Ha].
  apply negb_true_iff in Hc.
  change (String c a ++ b)%string with (String c (a ++ b)).
  cbn [PyStr.replace_from]. rewrite (prefix_cons_neq _ _ _ _ Hc).
  now rewrite IH.
Qed.

Lemma replace_free (o : ascii) (old new a : string) :
  free_of o a = true -> PyStr.replace (String o old) new a = a.
Proof.
  intro H. rewrite <- (append_nil_r a) at 1.
  rewrite replace_free_prefix by exact H. unfold PyStr.replace. simpl.
  apply append_nil_r.
Qed.

Lemma replace_from_skip (old new a b : string) :
  PyStr.replace_from (String.length a) old new (a ++ b) = PyStr.replace_from 0 old new b.
Proof. induction a as [|c a IH]; [reflexivity | exact IH]. Qed.

(** an occurrence at the front is replaced, and the scan goes on after it *)
Lemma replace_occurrence (o : ascii) (old new b : string) :
  PyStr.replace (String o old) new (String o old ++ b) =
  (new ++ PyStr.replace (String o old) new b)%string.
Proof.
  unfold PyStr.replace.
  change (String o old ++ b)%string with (String o (old ++ b)).
  cbn [PyStr.replace_from].
  change (String o (old ++ b)) with (String o old ++ b)%string.
  rewrite prefix_append.
  replace (String.length (String o old) - 1) with (String.length old)
    by (simpl; lia).
  now rewrite replace_from_skip.
Qed.

End ReplaceFacts.

(** ** Template compilation *)

(** move the scan of [replace] past the parts that hold no occurrence *)
Ltac scan :=
  repeat (rewrite replace_free_prefix by (assumption || reflexivity)).

Section TemplateFacts.

Lemma placeholder_free_split (s : string) :
  placeholder_free s = true ->
  free_of "x" s = true /\ free_of "z" s = true /\
  free_of "y" s = true /\ free_of "w" s = true.
Proof.
  unfold placeholder_free. intro H.
  repeat (apply andb_true_iff in H; destruct H as [H ?]). auto.
Qed.

(** a lone [x] is not an occurrence of [xx] *)
Lemma replace_xx_single (new r : string) :
  free_of "x" r = true ->
  PyStr.replace "xx" new (String "x" r) = String "x" r.
Proof.
  intro H. unfold PyStr.replace. cbn [PyStr.replace_from].
  assert (P : String.prefix "xx" (String "x" r) = false).
  { destruct r as [|c r]; [reflexivity|].
    rewrite free_of_cons in H. apply andb_true_iff in H. destruct H as [Hc _].
    apply negb_true_iff in Hc.
    change "xx" with (String "x" "x"). rewrite prefix_cons_eq.
    now apply prefix_cons_neq. }
  rewrite P. f_equal. exact (replace_free "x" "x" new r H).
Qed.

Lemma template_regex_slots (p0 p1 p2 p3 p4 p5 : string) :
  placeholder_free p0 = true -> placeholder_free p1 = true ->
  placeholder_free p2 = true -> placeholder_free p3 = true ->
  placeholder_free p4 = true -> placeholder_free p5 = true ->
  template_regex (p0 ++ "xx" ++ p1 ++ "zz" ++ p2 ++ "y" ++ p3 ++ "w" ++ p4 ++ "x" ++ p5)
  = ("^" ++ p0 ++ "(\d{2})" ++ p1 ++ "(\d{2})" ++ p2 ++ "(\d+)" ++ p3 ++ "(\d+)"
         ++ p4 ++ "(\d)" ++ p5 ++ "$")%string.
Proof.
  intros H0 H1 H2 H3 H4 H5.
  apply placeholder_free_split in H0, H1, H2, H3, H4, H5.
  destruct H0 as (X0 & Z0 & Y0 & W0), H1 as (X1 & Z1 & Y1 & W1),
           H2 as (X2 & Z2 & Y2 & W2), H3 as (X3 & Z3 & Y3 & W3),
           H4 as (X4 & Z4 & Y4 & W4), H5 as (X5 & Z5 & Y5 & W5).
  unfold template_regex.
  assert (E1 : PyStr.replace "xx" "(\d{2})"
                 (p0 ++ "xx" ++ p1 ++ "zz" ++ p2 ++ "y" ++ p3 ++ "w" ++ p4 ++ "x" ++ p5)
               = (p0 ++ "(\d{2})" ++ p1 ++ "zz" ++ p2 ++ "y" ++ p3 ++ "w" ++ p4
                     ++ "x" ++ p5)%string).
  { scan. rewrite replace_occurrence. scan.
    change ("x" ++ p5)%string with (String "x" p5).
    now rewrite (replace_xx_single _ p5 X5). }
  rewrite E1; clear E1.
  assert (E2 : PyStr.replace "zz" "(\d{2})"
                 (p0 ++ "(\d{2})" ++ p1 ++ "zz" ++ p2 ++ "y" ++ p3 ++ "w" ++ p4
                     ++ "x" ++ p5)
               = (p0 ++ "(\d{2})" ++ p1 ++ "(\d{2})" ++ p2 ++ "y" ++ p3 ++ "w" ++ p4
                     ++ "x" ++ p5)%string).
  { scan. rewrite replace_occurrence. scan. now rewrite (replace_free _ _ _ p5 Z5). }
  rewrite E2; clear E2.
  assert (E3 : PyStr.replace "y" "(\d+)"
                 (p0 ++ "(\d{2})" ++ p1 ++ "(\d{2})" ++ p2 ++ "y" ++ p3 ++ "w" ++ p4
                     ++ "x" ++ p5)
               = (p0 ++ "(\d{2})" ++ p1 ++ "(\d{2})" ++ p2 ++ "(\d+)" ++ p3 ++ "w" ++ p4
                     ++ "x" ++ p5)%string).
  { scan. rewrite replace_occurrence. scan. now rewrite (replace_free _ _ _ p5 Y5). }
  rewrite E3; clear E3.
  assert (E4 : PyStr.replace "w" "(\d+)"
                 (p0 ++ "(\d{2})" ++ p1 ++ "(\d{2})" ++ p2 ++ "(\d+)" ++ p3 ++ "w" ++ p4
                     ++ "x" ++ p5)
               = (p0 ++ "(\d{2})" ++ p1 ++ "(\d{2})" ++ p2 ++ "(\d+)" ++ p3 ++ "(\d+)"
                     ++ p4 ++ "x" ++ p5)%string).
  { scan. rewrite replace_occurrence. scan. now rewrite (replace_free _ _ _ p5 W5). }
  rewrite E4; clear E4.
  assert (E5 : PyStr.replace "x" "(\d)"
                 (p0 ++ "(\d{2})" ++ p1 ++ "(\d{2})" ++ p2 ++ "(\d+)" ++ p3 ++ "(\d+)"
                     ++ p4 ++ "x" ++ p5)
               = (p0 ++ "(\d{2})" ++ p1 ++ "(\d{2})" ++ p2 ++ "(\d+)" ++ p3 ++ "(\d+)"
                     ++ p4 ++ "(\d)" ++ p5)%string).
  { scan. rewrite replace_occurrence. now rewrite (replace_free _ _ _ p5 X5). }
  rewrite E5; clear E5.
  now rewrite !append_assoc.
Qed.

End TemplateFacts.

(** ** Templates with one digit slot between literal parts *)

Section SlotFacts.

(** what the program's functions make of a capital letter or a digit: it
    is no placeholder, no newline, no dash, and the parser reads it as a
    literal *)
Lemma plain_char_facts (c : ascii) :
  plain_char c = true ->
  PyStr.is_lower c = false /\ Ascii.eqb c Re.newline = false /\
  Ascii.eqb "-" c = false /\
  forall top stack s,
    Re.parse None top stack (String c s)
    = Re.parse None (Re.push_item (Re.Lit c) top) stack s.
Proof.
  intro Hc. destruct c as [b0 b1 b2 b3 b4 b5 b6 b7].
  destruct b0, b1, b2, b3, b4, b5, b6, b7; try discriminate Hc;
    repeat split; reflexivity.
Qed.

Lemma plain_parse (c : ascii) (top : Re.frame) (stack : list Re.frame) (s : string) :
  plain_char c = true ->
  Re.parse None top stack (String c s)
  = Re.parse None (Re.push_item (Re.Lit c) top) stack s.
Proof. intro Hc. apply (plain_char_facts c Hc). Qed.

Lemma plain_not_newline (c : ascii) :
  plain_char c = true -> Ascii.eqb c Re.newline = false.
Proof. intro Hc. apply (plain_char_facts c Hc). Qed.

Lemma plain_not_dash (c : ascii) : plain_char c = true -> Ascii.eqb "-" c = false.
Proof. intro Hc. apply (plain_char_facts c Hc). Qed.

Lemma literals_cons (c : ascii) (s : string) :
  literals (String c s) = Re.Lit c :: literals s.
Proof. reflexivity. Qed.

(** the parser reads a literal part character by character *)
Lemma parse_plain (p rest : string) (top : Re.frame) (stack : list Re.frame) :
  all_plain p = true ->
  Re.parse None top stack (p ++ rest)
  = Re.parse None (Re.Frame (Re.branches top) (rev (literals p) ++ Re.items top))
             stack rest.
Proof.
  revert top; induction p as [|c p IH]; intros top Hp.
  - now destruct top.
  - simpl in Hp. apply andb_true_iff in Hp. destruct Hp as [Hc Hp].
    change (String c p ++ rest)%string with (String c (p ++ rest)).
    rewrite (plain_parse c top stack _ Hc), (IH _ Hp).
    rewrite literals_cons. simpl. now rewrite <- app_assoc.
Qed.

Lemma parse_two_digits (rest : string) (top : Re.frame) (stack : list Re.frame) :
  Re.parse None top stack ("(\d{2})" ++ rest)
  = Re.parse None (Re.push_item two_digits top) stack rest.
Proof. reflexivity. Qed.

Lemma parse_digit_run (rest : string) (top : Re.frame) (stack : list Re.frame) :
  Re.parse None top stack ("(\d+)" ++ rest)
  = Re.parse None (Re.push_item digit_run top) stack rest.
Proof. reflexivity. Qed.

Lemma compile_slot (p q fragment : string) (slot : Re.regex) :
  all_plain p = true -> all_plain q = true ->
  (forall rest top stack,
     Re.parse None top stack (fragment ++ rest)
     = Re.parse None (Re.push_item slot top) stack rest) ->
  Re.compile ("^" ++ p ++ fragment ++ q ++ "$")
  = Re.Compiled (slot_pattern p slot q).
Proof.
  intros Hp Hq Hf. unfold Re.compile.
  change ("^" ++ p ++ fragment ++ q ++ "$")%string
    with (String "^" (p ++ fragment ++ q ++ "$")).
  cbn [Re.parse]. rewrite (parse_plain p _ _ _ Hp), Hf, (parse_plain q _ _ _ Hq).
  cbn. unfold Re.close_frame, slot_pattern. cbn [Re.items Re.branches rev app Re.alt_of].
  do 2 f_equal.
  rewrite !rev_app_distr. cbn [rev app]. rewrite !rev_app_distr. cbn [rev app].
  rewrite !rev_involutive, <- !app_assoc. reflexivity.
Qed.

Lemma plain_free_of (c : ascii) (s : string) :
  plain_char c = false -> all_plain s = true -> free_of c s = true.
Proof.
  intros Hc. induction s as [|a s IH]; intro Hs; [reflexivity|].
  simpl in Hs. apply andb_true_iff in Hs. destruct Hs as [Ha Hs].
  rewrite free_of_cons, (IH Hs), andb_true_r. apply negb_true_iff.
  destruct (Ascii.eqb_spec c a) as [->|]; [congruence | reflexivity].
Qed.

Lemma plain_placeholder_free (s : string) :
  all_plain s = true -> placeholder_free s = true.
Proof.
  intro H. unfold placeholder_free.
  now rewrite !plain_free_of by (reflexivity || assumption).
Qed.

Lemma template_regex_one_slot (token fragment p q : string) :
  (token = "xx" /\ fragment = "(\d{2})") \/
  (token = "y" /\ fragment = "(\d+)") ->
  all_plain p = true -> all_plain q = true ->
  template_regex (p ++ token ++ q) = ("^" ++ p ++ fragment ++ q ++ "$")%string.
Proof.
  intros Ht Hp Hq.
  apply plain_placeholder_free, placeholder_free_split in Hp, Hq.
  destruct Hp as (Xp & Zp & Yp & Wp), Hq as (Xq & Zq & Yq & Wq).
  unfold template_regex.
  destruct Ht as [[-> ->] | [-> ->]].
  - assert (E1 : PyStr.replace "xx" "(\d{2})" (p ++ "xx" ++ q)
                 = (p ++ "(\d{2})" ++ q)%string).
    { scan. rewrite replace_occurrence. now rewrite (replace_free _ _ _ q Xq). }
    rewrite E1; clear E1.
    assert (E2 : PyStr.replace "zz" "(\d{2})" (p ++ "(\d{2})" ++ q)
                 = (p ++ "(\d{2})" ++ q)%string).
    { scan. now rewrite (replace_free _ _ _ q Zq). }
    rewrite E2; clear E2.
    assert (E3 : PyStr.replace "y" "(\d+)" (p ++ "(\d{2})" ++ q)
                 = (p ++ "(\d{2})" ++ q)%string).
    { scan. now rewrite (replace_free _ _ _ q Yq). }
    rewrite E3; clear E3.
    assert (E4 : PyStr.replace "w" "(\d+)" (p ++ "(\d{2})" ++ q)
                 = (p ++ "(\d{2})" ++ q)%string).
    { scan. now rewrite (replace_free _ _ _ q Wq). }
    rewrite E4; clear E4.
    assert (E5 : PyStr.replace "x" "(\d)" (p ++ "(\d{2})" ++ q)
                 = (p ++ "(\d{2})" ++ q)%string).
    { scan. now rewrite (replace_free _ _ _ q Xq). }
    rewrite E5; clear E5.
    now rewrite !append_assoc.
  - assert (E1 : PyStr.replace "xx" "(\d{2})" (p ++ "y" ++ q) = (p ++ "y" ++ q)%string).
    { scan. now rewrite (replace_free _ _ _ q Xq). }
    rewrite E1; clear E1.
    assert (E2 : PyStr.replace "zz" "(\d{2})" (p ++ "y" ++ q) = (p ++ "y" ++ q)%string).
    { scan. now rewrite (replace_free _ _ _ q Zq). }
    rewrite E2; clear E2.
    assert (E3 : PyStr.replace "y" "(\d+)" (p ++ "y" ++ q)
                 = (p ++ "(\d+)" ++ q)%string).
    { scan. rewrite replace_occurrence. now rewrite (replace_free _ _ _ q Yq). }
    rewrite E3; clear E3.
    assert (E4 : PyStr.replace "w" "(\d+)" (p ++ "(\d+)" ++ q)
                 = (p ++ "(\d+)" ++ q)%string).
    { scan. now rewrite (replace_free _ _ _ q Wq). }
    rewrite E4; clear E4.
    assert (E5 : PyStr.replace "x" "(\d)" (p ++ "(\d+)" ++ q)
                 = (p ++ "(\d+)" ++ q)%string).
    { scan. now rewrite (replace_free _ _ _ q Xq). }
    rewrite E5; clear E5.
    now rewrite !append_assoc.
Qed.

(** *** Matching a slot pattern *)

Lemma run_seq_cons (r : Re.regex) (rs : list Re.regex) (pos : nat) (s : string)
    (k : Re.cont) :
  Re.run (Re.seq_of (r :: rs)) pos s k
  = Re.run r pos s (fun pos' s' => Re.run (Re.seq_of rs) pos' s' k).
Proof. destruct rs; reflexivity. Qed.

(** literals match themselves *)
Lemma run_literals (p s : string) (rs : list Re.regex) (pos : nat) (k : Re.cont) :
  Re.run (Re.seq_of (literals p ++ rs)) pos (p ++ s)%string k
  = Re.run (Re.seq_of rs) (String.length p + pos) s k.
Proof.
  revert pos; induction p as [|c p IH]; intro pos; [reflexivity|].
  rewrite literals_cons. cbn [app]. rewrite run_seq_cons.
  change (String c p ++ s)%string with (String c (p ++ s)%string).
  cbn [Re.run]. rewrite Ascii.eqb_refl, IH. simpl. f_equal. lia.
Qed.

(** and nothing else *)
Lemma run_literals_inv (p s : string) (rs : list Re.regex) (pos : nat) (k : Re.cont) :
  Re.run (Re.seq_of (literals p ++ rs)) pos s k = true ->
  exists s', s = (p ++ s')%string /\
             Re.run (Re.seq_of rs) (String.length p + pos) s' k = true.
Proof.
  revert pos s; induction p as [|c p IH]; intros pos s H.
  - now exists s.
  - rewrite literals_cons in H. cbn [app] in H. rewrite run_seq_cons in H.
    cbn [Re.run] in H. destruct s as [|c' s]; [discriminate|].
    apply andb_true_iff in H. destruct H as [Hc H].
    apply Ascii.eqb_eq in Hc. subst c'.
    destruct (IH _ _ H) as (s' & -> & H').
    exists s'. split; [reflexivity|]. simpl.
    replace (S (String.length p + pos)) with (String.length p + S pos) by lia.
    exact H'.
Qed.

(** the end of a pattern: the literal part [q], then [$] *)
Lemma run_tail (q s : string) (pos : nat) :
  Re.run (Re.seq_of (literals q ++ [Re.AtEnd])) pos s (fun _ _ => true) = true <->
  s = q \/ s = (q ++ String Re.newline "")%string.
Proof.
  split.
  - intro H. apply run_literals_inv in H. destruct H as (s' & -> & H).
    cbn in H. destruct s' as [|c [|c' s']]; try discriminate.
    + left. now rewrite append_nil_r.
    + right. rewrite andb_true_r in H. apply Ascii.eqb_eq in H. now subst c.
  - intros [-> | ->].
    + rewrite <- (append_nil_r q) at 2. now rewrite run_literals.
    + now rewrite run_literals.
Qed.

Lemma at_most_zero (m : Re.matcher) (fuel pos : nat) (s : string) (k : Re.cont) :
  Re.at_most m fuel (Some 0) pos s k = k pos s.
Proof. destruct fuel; simpl; apply orb_false_r. Qed.

Lemma run_two_digits (pos : nat) (s : string) (k : Re.cont) :
  Re.run two_digits pos s k = true <->
  exists c1 c2 s', s = String c1 (String c2 s') /\
                   PyStr.is_digit c1 = true /\ PyStr.is_digit c2 = true /\
                   k (S (S pos)) s' = true.
Proof.
  unfold two_digits. cbn [Re.run Re.at_least]. split.
  - destruct s as [|c1 [|c2 s']]; try discriminate.
    + intro H. apply andb_true_iff in H. destruct H as [_ H]. discriminate.
    + rewrite at_most_zero. intro H.
      apply andb_true_iff in H. destruct H as [H1 H].
      apply andb_true_iff in H. destruct H as [H2 H].
      now exists c1, c2, s'.
  - intros (c1 & c2 & s' & -> & H1 & H2 & H). now rewrite at_most_zero, H1, H2, H.
Qed.

(** an open digit run takes any number of the digits in front of it *)
Lemma digit_run_takes (k : Re.cont) (ds rest : string) :
  all_digits ds = true ->
  forall fuel pos, String.length ds <= fuel ->
  k (String.length ds + pos) rest = true ->
  Re.at_most (Re.run Re.Digit) fuel None pos (ds ++ rest)%string k = true.
Proof.
  induction ds as [|c ds IH]; intros Hd fuel pos Hf Hk.
  - destruct fuel; simpl in *; now rewrite Hk.
  - simpl in Hd. apply andb_true_iff in Hd. destruct Hd as [Hc Hd].
    destruct fuel as [|fuel]; [simpl in Hf; lia|].
    change (String c ds ++ rest)%string with (String c (ds ++ rest)%string).
    cbn [Re.at_most Re.fewer Re.run]. rewrite Hc.
    assert (L : Nat.ltb (String.length (ds ++ rest)%string)
                        (String.length (String c (ds ++ rest)%string)) = true)
      by (apply Nat.ltb_lt; simpl; lia).
    rewrite L, IH; [apply orb_true_r | assumption | simpl in Hf; lia |].
    simpl in Hk. now replace (String.length ds + S pos) with (S (String.length ds + pos)) by lia.
Qed.

(** and only digits *)
Lemma digit_run_inv (k : Re.cont) (fuel : nat) :
  forall pos s,
  Re.at_most (Re.run Re.Digit) fuel None pos s k = true ->
  exists ds rest pos', s = (ds ++ rest)%string /\ k pos' rest = true.
Proof.
  induction fuel as [|fuel IH]; intros pos s H.
  - simpl in H. rewrite orb_false_r in H. now exists "", s, pos.
  - cbn [Re.at_most Re.fewer Re.run] in H. apply orb_true_iff in H.
    destruct H as [H|H]; [now exists "", s, pos|].
    destruct s as [|c s]; [discriminate|].
    apply andb_true_iff in H. destruct H as [_ H].
    apply andb_true_iff in H. destruct H as [_ H].
    destruct (IH _ _ H) as (ds & rest & pos' & -> & Hk).
    now exists (String c ds), rest, pos'.
Qed.

Lemma all_plain_no_newline (s : string) :
  all_plain s = true -> free_of Re.newline s = true.
Proof.
  induction s as [|c s IH]; intro H; [reflexivity|].
  simpl in H. apply andb_true_iff in H. destruct H as [Hc H].
  rewrite free_of_cons, (IH H), andb_true_r. apply negb_true_iff.
  rewrite Ascii.eqb_sym. now apply plain_not_newline.
Qed.

Lemma all_digits_plain (s : string) : all_digits s = true -> all_plain s = true.
Proof.
  induction s as [|c s IH]; intro H; [reflexivity|].
  simpl in *. apply andb_true_iff in H. destruct H as [Hc H].
  rewrite (IH H), andb_true_r. unfold plain_char. rewrite Hc. apply orb_true_r.
Qed.

Lemma all_plain_append (a b : string) :
  all_plain (a ++ b)%string = all_plain a && all_plain b.
Proof.
  induction a as [|c a IH]; simpl; [reflexivity | now rewrite IH, andb_assoc].
Qed.

(** a name made of capital letters and digits does not end with a newline *)
Lemma plain_no_trailing_newline (a b : string) :
  all_plain a = true -> a <> (b ++ String Re.newline "")%string.
Proof.
  intros Ha E. apply all_plain_no_newline in Ha. rewrite E in Ha.
  rewrite free_of_append in Ha. apply andb_true_iff in Ha. destruct Ha as [_ Ha].
  discriminate.
Qed.

(** a two-digit slot between [p] and [q] takes exactly two digits *)
Lemma two_digit_slot_matches (p q ds : string) :
  all_plain p = true -> all_plain q = true -> all_digits ds = true ->
  Re.matches (slot_pattern p two_digits q) (p ++ ds ++ q)%string
  = Nat.eqb (String.length ds) 2.
Proof.
  intros Hp Hq Hd. unfold Re.matches, slot_pattern.
  rewrite run_seq_cons. cbn [Re.run Nat.eqb andb].
  rewrite run_literals, run_seq_cons.
  destruct (Nat.eqb (String.length ds) 2) eqn:L.
  - apply Nat.eqb_eq in L. destruct ds as [|c1 [|c2 [|c3 ds]]]; try discriminate.
    simpl in Hd. rewrite andb_true_r in Hd. apply andb_true_iff in Hd.
    apply run_two_digits. exists c1, c2, q. repeat split; try tauto.
    apply run_tail. now left.
  - apply not_true_is_false. intro H. apply run_two_digits in H.
    destruct H as (c1 & c2 & s' & E & _ & _ & H).
    apply run_tail in H. apply Nat.eqb_neq in L. destruct H as [-> | ->].
    + apply (f_equal String.length) in E. simpl in E.
      rewrite length_append in E. lia.
    + apply (plain_no_trailing_newline (ds ++ q)%string (String c1 (String c2 q))).
      * now rewrite all_plain_append, (all_digits_plain ds Hd), Hq.
      * exact E.
Qed.

Lemma run_digit_run (pos : nat) (s : string) (k : Re.cont) :
  Re.run digit_run pos s k =
  match s with
  | EmptyString => false
  | String c s' =>
      PyStr.is_digit c &&
      Re.at_most (Re.run Re.Digit) (String.length s') None (S pos) s' k
  end.
Proof. destruct s; reflexivity. Qed.

(** an open digit run between [p] and [q] takes one digit or more *)
Lemma digit_run_slot_matches (p q ds : string) :
  all_plain p = true -> all_plain q = true -> all_digits ds = true ->
  Re.matches (slot_pattern p digit_run q) (p ++ ds ++ q)%string
  = negb (Nat.eqb (String.length ds) 0).
Proof.
  intros Hp Hq Hd. unfold Re.matches, slot_pattern.
  rewrite run_seq_cons. cbn [Re.run Nat.eqb andb].
  rewrite run_literals, run_seq_cons, run_digit_run.
  destruct ds as [|c ds].
  - simpl. apply not_true_is_false. intro H.
    destruct q as [|c q]; [discriminate|].
    apply andb_true_iff in H. destruct H as [_ H].
    apply digit_run_inv in H. destruct H as (ds & rest & pos' & E & H).
    apply run_tail in H. destruct H as [-> | ->].
    + apply (f_equal String.length) in E. rewrite length_append in E.
      simpl in E. lia.
    + simpl in Hq. apply andb_true_iff in Hq. destruct Hq as [_ Hq].
      apply (plain_no_trailing_newline q (ds ++ String c q)%string Hq).
      now rewrite append_assoc.
  - simpl in Hd. apply andb_true_iff in Hd. destruct Hd as [Hc Hd].
    change (String c ds ++ q)%string with (String c (ds ++ q)%string).
    cbv beta iota. rewrite Hc. simpl negb. simpl andb.
    apply digit_run_takes; [assumption | rewrite length_append; lia |].
    apply run_tail. now left.
Qed.

(** *** The index of a catalogue with one such template *)

Lemma one_slot_not_suffix_shaped (p token q : string) :
  all_plain p = true -> token = "xx" \/ token = "y" ->
  PyStr.startswith (p ++ token ++ q) "--" = false.
Proof.
  intros Hp Ht. unfold PyStr.startswith. destruct p as [|c p].
  - destruct Ht as [-> | ->]; reflexivity.
  - simpl in Hp. apply andb_true_iff in Hp. destruct Hp as [Hc _].
    change (String c p ++ token ++ q)%string with (String c (p ++ token ++ q)%string).
    change "--" with (String "-" "-"). apply prefix_cons_neq.
    now apply plain_not_dash.
Qed.

Lemma one_slot_has_placeholder (p token q : string) :
  token = "xx" \/ token = "y" -> has_placeholder (p ++ token ++ q) = true.
Proof.
  intro Ht. unfold has_placeholder. rewrite !has_char_append.
  destruct Ht as [-> | ->]; simpl; apply orb_true_r.
Qed.

Lemma one_slot_index (p q token fragment d : string) (slot : Re.regex) :
  (token = "xx" /\ fragment = "(\d{2})" /\ slot = two_digits) \/
  (token = "y" /\ fragment = "(\d+)" /\ slot = digit_run) ->
  all_plain p = true -> all_plain q = true ->
  build_index [Variable_ (p ++ token ++ q) d]
  = Returned (Index [(p ++ token ++ q)%string] [] []
                    [(slot_pattern p slot q, (p ++ token ++ q)%string)]).
Proof.
  intros Ht Hp Hq.
  assert (T : token = "xx" \/ token = "y") by (destruct Ht as [[-> _]|[-> _]]; auto).
  unfold build_index, build_pattern_lookup, build_suffix_lookup.
  cbn [fold_left map]. unfold pattern_step, suffix_step. cbn [name].
  rewrite (one_slot_not_suffix_shaped p token q Hp T),
          (one_slot_has_placeholder p token q T).
  cbn [PyDict.set PyDict.items PyDict.keys map sorted_by_len_desc fold_right
       compile_patterns].
  rewrite (template_regex_one_slot token fragment p q)
    by (destruct Ht as [(-> & -> & _)|(-> & -> & _)]; auto).
  rewrite (compile_slot p q fragment slot Hp Hq); [reflexivity|].
  destruct Ht as [(_ & -> & ->)|(_ & -> & ->)]; intros rest top stack.
  - apply parse_two_digits.
  - apply parse_digit_run.
Qed.

Lemma append_cancel_l (p a b : string) : (p ++ a)%string = (p ++ b)%string -> a = b.
Proof.
  induction p as [|c p IH]; simpl; intro H; [assumption|].
  injection H as H. now apply IH.
Qed.

Lemma digits_not_token (token ds rest : string) :
  token = "xx" \/ token = "y" -> all_digits ds = true ->
  (ds ++ rest)%string <> (token ++ rest)%string.
Proof.
  intros Ht Hd E. destruct ds as [|a ds].
  - apply (f_equal String.length) in E. rewrite length_append in E.
    destruct Ht as [-> | ->]; simpl in E; lia.
  - simpl in Hd. apply andb_true_iff in Hd. destruct Hd as [Ha _].
    destruct Ht as [-> | ->]; simpl in E; injection E as -> _; discriminate.
Qed.

End SlotFacts.

(** ** One iteration, whatever the store holds *)

Section StepFacts.

Lemma send_fst (t : tier) (var : variable) (c : string) (st : state) (m : bool) :
  exists g n cnt,
    send t var c st m =
      (State g n (st_sent st ++ [Query t (name var) (dataset var) c cnt]),
       Nat.ltb 0 cnt || m).
Proof.
  unfold send.
  destruct (Neo4j.run_of_class (name var) (dataset var) c (st_session st)) as [g cnt].
  destruct (Nat.ltb 0 cnt) eqn:E; exists g; eexists; exists cnt; rewrite E; reflexivity.
Qed.

(** a name that neither the exact set nor a suffix catches goes to the
    patterns, and the first one that matches decides *)
Lemma step_pattern_tier (idx : index) (st : state) (var : variable) :
  existsb (String.eqb (name var)) (class_var_names idx) = false ->
  find (PyStr.endswith (name var)) (sorted_suffixes idx) = None ->
  of_class_step idx st var =
  Returned
    match find (fun item => Re.matches (fst item) (name var)) (compiled_patterns idx) with
    | Some (_, class_var_name) => fst (send Pattern var class_var_name st false)
    | None => st
    end.
Proof.
  intros Ex Fs. unfold of_class_step. rewrite Ex, Fs. simpl.
  now destruct (find _ (compiled_patterns idx)) as [[r c]|].
Qed.


(** what an iteration adds to the record of queries *)
Lemma step_new_queries (idx : index) (st st' : state) (var : variable) :
  of_class_step idx st var = Returned st' ->
  exists new,
    st_sent st' = st_sent st ++ new /\
    forall q, In q new ->
      q_var_name q = name var /\
      match q_tier q with
      | Exact => q_class_var_name q = name var
      | Suffix =>
          exists s, In s (sorted_suffixes idx) /\
                    PyDict.get s (suffix_lookup idx) = Some (q_class_var_name q)
      | Pattern => In (q_class_var_name q) (map snd (compiled_patterns idx))
      end.
Proof.
  unfold of_class_step.
  set (r1 := if existsb (String.eqb (name var)) (class_var_names idx)
             then send Exact var (name var) st false else (st, false)).
  assert (H1 : exists new1, st_sent (fst r1) = st_sent st ++ new1 /\
             forall q, In q new1 ->
               q_var_name q = name var /\ q_tier q = Exact /\
               q_class_var_name q = name var).
  { unfold r1. destruct (existsb _ _).
    - destruct (send_fst Exact var (name var) st false) as (g & n & cnt & ->).
      simpl. eexists. split; [reflexivity|].
      intros q [<-|[]]. now repeat split.
    - exists []. simpl. rewrite app_nil_r. split; [reflexivity | intros q []]. }
  destruct r1 as [st1 m1]. simpl in H1. destruct H1 as (new1 & S1 & Q1).
  assert (Q1' : forall q, In q new1 ->
      q_var_name q = name var /\
      match q_tier q with
      | Exact => q_class_var_name q = name var
      | Suffix =>
          exists s, In s (sorted_suffixes idx) /\
                    PyDict.get s (suffix_lookup idx) = Some (q_class_var_name q)
      | Pattern => In (q_class_var_name q) (map snd (compiled_patterns idx))
      end).
  { intros q Hq. destruct (Q1 q Hq) as (A & B & C). rewrite B. now split. }
  clear Q1.
  destruct m1; simpl.
  - intro H. injection H as <-. now exists new1.
  - destruct (find (PyStr.endswith (name var)) (sorted_suffixes idx)) as [s|] eqn:Fs.
    + destruct (PyDict.get s (suffix_lookup idx)) as [c|] eqn:G; [|discriminate].
      destruct (send_fst Suffix var c st1 false) as (g & n & cnt & E). rewrite E.
      rewrite orb_false_r. simpl.
      assert (Q2 : forall q, In q (new1 ++ [Query Suffix (name var) (dataset var) c cnt]) ->
         q_var_name q = name var /\
         match q_tier q with
         | Exact => q_class_var_name q = name var
         | Suffix =>
             exists s, In s (sorted_suffixes idx) /\
                       PyDict.get s (suffix_lookup idx) = Some (q_class_var_name q)
         | Pattern => In (q_class_var_name q) (map snd (compiled_patterns idx))
         end).
      { intros q Hq. apply in_app_or in Hq. destruct Hq as [Hq|[<-|[]]]; [auto|].
        simpl. split; [reflexivity|]. exists s. split; [|assumption].
        apply find_some in Fs. apply Fs. }
      destruct (Nat.ltb 0 cnt); simpl.
      * intro H. injection H as <-. simpl. eexists. rewrite S1, <- app_assoc.
        split; [reflexivity | exact Q2].
      * destruct (find _ (compiled_patterns idx)) as [[r c']|] eqn:Fp.
        -- destruct (send_fst Pattern var c'
                       (State g n (st_sent st1 ++ [Query Suffix (name var) (dataset var) c cnt]))
                       false) as (g' & n' & cnt' & E').
           rewrite E'. simpl. intro H. injection H as <-. simpl.
           exists ((new1 ++ [Query Suffix (name var) (dataset var) c cnt])
                   ++ [Query Pattern (name var) (dataset var) c' cnt']).
           rewrite S1, <- !app_assoc. split; [reflexivity|].
           intros q Hq. rewrite app_assoc in Hq.
           apply in_app_or in Hq. destruct Hq as [Hq|[<-|[]]]; [auto|].
           simpl. split; [reflexivity|]. apply find_some in Fp.
           change c' with (snd (r, c')). apply in_map, Fp.
        -- intro H. injection H as <-. simpl. eexists. rewrite S1, <- app_assoc.
           split; [reflexivity | exact Q2].
    + simpl. destruct (find _ (compiled_patterns idx)) as [[r c']|] eqn:Fp.
      * destruct (send_fst Pattern var c' st1 false) as (g' & n' & cnt' & E').
        rewrite E'. simpl. intro H. injection H as <-. simpl.
        exists (new1 ++ [Query Pattern (name var) (dataset var) c' cnt']).
        rewrite S1, <- app_assoc. split; [reflexivity|].
        intros q Hq. apply in_app_or in Hq. destruct Hq as [Hq|[<-|[]]]; [auto|].
        simpl. split; [reflexivity|]. apply find_some in Fp.
        change c' with (snd (r, c')). apply in_map, Fp.
      * intro H. injection H as <-. now exists new1.
Qed.

(** a name of the exact set: its query of tier exact is sent first, and
    when the store answers it with a row no other query follows *)
Lemma step_exact_first (idx : index) (st st' : state) (var : variable) :
  existsb (String.eqb (name var)) (class_var_names idx) = true ->
  of_class_step idx st var = Returned st' ->
  exists rest,
    st_sent st' =
    st_sent st ++
    Query Exact (name var) (dataset var) (name var)
          (snd (Neo4j.run_of_class (name var) (dataset var) (name var) (st_session st)))
    :: rest /\
    (0 < snd (Neo4j.run_of_class (name var) (dataset var) (name var) (st_session st)) ->
     rest = []).
Proof.
  intros Ex Hs.
  destruct (Neo4j.run_of_class (name var) (dataset var) (name var) (st_session st))
    as [g cnt] eqn:R.
  simpl. destruct (Nat.ltb 0 cnt) eqn:L.
  - unfold of_class_step in Hs. rewrite Ex in Hs. unfold send in Hs.
    rewrite R, L in Hs. simpl in Hs. injection Hs as <-. simpl.
    exists []. now split.
  - assert (E : of_class_step idx st var =
                of_class_step (Index [] (suffix_lookup idx) (sorted_suffixes idx)
                                     (compiled_patterns idx))
                  (State g (st_count st)
                     (st_sent st ++ [Query Exact (name var) (dataset var) (name var) cnt]))
                  var).
    { unfold of_class_step. rewrite Ex. unfold send at 1. rewrite R, L. reflexivity. }
    rewrite E in Hs. apply step_new_queries in Hs. destruct Hs as (new & Hn & _).
    simpl in Hn. exists new. rewrite Hn, <- app_assoc. split; [reflexivity|].
    intro P. apply Nat.ltb_lt in P. congruence.
Qed.

(** the run over a single variable *)
Lemma single_run (g : Neo4j.graph) (var : variable) (cvs : list variable)
    (idx : index) (st' : state) :
  build_index cvs = Returned idx ->
  of_class_step idx (State g 0 []) var = Returned st' ->
  exists out,
    create_of_class_relationships g [var] cvs
    = Returned (Run (st_session st') out (st_sent st')).
Proof.
  intros Hb Hs. unfold create_of_class_relationships. rewrite Hb. simpl.
  rewrite Hs. simpl. eexists. reflexivity.
Qed.

(** a run prints its two progress lines and nothing else *)
Lemma run_stdout (g : Neo4j.graph) (avs cvs : list variable) (r : run) :
  create_of_class_relationships g avs cvs = Returned r ->
  exists n,
    stdout r =
    ["Creating OF_CLASS relationships (ADaM Variable -> ADaM Class Variable)...";
     ("  Created " ++ PyStr.of_nat n ++ " OF_CLASS relationships")%string]
    /\ exists idx, build_index cvs = Returned idx.
Proof.
  unfold create_of_class_relationships.
  destruct (build_index cvs) as [idx| |]; simpl; try discriminate.
  destruct (of_class_loop idx (State g 0 []) avs) as [st| |]; simpl; try discriminate.
  intro H. injection H as <-. simpl. exists (st_count st). split; [reflexivity|].
  now exists idx.
Qed.

End StepFacts.

(** ** The claims of the specification *)

Section Classification.

Lemma classified_exact (idx : index) (av : variable) :
  In (name av) (class_var_names idx) ->
  classified idx av = [(Exact, name av, dataset av, name av)].
Proof.
  intro H. unfold classified, classify.
  apply existsb_eqb_In in H. now rewrite H.
Qed.

(** every query of [main] is the answer of Classify for its variable, and
    every variable Classify has an answer for gets its query *)
Lemma main_queries (cvs avs : list variable) (idx : index) :
  build_index cvs = Returned idx ->
  exists r,
    main cvs avs = Returned r /\
    map q_key (queries r) = flat_map (classified idx) avs /\
    (forall q, In q (queries r) ->
       classify idx (q_var_name q) = Some (q_tier q, q_class_var_name q) /\
       0 < q_cnt q) /\
    (forall av t c, In av avs -> classify idx (name av) = Some (t, c) ->
       exists q, In q (queries r) /\ q_key q = (t, name av, dataset av, c)).
Proof.
  intro Hb. destruct (main_refines_classify cvs avs idx Hb) as (r & Hm & Hk & Hp).
  exists r. split; [exact Hm|]. split; [exact Hk|]. split.
  - intros q Hq. split; [|rewrite Forall_forall in Hp; now apply Hp].
    assert (Hin : In (q_key q) (flat_map (classified idx) avs))
      by (rewrite <- Hk; now apply in_map).
    apply in_flat_map in Hin. destruct Hin as (av & _ & Hin).
    unfold classified in Hin.
    destruct (classify idx (name av)) as [[t c]|] eqn:E; [|destruct Hin].
    destruct Hin as [Hin|[]]. unfold q_key in Hin. injection Hin as E1 E2 _ E3.
    rewrite <- E1, <- E2, <- E3. exact E.
  - intros av t c Hin Hc.
    assert (K : In (t, name av, dataset av, c) (map q_key (queries r))).
    { rewrite Hk. apply in_flat_map. exists av. split; [assumption|].
      unfold classified. rewrite Hc. now left. }
    apply in_map_iff in K. destruct K as (q & E & Hq). now exists q.
Qed.

Lemma build_index_names (cvs : list variable) (idx : index) :
  build_index cvs = Returned idx ->
  class_var_names idx = map name cvs /\
  suffix_lookup idx = build_suffix_lookup cvs /\
  sorted_suffixes idx = sorted_by_len_desc (PyDict.keys (build_suffix_lookup cvs)) /\
  Forall2 compiles_to (fst (build_pattern_lookup cvs)) (compiled_patterns idx).
Proof.
  intro H. apply build_index_returned in H. destruct H as (cps & Hc & ->). simpl.
  repeat split. now apply compile_patterns_returned.
Qed.

(** C1: classification applies the tiers in the order exact, suffix,
    pattern and returns on the first tier that hits; a name that is in the
    exact set is matched at tier exact with itself as the template, and no
    suffix or pattern query is sent for it.  In the loop the query of tier
    exact is the first one sent for such a name, and the only one when the
    store answers it with a row; in [main], whose loaders have put the nodes
    into the store, every query of a tier that hits is answered with a row,
    so the queries are those of Classify. *)
Theorem exact_tier_first (cvs avs : list variable) (idx : index) :
  build_index cvs = Returned idx ->
  (forall st st' var,
     In (name var) (snd (build_pattern_lookup cvs)) ->
     of_class_step idx st var = Returned st' ->
     exists rest,
       st_sent st' =
       st_sent st ++
       Query Exact (name var) (dataset var) (name var)
             (snd (Neo4j.run_of_class (name var) (dataset var) (name var)
                                      (st_session st)))
       :: rest /\
       (0 < snd (Neo4j.run_of_class (name var) (dataset var) (name var)
                                    (st_session st)) ->
        rest = [])) /\
  exists r,
    main cvs avs = Returned r /\
    map q_key (queries r) = flat_map (classified idx) avs /\
    (forall av, In av avs -> In (name av) (snd (build_pattern_lookup cvs)) ->
       classified idx av = [(Exact, name av, dataset av, name av)]) /\
    (forall q, In q (queries r) ->
       In (q_var_name q) (snd (build_pattern_lookup cvs)) ->
       q_tier q = Exact /\ q_class_var_name q = q_var_name q /\ 0 < q_cnt q).
Proof.
  intro Hb. destruct (main_queries cvs avs idx Hb) as (r & Hm & Hk & Hq & _).
  destruct (build_index_names cvs idx Hb) as (Hn & _).
  split.
  { intros st st' var Hin Hs. apply (step_exact_first idx st st' var); [|exact Hs].
    apply existsb_eqb_In. now rewrite Hn. }
  exists r. split; [exact Hm|]. split; [exact Hk|]. split.
  - intros av _ Hin. apply classified_exact. now rewrite Hn.
  - intros q Hin Hx. destruct (Hq q Hin) as [Hc Hp].
    unfold classify in Hc. rewrite Hn in Hc. simpl in Hx.
    apply existsb_eqb_In in Hx. rewrite Hx in Hc. injection Hc as <- <-.
    now repeat split.
Qed.

Lemma exact_tier_first_witness :
  exists r,
    main [Variable_ "USUBJID" "ADSL"; Variable_ "--JID" "OCCDS"]
         [Variable_ "USUBJID" "ADAE"] = Returned r /\
    map q_key (queries r) = [(Exact, "USUBJID", "ADAE", "USUBJID")].
Proof.
  destruct (exact_tier_first
              [Variable_ "USUBJID" "ADSL"; Variable_ "--JID" "OCCDS"]
              [Variable_ "USUBJID" "ADAE"]
              (Index ["USUBJID"; "--JID"] [("JID", "--JID")] ["JID"] []) eq_refl)
    as (_ & r & Hm & Hk & _).
  exists r. split; [exact Hm | exact Hk].
Defined.

(** C9: the exact set holds every class-variable name of the catalogue,
    whatever its shape, so a variable whose name is a template of the
    catalogue, [--SEQ] or [TRTxxP] say, is classified at tier exact and gets
    no suffix or pattern query. *)
Theorem exact_set_holds_every_name (cvs avs : list variable) (idx : index) :
  build_index cvs = Returned idx ->
  snd (build_pattern_lookup cvs) = map name cvs /\
  (forall cv, In cv cvs ->
     existsb (String.eqb (name cv)) (class_var_names idx) = true) /\
  exists r,
    main cvs avs = Returned r /\
    (forall av, In av avs -> In (name av) (map name cvs) ->
       exists q, In q (queries r) /\
                 q_key q = (Exact, name av, dataset av, name av)) /\
    (forall q, In q (queries r) -> In (q_var_name q) (map name cvs) ->
       q_tier q = Exact /\ q_class_var_name q = q_var_name q).
Proof.
  intro Hb. destruct (build_index_names cvs idx Hb) as (Hn & _).
  split; [reflexivity|]. split.
  - intros cv Hin. apply existsb_eqb_In. rewrite Hn. now apply in_map.
  - destruct (main_queries cvs avs idx Hb) as (r & Hm & _ & Hq & Hav).
    exists r. split; [exact Hm|]. split.
    + intros av Hin Hx. apply Hav; [assumption|].
      unfold classify. rewrite Hn. apply existsb_eqb_In in Hx. now rewrite Hx.
    + intros q Hin Hx. destruct (Hq q Hin) as [Hc _].
      unfold classify in Hc. rewrite Hn in Hc.
      apply existsb_eqb_In in Hx. rewrite Hx in Hc. injection Hc as <- <-.
      now split.
Qed.

Lemma exact_set_holds_every_name_witness :
  exists r,
    main [Variable_ "--SEQ" "OCCDS"; Variable_ "TRTxxP" "ADSL"]
         [Variable_ "--SEQ" "ADAE"; Variable_ "TRTxxP" "ADSL"] = Returned r /\
    forall q, In q (queries r) -> In (q_var_name q) ["--SEQ"; "TRTxxP"] ->
      q_tier q = Exact /\ q_class_var_name q = q_var_name q.
Proof.
  destruct (exact_set_holds_every_name
              [Variable_ "--SEQ" "OCCDS"; Variable_ "TRTxxP" "ADSL"]
              [Variable_ "--SEQ" "ADAE"; Variable_ "TRTxxP" "ADSL"]
              (Index ["--SEQ"; "TRTxxP"] [("SEQ", "--SEQ")] ["SEQ"]
                     [(slot_pattern "TRT" two_digits "P", "TRTxxP")]) eq_refl)
    as (_ & _ & r & Hm & _ & Hq).
  exists r. split; [exact Hm | exact Hq].
Defined.


(** the suffix the scan stops at: the longest registered suffix that the
    name ends with *)
Lemma suffix_scan (cvs : list variable) (var_name s : string) :
  find (PyStr.endswith var_name)
       (sorted_by_len_desc (PyDict.keys (build_suffix_lookup cvs))) = Some s ->
  In s (PyDict.keys (build_suffix_lookup cvs)) /\
  PyStr.endswith var_name s = true /\
  forall s', In s' (PyDict.keys (build_suffix_lookup cvs)) ->
             PyStr.endswith var_name s' = true ->
             String.length s' <= String.length s.
Proof.
  intro F. pose proof (find_some _ _ F) as [Hin He].
  split; [exact (Permutation_in _ (sorted_by_len_desc_perm _) Hin)|].
  split; [exact He|]. intros s' Hs' He'.
  apply (find_sorted_longest _ _ _ (sorted_by_len_desc_sorted _) F); [|exact He'].
  exact (Permutation_in _ (Permutation_sym (sorted_by_len_desc_perm _)) Hs').
Qed.


(** the run over one variable that is left to the pattern tier *)
Lemma run_one_pattern_tier (g : Neo4j.graph) (var : variable) (cvs : list variable)
    (idx : index) :
  build_index cvs = Returned idx ->
  existsb (String.eqb (name var)) (class_var_names idx) = false ->
  find (PyStr.endswith (name var)) (sorted_suffixes idx) = None ->
  exists r,
    create_of_class_relationships g [var] cvs = Returned r /\
    map q_key (queries r) =
    match find (fun item => Re.matches (fst item) (name var)) (compiled_patterns idx) with
    | Some (_, class_var_name) => [(Pattern, name var, dataset var, class_var_name)]
    | None => []
    end.
Proof.
  intros Hb Ex Fs.
  pose proof (step_pattern_tier idx (State g 0 []) var Ex Fs) as Hs.
  destruct (single_run g var cvs idx _ Hb Hs) as (out & Hr).
  eexists. split; [exact Hr|]. simpl.
  destruct (find _ (compiled_patterns idx)) as [[r c]|]; [|reflexivity].
  destruct (send_fst Pattern var c (State g 0 []) false) as (g' & n & cnt & ->).
  reflexivity.
Qed.

(** the run over one variable for a catalogue with one template that has
    a digit slot between two literal parts *)
Lemma one_slot_run (g : Neo4j.graph) (p q token fragment ds d d' : string)
    (slot : Re.regex) :
  (token = "xx" /\ fragment = "(\d{2})" /\ slot = two_digits) \/
  (token = "y" /\ fragment = "(\d+)" /\ slot = digit_run) ->
  all_plain p = true -> all_plain q = true -> all_digits ds = true ->
  exists r,
    create_of_class_relationships g [Variable_ (p ++ ds ++ q) d']
                                  [Variable_ (p ++ token ++ q) d] = Returned r /\
    map q_key (queries r) =
    if Re.matches (slot_pattern p slot q) (p ++ ds ++ q)
    then [(Pattern, (p ++ ds ++ q)%string, d', (p ++ token ++ q)%string)] else [].
Proof.
  intros Ht Hp Hq Hd.
  assert (T : token = "xx" \/ token = "y") by (destruct Ht as [[-> _]|[-> _]]; auto).
  destruct (run_one_pattern_tier g (Variable_ (p ++ ds ++ q) d')
              [Variable_ (p ++ token ++ q) d] _
              (one_slot_index p q token fragment d slot Ht Hp Hq))
    as (r & Hr & Hk); [| reflexivity |].
  - cbn [name class_var_names existsb]. rewrite orb_false_r.
    apply String.eqb_neq. intro E. apply append_cancel_l in E.
    exact (digits_not_token token ds q T Hd E).
  - exists r. split; [exact Hr|]. rewrite Hk.
    cbn [name dataset compiled_patterns find fst].
    now destruct (Re.matches _ _).
Qed.

(** C4: a two-digit slot takes exactly two digits and an open digit run
    takes one or more, without an upper bound.  For literal parts [p] and
    [q] of capital letters and digits and a string [ds] of digits: with the
    catalogue [p xx q] the name [p ds q] is matched at tier pattern exactly
    when [ds] has two digits, and with the catalogue [p y q] exactly when
    [ds] has at least one.  So with the catalogue [TRTxxP] the name [TRT01P]
    is matched and [TRT1P] is not, and with the catalogue [AGEGRy] the name
    [AGEGR12] is matched and [AGEGR] is not. *)
Theorem digit_slot_widths (g : Neo4j.graph) (p q ds d d' : string) :
  all_plain p = true -> all_plain q = true -> all_digits ds = true ->
  (exists r,
     create_of_class_relationships g [Variable_ (p ++ ds ++ q) d']
                                   [Variable_ (p ++ "xx" ++ q) d] = Returned r /\
     map q_key (queries r) =
     if Nat.eqb (String.length ds) 2
     then [(Pattern, (p ++ ds ++ q)%string, d', (p ++ "xx" ++ q)%string)] else []) /\
  (exists r,
     create_of_class_relationships g [Variable_ (p ++ ds ++ q) d']
                                   [Variable_ (p ++ "y" ++ q) d] = Returned r /\
     map q_key (queries r) =
     if Nat.eqb (String.length ds) 0
     then [] else [(Pattern, (p ++ ds ++ q)%string, d', (p ++ "y" ++ q)%string)]).
Proof.
  intros Hp Hq Hd. split.
  - destruct (one_slot_run g p q "xx" "(\d{2})" ds d d' two_digits) as (r & Hr & Hk);
      auto.
    exists r. split; [exact Hr|].
    now rewrite Hk, (two_digit_slot_matches p q ds Hp Hq Hd).
  - destruct (one_slot_run g p q "y" "(\d+)" ds d d' digit_run) as (r & Hr & Hk);
      auto.
    exists r. split; [exact Hr|].
    rewrite Hk, (digit_run_slot_matches p q ds Hp Hq Hd).
    now destruct (Nat.eqb _ 0).
Qed.

Lemma digit_slot_widths_witness :
  (exists r,
     create_of_class_relationships Neo4j.clear [Variable_ "TRT01P" "ADSL"]
                                   [Variable_ "TRTxxP" "ADSL"] = Returned r /\
     map q_key (queries r) = [(Pattern, "TRT01P", "ADSL", "TRTxxP")]) /\
  (exists r,
     create_of_class_relationships Neo4j.clear [Variable_ "TRT1P" "ADSL"]
                                   [Variable_ "TRTxxP" "ADSL"] = Returned r /\
     map q_key (queries r) = []) /\
  (exists r,
     create_of_class_relationships Neo4j.clear [Variable_ "TRT012P" "ADSL"]
                                   [Variable_ "TRTxxP" "ADSL"] = Returned r /\
     map q_key (queries r) = []) /\
  (exists r,
     create_of_class_relationships Neo4j.clear [Variable_ "AGEGR12" "ADSL"]
                                   [Variable_ "AGEGRy" "ADSL"] = Returned r /\
     map q_key (queries r) = [(Pattern, "AGEGR12", "ADSL", "AGEGRy")]) /\
  (exists r,
     create_of_class_relationships Neo4j.clear [Variable_ "AGEGR" "ADSL"]
                                   [Variable_ "AGEGRy" "ADSL"] = Returned r /\
     map q_key (queries r) = []).
Proof.
  split; [|split; [|split; [|split]]].
  - exact (proj1 (digit_slot_widths Neo4j.clear "TRT" "P" "01" "ADSL" "ADSL"
                    eq_refl eq_refl eq_refl)).
  - exact (proj1 (digit_slot_widths Neo4j.clear "TRT" "P" "1" "ADSL" "ADSL"
                    eq_refl eq_refl eq_refl)).
  - exact (proj1 (digit_slot_widths Neo4j.clear "TRT" "P" "012" "ADSL" "ADSL"
                    eq_refl eq_refl eq_refl)).
  - exact (proj2 (digit_slot_widths Neo4j.clear "AGEGR" "" "12" "ADSL" "ADSL"
                    eq_refl eq_refl eq_refl)).
  - exact (proj2 (digit_slot_widths Neo4j.clear "AGEGR" "" "" "ADSL" "ADSL"
                    eq_refl eq_refl eq_refl)).
Defined.

End Classification.

Section Templates.

Lemma template_regex_two_slots (two : string) (p q r : string) :
  two = "xx" \/ two = "zz" ->
  placeholder_free p = true -> placeholder_free q = true ->
  placeholder_free r = true ->
  template_regex (p ++ two ++ q ++ "x" ++ r)
  = ("^" ++ p ++ "(\d{2})" ++ q ++ "(\d)" ++ r ++ "$")%string.
Proof.
  intros Htwo Hp Hq Hr.
  apply placeholder_free_split in Hp, Hq, Hr.
  destruct Hp as (Xp & Zp & Yp & Wp), Hq as (Xq & Zq & Yq & Wq),
           Hr as (Xr & Zr & Yr & Wr).
  unfold template_regex.
  assert (E12 : PyStr.replace "zz" "(\d{2})"
                  (PyStr.replace "xx" "(\d{2})" (p ++ two ++ q ++ "x" ++ r))
                = (p ++ "(\d{2})" ++ q ++ "x" ++ r)%string).
  { destruct Htwo as [-> | ->].
    - assert (E1 : PyStr.replace "xx" "(\d{2})" (p ++ "xx" ++ q ++ "x" ++ r)
                   = (p ++ "(\d{2})" ++ q ++ "x" ++ r)%string).
      { scan. rewrite replace_occurrence. scan.
        change ("x" ++ r)%string with (String "x" r).
        now rewrite (replace_xx_single _ r Xr). }
      rewrite E1. scan. now rewrite (replace_free _ _ _ r Zr).
    - assert (E1 : PyStr.replace "xx" "(\d{2})" (p ++ "zz" ++ q ++ "x" ++ r)
                   = (p ++ "zz" ++ q ++ "x" ++ r)%string).
      { scan. change ("x" ++ r)%string with (String "x" r).
        now rewrite (replace_xx_single _ r Xr). }
      rewrite E1. scan. rewrite replace_occurrence. scan.
      now rewrite (replace_free _ _ _ r Zr). }
  rewrite E12; clear E12.
  assert (E3 : PyStr.replace "y" "(\d+)" (p ++ "(\d{2})" ++ q ++ "x" ++ r)
               = (p ++ "(\d{2})" ++ q ++ "x" ++ r)%string).
  { scan. now rewrite (replace_free _ _ _ r Yr). }
  rewrite E3; clear E3.
  assert (E4 : PyStr.replace "w" "(\d+)" (p ++ "(\d{2})" ++ q ++ "x" ++ r)
               = (p ++ "(\d{2})" ++ q ++ "x" ++ r)%string).
  { scan. now rewrite (replace_free _ _ _ r Wr). }
  rewrite E4; clear E4.
  assert (E5 : PyStr.replace "x" "(\d)" (p ++ "(\d{2})" ++ q ++ "x" ++ r)
               = (p ++ "(\d{2})" ++ q ++ "(\d)" ++ r)%string).
  { scan. rewrite replace_occurrence. now rewrite (replace_free _ _ _ r Xr). }
  rewrite E5; clear E5.
  now rewrite !append_assoc.
Qed.

(** *** Templates in general *)



















End Templates.

Section PatternTier.

Lemma pattern_fold_keeps_keys (cvs : list variable) (d : PyDict.t string) (k : string) :
  In k (PyDict.keys d) -> In k (PyDict.keys (fold_left pattern_step cvs d)).
Proof.
  revert d; induction cvs as [|cv cvs IH]; intros d H; simpl; [assumption|].
  apply IH. rewrite pattern_step_eligible.
  destruct (eligible (name cv)); [|assumption].
  rewrite keys_set. destruct (existsb _ _); [assumption | apply in_or_app; now left].
Qed.

(** no eligible template is left out of the pattern lookup *)
Lemma pattern_lookup_registers (cvs : list variable) (cv : variable) :
  In cv cvs -> eligible (name cv) = true ->
  In (template_regex (name cv)) (PyDict.keys (fst (build_pattern_lookup cvs))).
Proof.
  simpl. generalize (@nil (string * string)) as d.
  induction cvs as [|c cvs IH]; intros d Hin El; [destruct Hin|].
  destruct Hin as [->|Hin]; simpl.
  - apply pattern_fold_keeps_keys. rewrite pattern_step_eligible, El.
    eapply get_In_keys. apply get_set_same.
  - now apply IH.
Qed.



(** a key whose value is not [n] keeps a value that is not [n] while the
    templates that follow have other names *)
Lemma pattern_fold_avoids (l : list variable) (d : PyDict.t string) (k n t0 : string) :
  PyDict.get k d = Some t0 -> t0 <> n -> ~ In n (map name l) ->
  exists t, PyDict.get k (fold_left pattern_step l d) = Some t /\ t <> n.
Proof.
  revert d t0; induction l as [|c l IH]; intros d t0 Hg Hn Hl; simpl.
  - now exists t0.
  - simpl in Hl. rewrite pattern_step_eligible.
    destruct (eligible (name c)); [|apply (IH d t0); tauto].
    destruct (String.eqb_spec (template_regex (name c)) k) as [<-|Hk].
    + apply (IH _ (name c)); [apply get_set_same | | tauto].
      intro E. apply Hl. now left.
    + apply (IH _ t0); [|assumption|tauto].
      rewrite get_set_other by assumption. exact Hg.
Qed.

(** C10: the pattern lookup is keyed by the regular expression, so of two
    templates that compile to the same one a single entry remains; it holds
    the name of the later template, and the earlier one is never what the
    pattern tier answers with. *)
Theorem same_regex_later_template_wins (l1 l2 l3 : list variable) (c1 c2 : variable) :
  eligible (name c1) = true -> eligible (name c2) = true ->
  name c1 <> name c2 ->
  template_regex (name c1) = template_regex (name c2) ->
  ~ In (name c1) (map name l3) ->
  let cvs := l1 ++ c1 :: l2 ++ c2 :: l3 in
  let pattern_lookup := fst (build_pattern_lookup cvs) in
  NoDup (PyDict.keys pattern_lookup) /\
  (exists t, PyDict.get (template_regex (name c1)) pattern_lookup = Some t /\
             t <> name c1) /\
  ((forall c, In c l3 -> eligible (name c) = true ->
              template_regex (name c) <> template_regex (name c2)) ->
   PyDict.get (template_regex (name c1)) pattern_lookup = Some (name c2)) /\
  ~ In (name c1) (map snd pattern_lookup) /\
  forall idx st var st',
    build_index cvs = Returned idx ->
    of_class_step idx st var = Returned st' ->
    exists new,
      st_sent st' = st_sent st ++ new /\
      forall q, In q new -> q_tier q = Pattern -> q_class_var_name q <> name c1.
Proof.
  intros E1 E2 Hne Hre Hl3 cvs pattern_lookup.
  assert (ND : NoDup (PyDict.keys pattern_lookup))
    by (apply pattern_fold_NoDup; constructor).
  assert (G : exists t, PyDict.get (template_regex (name c1)) pattern_lookup = Some t /\
                        t <> name c1).
  { unfold pattern_lookup, cvs. simpl.
    replace (l1 ++ c1 :: l2 ++ c2 :: l3) with ((l1 ++ c1 :: l2) ++ c2 :: l3)
      by (rewrite <- app_assoc; reflexivity).
    rewrite fold_left_app. simpl.
    apply pattern_fold_avoids with (t0 := name c2); [|congruence|assumption].
    rewrite pattern_step_eligible, E2, Hre. apply get_set_same. }
  assert (NV : ~ In (name c1) (map snd pattern_lookup)).
  { intro Hin. apply in_map_iff in Hin. destruct Hin as ([k t] & Et & Hin).
    simpl in Et. subst t.
    pose proof (pattern_lookup_entries _ _ _ Hin) as (_ & _ & ->).
    apply (In_NoDup_keys_get _ _ _ _ ND) in Hin.
    destruct G as (t & Gt & Nt). congruence. }
  split; [exact ND|]. split; [exact G|]. split; [|split; [exact NV|]].
  - intro Hlast. unfold pattern_lookup, cvs. simpl.
    replace (l1 ++ c1 :: l2 ++ c2 :: l3) with ((l1 ++ c1 :: l2) ++ c2 :: l3)
      by (rewrite <- app_assoc; reflexivity).
    rewrite Hre. now apply pattern_fold_last.
  - intros idx st var st' Hb Hs.
    destruct (build_index_names cvs idx Hb) as (_ & _ & _ & Hc).
    destruct (step_new_queries idx st st' var Hs) as (new & Hn & Hq).
    exists new. split; [exact Hn|]. intros q Hin Ht E.
    destruct (Hq q Hin) as [_ Hp]. rewrite Ht, E in Hp.
    rewrite (Forall2_map_snd _ _ Hc) in Hp. exact (NV Hp).
Qed.

Lemma same_regex_later_template_wins_witness :
  PyDict.get "^ANL(\d{2})FL$"
    (fst (build_pattern_lookup
            [Variable_ "ANLxxFL" "ADSL"; Variable_ "ANLzzFL" "ADSL"]))
  = Some "ANLzzFL" /\
  ~ In "ANLxxFL"
       (map snd (fst (build_pattern_lookup
                        [Variable_ "ANLxxFL" "ADSL"; Variable_ "ANLzzFL" "ADSL"]))).
Proof.
  destruct (same_regex_later_template_wins [] [] []
              (Variable_ "ANLxxFL" "ADSL") (Variable_ "ANLzzFL" "ADSL")
              eq_refl eq_refl (proj1 (String.eqb_neq "ANLxxFL" "ANLzzFL") eq_refl) eq_refl
              (fun f => f))
    as (_ & _ & Hlast & Hnever & _).
  split; [|exact Hnever].
  apply Hlast. intros c [].
Defined.

End PatternTier.

Section Warnings.

Lemma same_suffix_same_name (n1 n2 : string) :
  PyStr.startswith n1 "--" = true -> PyStr.startswith n2 "--" = true ->
  PyStr.slice_from 2 n1 = PyStr.slice_from 2 n2 -> n1 = n2.
Proof.
  intros H1 H2 E. apply startswith_dashes in H1, H2.
  rewrite H1, H2, E. reflexivity.
Qed.

(** C5 as the code has it: two domain-suffix templates that reduce to the
    same suffix have the same name; the suffix map keeps one entry for the
    suffix, and its value is that name, so each definition, the later one
    too, is what the map answers with.  Nothing reports the collision: the
    build has no failure, and a run prints its two progress lines only. *)
Theorem suffix_collision_is_silent (cvs : list variable) :
  (forall cv1 cv2, In cv1 cvs -> In cv2 cvs ->
     PyStr.startswith (name cv1) "--" = true ->
     PyStr.startswith (name cv2) "--" = true ->
     PyStr.slice_from 2 (name cv1) = PyStr.slice_from 2 (name cv2) ->
     name cv1 = name cv2) /\
  (forall cv, In cv cvs -> PyStr.startswith (name cv) "--" = true ->
     PyDict.get (PyStr.slice_from 2 (name cv)) (build_suffix_lookup cvs)
     = Some (name cv)) /\
  NoDup (PyDict.keys (build_suffix_lookup cvs)) /\
  (forall g avs r, create_of_class_relationships g avs cvs = Returned r ->
     exists n,
       stdout r =
       ["Creating OF_CLASS relationships (ADaM Variable -> ADaM Class Variable)...";
        ("  Created " ++ PyStr.of_nat n ++ " OF_CLASS relationships")%string]).
Proof.
  split; [|split; [|split]].
  - intros cv1 cv2 _ _. apply same_suffix_same_name.
  - intros cv Hin S.
    rewrite suffix_lookup_value.
    + f_equal. symmetry. now apply startswith_dashes.
    + rewrite build_suffix_lookup_fold. now apply suffix_fold_registers.
  - rewrite build_suffix_lookup_fold. apply suffix_fold_NoDup. constructor.
  - intros g avs r H. destruct (run_stdout g avs cvs r H) as (n & Hn & _).
    now exists n.
Qed.

(** C5, the claim as the specification has it, fails: a catalogue in which
    two definitions reduce to the suffix [SEQ] gives the same suffix map and
    the same run, output included, as the catalogue with one of them. *)
Lemma suffix_collision_not_flagged :
  build_suffix_lookup [Variable_ "--SEQ" "ADAE"; Variable_ "--SEQ" "OCCDS"]
  = [("SEQ", "--SEQ")] /\
  build_suffix_lookup [Variable_ "--SEQ" "ADAE"; Variable_ "--SEQ" "OCCDS"]
  = build_suffix_lookup [Variable_ "--SEQ" "OCCDS"] /\
  create_of_class_relationships Neo4j.clear [Variable_ "AESEQ" "ADAE"]
    [Variable_ "--SEQ" "ADAE"; Variable_ "--SEQ" "OCCDS"]
  = create_of_class_relationships Neo4j.clear [Variable_ "AESEQ" "ADAE"]
      [Variable_ "--SEQ" "OCCDS"] /\
  exists r,
    create_of_class_relationships Neo4j.clear [Variable_ "AESEQ" "ADAE"]
      [Variable_ "--SEQ" "ADAE"; Variable_ "--SEQ" "OCCDS"]
    = Returned r /\
    stdout r =
    ["Creating OF_CLASS relationships (ADaM Variable -> ADaM Class Variable)...";
     "  Created 0 OF_CLASS relationships"].
Proof.
  split; [reflexivity|]. split; [reflexivity|]. split; [reflexivity|].
  eexists. split; [vm_compute; reflexivity | reflexivity].
Qed.

(** C7 as the code has it: no template is skipped and nothing is warned
    about.  Every eligible template gets its regular expression into the
    pattern lookup; the run goes through only if every one of them
    compiles, and a template whose regular expression does not compile
    stops the run before the loop. *)
Theorem uncompilable_template_stops_the_run (cvs : list variable) :
  (forall cv, In cv cvs -> eligible (name cv) = true ->
     In (template_regex (name cv)) (PyDict.keys (fst (build_pattern_lookup cvs)))) /\
  ((forall cv, In cv cvs -> eligible (name cv) = true ->
      exists re, Re.compile (template_regex (name cv)) = Re.Compiled re) ->
   exists idx, build_index cvs = Returned idx) /\
  (forall g avs r, create_of_class_relationships g avs cvs = Returned r ->
     (forall cv, In cv cvs -> eligible (name cv) = true ->
        exists re, Re.compile (template_regex (name cv)) = Re.Compiled re) /\
     exists n,
       stdout r =
       ["Creating OF_CLASS relationships (ADaM Variable -> ADaM Class Variable)...";
        ("  Created " ++ PyStr.of_nat n ++ " OF_CLASS relationships")%string]) /\
  (forall cv exn msg, In cv cvs -> eligible (name cv) = true ->
     Re.compile (template_regex (name cv)) = Re.Error exn msg ->
     forall g avs r, create_of_class_relationships g avs cvs <> Returned r).
Proof.
  assert (K : forall idx, build_index cvs = Returned idx ->
            forall cv, In cv cvs -> eligible (name cv) = true ->
            exists re, Re.compile (template_regex (name cv)) = Re.Compiled re).
  { intros idx Hb cv Hin El.
    destruct (build_index_names cvs idx Hb) as (_ & _ & _ & Hc).
    pose proof (pattern_lookup_registers cvs cv Hin El) as Hk.
    apply In_keys_get in Hk. destruct Hk as (t & Ht). apply get_In in Ht.
    destruct (Forall2_in_left _ _ _ _ _ _ Hc Ht) as ([re t'] & _ & Hre & _).
    now exists re. }
  split; [exact (pattern_lookup_registers cvs)|]. split; [|split].
  - intro Hall.
    destruct (compile_patterns_total (fst (build_pattern_lookup cvs))) as (cps & Hc).
    + intros [k t] Hin. apply pattern_lookup_entries in Hin.
      destruct Hin as (Hn & El & ->). simpl.
      apply in_map_iff in Hn. destruct Hn as (cv & <- & Hcv). now apply Hall.
    + unfold build_index. simpl in *. unfold PyDict.items. rewrite Hc. simpl.
      eexists. reflexivity.
  - intros g avs r H. destruct (run_stdout g avs cvs r H) as (n & Hn & idx & Hb).
    split; [exact (K idx Hb) | now exists n].
  - intros cv exn msg Hin El Hf g avs r H.
    destruct (run_stdout g avs cvs r H) as (_ & _ & idx & Hb).
    destruct (K idx Hb cv Hin El) as (re & Hre). congruence.
Qed.

Lemma uncompilable_template_stops_the_run_witness :
  ~ exists r,
      create_of_class_relationships Neo4j.clear [Variable_ "TRT01P" "ADSL"]
        [Variable_ "TRTxxP" "ADSL"; Variable_ "(y" "ADSL"] = Returned r.
Proof.
  intros (r & Hr).
  destruct (uncompilable_template_stops_the_run
              [Variable_ "TRTxxP" "ADSL"; Variable_ "(y" "ADSL"]) as (_ & _ & _ & H).
  apply (H (Variable_ "(y" "ADSL") "re.error" "missing ), unterminated subpattern")
    in Hr.
  - exact Hr.
  - right. left. reflexivity.
  - reflexivity.
  - reflexivity.
Defined.

(** C7, the claim as the specification has it, fails: the template [(y]
    has a placeholder and a regular expression that does not compile; it is
    not skipped, and [re.compile] raising on it ends the run, for the
    templates that are well formed too. *)
Lemma malformed_template_is_fatal :
  fst (build_pattern_lookup [Variable_ "TRTxxP" "ADSL"; Variable_ "(y" "ADSL"])
  = [("^TRT(\d{2})P$", "TRTxxP"); ("^((\d+)$", "(y")] /\
  Re.compile "^((\d+)$" = Re.Error "re.error" "missing ), unterminated subpattern" /\
  create_of_class_relationships Neo4j.clear [Variable_ "TRT01P" "ADSL"]
    [Variable_ "TRTxxP" "ADSL"; Variable_ "(y" "ADSL"]
  = Raised "re.error" "missing ), unterminated subpattern" /\
  main [Variable_ "TRTxxP" "ADSL"; Variable_ "(y" "ADSL"] [Variable_ "TRT01P" "ADSL"]
  = Raised "re.error" "missing ), unterminated subpattern".
Proof. repeat split. Qed.

(** C8 as the code has it: the keys of the suffix map are the names of the
    [--] templates without their first two characters, so a key is empty
    exactly when a template is the marker [--] alone; without such a
    template every key is non-empty. *)
Theorem suffix_keys (cvs : list variable) :
  (forall k, In k (PyDict.keys (build_suffix_lookup cvs)) <->
             In ("--" ++ k)%string (map name cvs)) /\
  (In "" (PyDict.keys (build_suffix_lookup cvs)) <-> In "--" (map name cvs)) /\
  ((forall cv, In cv cvs -> name cv <> "--") ->
   forall k, In k (PyDict.keys (build_suffix_lookup cvs)) -> k <> "").
Proof.
  split; [exact (suffix_lookup_keys cvs)|]. split.
  - exact (suffix_lookup_keys cvs "").
  - intros H k Hk ->. apply (suffix_lookup_keys cvs "") in Hk.
    apply in_map_iff in Hk. destruct Hk as (cv & E & Hin). exact (H cv Hin E).
Qed.

(** C8, the claim as the specification has it, fails: the template [--]
    is registered under the empty suffix, which every name ends with. *)
Lemma marker_alone_has_empty_suffix :
  PyDict.keys (build_suffix_lookup [Variable_ "--" "ADSL"]) = [""] /\
  exists r,
    main [Variable_ "--" "ADSL"; Variable_ "TRTxxP" "ADSL"] [Variable_ "TRT01P" "ADSL"]
    = Returned r /\
    map q_key (queries r) = [(Suffix, "TRT01P", "ADSL", "--")].
Proof.
  split; [reflexivity|].
  eexists. split; [vm_compute; reflexivity | reflexivity].
Qed.

End Warnings.

(** * Further properties of the run *)

Section RunFacts.

Lemma rows_same_nodes (g g' : Neo4j.graph) (var : variable) (c : string) :
  same_nodes g g' -> rows g' var c = rows g var c.
Proof.
  intros [Hc Ha]. unfold rows, Neo4j.run_of_class. simpl. now rewrite Hc, Ha.
Qed.

Lemma merge_edge_extends (rws edges : list (nat * nat)) :
  exists added, fold_left Neo4j.merge_edge rws edges = edges ++ added.
Proof.
  revert edges; induction rws as [|e rws IH]; intro edges; simpl.
  - exists []. now rewrite app_nil_r.
  - destruct (IH (Neo4j.merge_edge edges e)) as (added & ->).
    unfold Neo4j.merge_edge. destruct (existsb _ edges).
    + now exists added.
    + exists (e :: added). now rewrite <- app_assoc.
Qed.

Lemma same_edge_eq (e e' : nat * nat) : Neo4j.same_edge e e' = true <-> e = e'.
Proof.
  destruct e, e'. unfold Neo4j.same_edge. simpl.
  rewrite andb_true_iff, !Nat.eqb_eq. split; [intros []; now subst | now intros [= -> ->]].
Qed.

Lemma merge_edge_NoDup (rws edges : list (nat * nat)) :
  NoDup edges -> NoDup (fold_left Neo4j.merge_edge rws edges).
Proof.
  revert edges; induction rws as [|e rws IH]; intros edges H; simpl; [assumption|].
  apply IH. unfold Neo4j.merge_edge.
  destruct (existsb (Neo4j.same_edge e) edges) eqn:E; [assumption|].
  apply NoDup_app; [assumption | repeat constructor; intros [] |].
  intros x Hx [<-|[]].
  assert (existsb (Neo4j.same_edge e) edges = true); [|congruence].
  apply existsb_exists. exists e. split; [assumption | now apply same_edge_eq].
Qed.

(** what one [session.run] and the lines after it do *)
Lemma send_effect (t : tier) (var : variable) (c : string) (st : state) (m : bool) :
  let cnt := rows (st_session st) var c in
  let st1 := fst (send t var c st m) in
  st_sent st1 = st_sent st ++ [Query t (name var) (dataset var) c cnt] /\
  st_count st1 = st_count st + (if Nat.ltb 0 cnt then 1 else 0) /\
  snd (send t var c st m) = Nat.ltb 0 cnt || m /\
  same_nodes (st_session st) (st_session st1) /\
  (exists added,
     Neo4j.of_class (st_session st1) = Neo4j.of_class (st_session st) ++ added) /\
  (NoDup (Neo4j.of_class (st_session st)) -> NoDup (Neo4j.of_class (st_session st1))).
Proof.
  unfold rows, send.
  destruct (Neo4j.run_of_class (name var) (dataset var) c (st_session st))
    as [g cnt] eqn:R.
  assert (G : g = fst (Neo4j.run_of_class (name var) (dataset var) c (st_session st)))
    by now rewrite R.
  cbn [snd]. destruct (Nat.ltb 0 cnt) eqn:L; cbn [fst snd st_sent st_count st_session];
    (split; [reflexivity|]); (split; [lia|]); (split; [reflexivity|]);
    (split; [subst g; now split|]); subst g; simpl;
    (split; [apply merge_edge_extends | apply merge_edge_NoDup]).
Qed.

Lemma facts_refl (var : variable) (st : state) : step_facts var st st [].
Proof.
  unfold step_facts, same_nodes. simpl. rewrite app_nil_r, Nat.add_0_r.
  repeat split; auto. exists []. now rewrite app_nil_r.
Qed.

Lemma facts_trans (var : variable) (st st1 st2 : state) (new1 new2 : list query) :
  step_facts var st st1 new1 -> step_facts var st1 st2 new2 ->
  step_facts var st st2 (new1 ++ new2).
Proof.
  intros (S1 & C1 & N1 & (a1 & E1) & D1 & Q1) (S2 & C2 & N2 & (a2 & E2) & D2 & Q2).
  unfold step_facts. split; [|split; [|split; [|split; [|split]]]].
  - now rewrite S2, S1, app_assoc.
  - rewrite C2, C1, filter_app, length_app. lia.
  - destruct N1 as [A B], N2 as [A' B']. split; congruence.
  - exists (a1 ++ a2). now rewrite E2, E1, app_assoc.
  - intro H. now apply D2, D1.
  - apply Forall_app. split; [exact Q1|].
    eapply Forall_impl; [|exact Q2]. intros q (A & B & C).
    repeat split; auto. now rewrite C, (rows_same_nodes _ _ var _ N1).
Qed.

Lemma facts_send (t : tier) (var : variable) (c : string) (st : state) (m : bool) :
  step_facts var st (fst (send t var c st m))
             [Query t (name var) (dataset var) c (rows (st_session st) var c)].
Proof.
  destruct (send_effect t var c st m) as (S & C & _ & N & E & D).
  unfold step_facts. split; [exact S|]. split; [|split; [exact N|split; [exact E|]]].
  - rewrite C. simpl. unfold hit. simpl.
    now destruct (Nat.ltb 0 (rows (st_session st) var c)).
  - split; [exact D|]. now repeat constructor.
Qed.

(** the suffix and pattern tiers of one iteration *)
Lemma step_effect_later_tiers (idx : index) (st st' : state) (var : variable) :
  existsb (String.eqb (name var)) (class_var_names idx) = false ->
  of_class_step idx st var = Returned st' ->
  exists new,
    step_facts var st st' new /\
    in_tier_order new = true /\ hits_only_last new = true /\
    Forall (fun q => 1 <= tier_rank (q_tier q)) new.
Proof.
  intros Ex. unfold of_class_step. rewrite Ex. simpl.
  destruct (find (PyStr.endswith (name var)) (sorted_suffixes idx)) as [s|].
  - destruct (PyDict.get s (suffix_lookup idx)) as [c|]; [|discriminate].
    pose proof (facts_send Suffix var c st false) as F1.
    destruct (send_effect Suffix var c st false) as (_ & _ & M1 & _).
    destruct (send Suffix var c st false) as [st1 m1]. simpl in F1, M1.
    rewrite orb_false_r in M1. subst m1. simpl.
    destruct (Nat.ltb 0 (rows (st_session st) var c)) eqn:L; simpl.
    + intro H. injection H as <-. eexists. split; [exact F1|].
      repeat split. repeat constructor.
    + destruct (find _ (compiled_patterns idx)) as [[r c']|].
      * intro H. injection H as <-.
        pose proof (facts_send Pattern var c' st1 false) as F2.
        eexists. split; [exact (facts_trans _ _ _ _ _ _ F1 F2)|].
        simpl. unfold hit. simpl. rewrite L. repeat split. repeat constructor.
      * intro H. injection H as <-. eexists. split; [exact F1|].
        repeat split. repeat constructor.
  - simpl. destruct (find _ (compiled_patterns idx)) as [[r c']|].
    + intro H. injection H as <-. eexists. split; [apply facts_send|].
      repeat split. repeat constructor.
    + intro H. injection H as <-. exists []. split; [apply facts_refl|].
      repeat split. constructor.
Qed.

(** One iteration, whatever the store holds: it sends at most one query per
    tier, in the order exact, suffix, pattern; only the last of them can
    have been answered with a row; [count] grows by one exactly when it
    was; the nodes stay as they are and relationships are only added. *)
Lemma step_effect (idx : index) (st st' : state) (var : variable) :
  of_class_step idx st var = Returned st' ->
  exists new,
    step_facts var st st' new /\
    in_tier_order new = true /\ hits_only_last new = true.
Proof.
  intro Hs.
  destruct (existsb (String.eqb (name var)) (class_var_names idx)) eqn:Ex.
  - pose proof (facts_send Exact var (name var) st false) as F1.
    destruct (send_effect Exact var (name var) st false) as (_ & _ & M1 & _).
    destruct (Nat.ltb 0 (rows (st_session st) var (name var))) eqn:L.
    + unfold of_class_step in Hs. rewrite Ex in Hs.
      destruct (send Exact var (name var) st false) as [st1 m1]. simpl in F1, M1.
      subst m1. simpl in Hs. injection Hs as <-.
      eexists. split; [exact F1|]. now split.
    + assert (E : of_class_step idx st var =
                  of_class_step (Index [] (suffix_lookup idx) (sorted_suffixes idx)
                                       (compiled_patterns idx))
                    (fst (send Exact var (name var) st false)) var).
      { unfold of_class_step. rewrite Ex.
        destruct (send Exact var (name var) st false) as [st1 m1]. simpl in M1.
        subst m1. reflexivity. }
      rewrite E in Hs.
      apply step_effect_later_tiers in Hs; [|reflexivity].
      destruct Hs as (new & F2 & T & H & R).
      eexists. split; [exact (facts_trans _ _ _ _ _ _ F1 F2)|].
      simpl. split.
      * rewrite T, andb_true_r. apply forallb_forall. intros q Hq.
        rewrite Forall_forall in R. apply Nat.ltb_lt. apply (R q Hq).
      * unfold hit at 1. simpl. rewrite L. simpl. rewrite H. now destruct new.
  - destruct (step_effect_later_tiers idx st st' var Ex Hs) as (new & F & T & H & _).
    now exists new.
Qed.

Lemma loop_effect (idx : index) (avs : list variable) (st st' : state) :
  of_class_loop idx st avs = Returned st' ->
  exists groups,
    Forall2 (group_ok (st_session st)) avs groups /\
    st_sent st' = st_sent st ++ concat groups /\
    st_count st' = st_count st + List.length (filter hit (concat groups)) /\
    same_nodes (st_session st) (st_session st') /\
    (exists added,
       Neo4j.of_class (st_session st') = Neo4j.of_class (st_session st) ++ added) /\
    (NoDup (Neo4j.of_class (st_session st)) ->
     NoDup (Neo4j.of_class (st_session st'))).
Proof.
  revert st; induction avs as [|av avs IH]; intros st H; simpl in H.
  - injection H as <-. exists []. simpl. rewrite app_nil_r, Nat.add_0_r.
    repeat split; auto. exists []. now rewrite app_nil_r.
  - destruct (of_class_step idx st av) as [st1| |] eqn:S1; try discriminate.
    simpl in H.
    destruct (step_effect idx st st1 av S1)
      as (new & (Hs & Hc & Hn & (a1 & He) & Hd & Hq) & T & L).
    destruct (IH st1 H) as (groups & G & Hs' & Hc' & Hn' & (a2 & He') & Hd').
    exists (new :: groups). simpl. split; [|split; [|split; [|split; [|split]]]].
    + constructor; [now repeat split|].
      eapply Forall2_impl; [|exact G]. intros v grp (A & B & C).
      repeat split; auto. eapply Forall_impl; [|exact C].
      intros q (Q1 & Q2 & Q3). repeat split; auto.
      now rewrite Q3, (rows_same_nodes _ _ v _ Hn).
    + now rewrite Hs', Hs, app_assoc.
    + rewrite Hc', Hc, filter_app, length_app. lia.
    + destruct Hn as [A B], Hn' as [A' B']. split; congruence.
    + exists (a1 ++ a2). now rewrite He', He, app_assoc.
    + intro D. now apply Hd', Hd.
Qed.

Lemma one_hit_at_most (l : list query) :
  hits_only_last l = true -> List.length (filter hit l) <= 1.
Proof.
  induction l as [|q l IH]; simpl; [lia|].
  destruct l as [|q' l].
  - destruct (hit q); simpl; lia.
  - intro H. apply andb_true_iff in H. destruct H as [Hq H].
    apply negb_true_iff in Hq. rewrite Hq. now apply IH.
Qed.

Lemma three_tiers_at_most (l : list query) :
  in_tier_order l = true -> List.length l <= 3.
Proof.
  destruct l as [|q1 [|q2 [|q3 [|q4 l]]]]; simpl; try lia.
  destruct (q_tier q1), (q_tier q2), (q_tier q3), (q_tier q4); simpl;
    try discriminate; rewrite ?andb_false_r; discriminate.
Qed.

Lemma filter_hit_concat (avs : list variable) (g : Neo4j.graph)
    (groups : list (list query)) :
  Forall2 (group_ok g) avs groups ->
  List.length (filter hit (concat groups)) <= List.length avs.
Proof.
  induction 1 as [|av grp avs groups (_ & H & _) _ IH]; simpl; [lia|].
  rewrite filter_app, length_app. apply one_hit_at_most in H. lia.
Qed.

(** X1: a run leaves the nodes of the store as they are and never removes
    a relationship: the [OF_CLASS] relationships after it are those before
    it followed by the ones it merged, and they hold no duplicate when they
    held none before. *)
Theorem run_only_adds_relationships (g : Neo4j.graph) (avs cvs : list variable)
    (r : run) :
  create_of_class_relationships g avs cvs = Returned r ->
  Neo4j.class_variable_nodes (final r) = Neo4j.class_variable_nodes g /\
  Neo4j.adam_variable_nodes (final r) = Neo4j.adam_variable_nodes g /\
  (exists added, Neo4j.of_class (final r) = Neo4j.of_class g ++ added) /\
  (NoDup (Neo4j.of_class g) -> NoDup (Neo4j.of_class (final r))).
Proof.
  unfold create_of_class_relationships.
  destruct (build_index cvs) as [idx| |]; simpl; try discriminate.
  destruct (of_class_loop idx (State g 0 []) avs) as [st| |] eqn:L; simpl;
    try discriminate.
  intro H. injection H as <-. simpl.
  destruct (loop_effect idx avs _ _ L) as (_ & _ & _ & _ & [A B] & E & D).
  simpl in *. auto.
Qed.

Lemma run_only_adds_relationships_witness :
  exists r,
    create_of_class_relationships
      (Neo4j.Graph ["--SEQ"; "USUBJID"] [("AESEQ", "ADAE"); ("USUBJID", "ADAE")] [(1, 1)])
      [Variable_ "AESEQ" "ADAE"; Variable_ "USUBJID" "ADAE"]
      [Variable_ "--SEQ" "OCCDS"; Variable_ "USUBJID" "ADSL"] = Returned r /\
    Neo4j.of_class (final r) = [(1, 1); (0, 0)] /\
    NoDup (Neo4j.of_class (final r)).
Proof.
  eexists. split; [reflexivity|]. split; [reflexivity|].
  apply (run_only_adds_relationships
           (Neo4j.Graph ["--SEQ"; "USUBJID"]
                        [("AESEQ", "ADAE"); ("USUBJID", "ADAE")] [(1, 1)])
           [Variable_ "AESEQ" "ADAE"; Variable_ "USUBJID" "ADAE"]
           [Variable_ "--SEQ" "OCCDS"; Variable_ "USUBJID" "ADSL"] _ eq_refl).
  repeat constructor. intros [].
Defined.

(** X2: the number a run prints is the number of queries that the store
    answered with a row, and it is at most the number of variables, since a
    variable has at most one such query. *)
Theorem printed_count (g : Neo4j.graph) (avs cvs : list variable) (r : run) :
  create_of_class_relationships g avs cvs = Returned r ->
  stdout r =
  ["Creating OF_CLASS relationships (ADaM Variable -> ADaM Class Variable)...";
   ("  Created " ++ PyStr.of_nat (List.length (filter hit (queries r)))
                 ++ " OF_CLASS relationships")%string] /\
  List.length (filter hit (queries r)) <= List.length avs.
Proof.
  unfold create_of_class_relationships.
  destruct (build_index cvs) as [idx| |]; simpl; try discriminate.
  destruct (of_class_loop idx (State g 0 []) avs) as [st| |] eqn:L; simpl;
    try discriminate.
  intro H. injection H as <-. simpl.
  destruct (loop_effect idx avs _ _ L) as (groups & G & S & C & _).
  simpl in S, C. rewrite S, C. split; [reflexivity|].
  exact (filter_hit_concat avs g groups G).
Qed.

Lemma printed_count_witness :
  exists r,
    create_of_class_relationships
      (Neo4j.Graph ["--SEQ"] [("AESEQ", "ADAE")] [])
      [Variable_ "AESEQ" "ADAE"; Variable_ "CMSEQ" "ADCM"]
      [Variable_ "--SEQ" "OCCDS"] = Returned r /\
    map q_cnt (queries r) = [1; 0] /\
    stdout r =
    ["Creating OF_CLASS relationships (ADaM Variable -> ADaM Class Variable)...";
     "  Created 1 OF_CLASS relationships"].
Proof.
  eexists. split; [reflexivity|]. split; [reflexivity|].
  exact (proj1 (printed_count (Neo4j.Graph ["--SEQ"] [("AESEQ", "ADAE")] [])
                  [Variable_ "AESEQ" "ADAE"; Variable_ "CMSEQ" "ADCM"]
                  [Variable_ "--SEQ" "OCCDS"] _ eq_refl)).
Defined.

(** X3: the queries of a run are those of its variables, one variable after
    the other in the order of the list; a variable gets at most three
    queries, at most one for a tier and in the order exact, suffix, pattern,
    each carrying its name and dataset, and only the last of them can have
    been answered with a row. *)
Theorem queries_per_variable (g : Neo4j.graph) (avs cvs : list variable) (r : run) :
  create_of_class_relationships g avs cvs = Returned r ->
  exists groups,
    queries r = concat groups /\
    Forall2 (group_ok g) avs groups /\
    Forall (fun grp => List.length grp <= 3 /\ List.length (filter hit grp) <= 1)
           groups.
Proof.
  unfold create_of_class_relationships.
  destruct (build_index cvs) as [idx| |]; simpl; try discriminate.
  destruct (of_class_loop idx (State g 0 []) avs) as [st| |] eqn:L; simpl;
    try discriminate.
  intro H. injection H as <-. simpl.
  destruct (loop_effect idx avs _ _ L) as (groups & G & S & _).
  simpl in S. exists groups. split; [exact S|]. split; [exact G|].
  clear S L. induction G as [|av grp avs groups (T & H & _) _ IH]; constructor.
  - split; [now apply three_tiers_at_most | now apply one_hit_at_most].
  - exact IH.
Qed.

Lemma queries_per_variable_witness :
  exists r groups,
    create_of_class_relationships Neo4j.clear
      [Variable_ "--SEQ" "ADAE"; Variable_ "TRT01P" "ADSL"]
      [Variable_ "--SEQ" "OCCDS"; Variable_ "TRTxxP" "ADSL"] = Returned r /\
    queries r = concat groups /\
    map (map q_tier) groups = [[Exact; Suffix]; [Pattern]].
Proof.
  destruct (queries_per_variable Neo4j.clear
              [Variable_ "--SEQ" "ADAE"; Variable_ "TRT01P" "ADSL"]
              [Variable_ "--SEQ" "OCCDS"; Variable_ "TRTxxP" "ADSL"] _ eq_refl)
    as (groups & Q & _).
  eexists.
  exists [[Query Exact "--SEQ" "ADAE" "--SEQ" 0; Query Suffix "--SEQ" "ADAE" "--SEQ" 0];
          [Query Pattern "TRT01P" "ADSL" "TRTxxP" 0]].
  split; [reflexivity|]. split; reflexivity.
Defined.

End RunFacts.

Section NeverRaises.

Lemma build_index_total (cvs : list variable) :
  (forall cv, In cv cvs -> eligible (name cv) = true ->
     exists re, Re.compile (template_regex (name cv)) = Re.Compiled re) ->
  exists idx, build_index cvs = Returned idx.
Proof.
  intro Hall.
  destruct (compile_patterns_total (fst (build_pattern_lookup cvs))) as (cps & Hc).
  - intros [k t] Hin. apply pattern_lookup_entries in Hin.
    destruct Hin as (Hn & El & ->). simpl.
    apply in_map_iff in Hn. destruct Hn as (cv & <- & Hcv). now apply Hall.
  - unfold build_index. simpl in *. unfold PyDict.items. rewrite Hc. simpl.
    eexists. reflexivity.
Qed.

(** [suffix_lookup[suffix]] finds its key: the suffix comes from the keys *)
Lemma step_returns (cvs : list variable) (idx : index) (st : state) (var : variable) :
  build_index cvs = Returned idx ->
  exists st', of_class_step idx st var = Returned st'.
Proof.
  intro Hb. destruct (build_index_names cvs idx Hb) as (_ & Hl & Hs & _).
  unfold of_class_step.
  destruct (if existsb (String.eqb (name var)) (class_var_names idx)
            then send Exact var (name var) st false else (st, false)) as [st1 m1].
  destruct m1; simpl; [eauto|].
  destruct (find (PyStr.endswith (name var)) (sorted_suffixes idx)) as [s|] eqn:F.
  - apply find_some in F. destruct F as [Hin _]. rewrite Hs in Hin.
    apply (Permutation_in _ (sorted_by_len_desc_perm _)) in Hin.
    rewrite Hl, (suffix_lookup_value cvs s Hin).
    destruct (send Suffix var ("--" ++ s) st1 false) as [st2 m2]. simpl.
    destruct m2; simpl; [eauto|].
    destruct (find _ (compiled_patterns idx)) as [[r c]|]; eauto.
  - simpl. destruct (find _ (compiled_patterns idx)) as [[r c]|]; eauto.
Qed.

Lemma loop_returns (cvs : list variable) (idx : index) (avs : list variable) :
  build_index cvs = Returned idx ->
  forall st, exists st', of_class_loop idx st avs = Returned st'.
Proof.
  intro Hb. induction avs as [|av avs IH]; intro st; simpl; [eauto|].
  destruct (step_returns cvs idx st av Hb) as (st1 & ->). simpl. apply IH.
Qed.

(** X4: once the regular expression of every eligible template compiles,
    the run returns, for every store and every list of variables: the loop
    raises nothing, and [suffix_lookup[suffix]] in particular always finds
    its key. *)
Theorem run_returns (cvs : list variable) :
  (forall cv, In cv cvs -> eligible (name cv) = true ->
     exists re, Re.compile (template_regex (name cv)) = Re.Compiled re) ->
  forall g avs, exists r, create_of_class_relationships g avs cvs = Returned r.
Proof.
  intros Hall g avs. destruct (build_index_total cvs Hall) as (idx & Hb).
  unfold create_of_class_relationships. rewrite Hb. simpl.
  destruct (loop_returns cvs idx avs Hb (State g 0 [])) as (st' & ->). simpl. eauto.
Qed.

Lemma run_returns_witness :
  exists r,
    create_of_class_relationships Neo4j.clear [Variable_ "AESEQ" "ADAE"]
      [Variable_ "--SEQ" "OCCDS"; Variable_ "TRTxxP" "ADSL"] = Returned r.
Proof.
  apply (run_returns [Variable_ "--SEQ" "OCCDS"; Variable_ "TRTxxP" "ADSL"]).
  intros cv [<-|[<-|[]]] El.
  - discriminate El.
  - eexists. vm_compute. reflexivity.
Defined.

End NeverRaises.

Section Answers.

Lemma later_answers (idx : index) (st st' : state) (var : variable) :
  existsb (String.eqb (name var)) (class_var_names idx) = false ->
  of_class_step idx st var = Returned st' ->
  exists new, st_sent st' = st_sent st ++ new /\
              Forall (fun q => q_var_name q = name var /\ answer_of idx var q) new.
Proof.
  intros Ex. unfold of_class_step. rewrite Ex. simpl.
  destruct (find (PyStr.endswith (name var)) (sorted_suffixes idx)) as [s|] eqn:Fs.
  - destruct (PyDict.get s (suffix_lookup idx)) as [c|] eqn:G; [|discriminate].
    destruct (send_effect Suffix var c st false) as (S1 & _ & M1 & _).
    destruct (send Suffix var c st false) as [st1 m1]. simpl in S1, M1.
    assert (QS : (fun q => q_var_name q = name var /\ answer_of idx var q)
                   (Query Suffix (name var) (dataset var) c
                          (rows (st_session st) var c))).
    { split; [reflexivity|]. unfold answer_of. simpl. now exists s. }
    destruct m1; simpl.
    + intro H. injection H as <-. eexists. split; [exact S1|]. now constructor.
    + destruct (find _ (compiled_patterns idx)) as [[r c']|] eqn:Fp.
      * intro H. injection H as <-.
        destruct (send_effect Pattern var c' st1 false) as (S2 & _).
        eexists. split; [rewrite S2, S1, <- app_assoc; reflexivity|].
        constructor; [exact QS|]. constructor; [|constructor].
        split; [reflexivity|]. unfold answer_of. simpl. now exists r.
      * intro H. injection H as <-. eexists. split; [exact S1|]. now constructor.
  - simpl. destruct (find _ (compiled_patterns idx)) as [[r c']|] eqn:Fp.
    + intro H. injection H as <-.
      destruct (send_effect Pattern var c' st false) as (S2 & _).
      eexists. split; [exact S2|]. constructor; [|constructor].
      split; [reflexivity|]. unfold answer_of. simpl. now exists r.
    + intro H. injection H as <-. exists []. now rewrite app_nil_r.
Qed.

Lemma answer_of_no_names (idx : index) (var : variable) (q : query) :
  answer_of (Index [] (suffix_lookup idx) (sorted_suffixes idx) (compiled_patterns idx))
            var q ->
  answer_of idx var q.
Proof.
  unfold answer_of. destruct (q_tier q); simpl; [intros [H _]; discriminate | auto | auto].
Qed.

(** every query of an iteration carries the name its tier found *)
Lemma step_answers (idx : index) (st st' : state) (var : variable) :
  of_class_step idx st var = Returned st' ->
  exists new, st_sent st' = st_sent st ++ new /\
              Forall (fun q => q_var_name q = name var /\ answer_of idx var q) new.
Proof.
  intro Hs.
  destruct (existsb (String.eqb (name var)) (class_var_names idx)) eqn:Ex;
    [|now apply later_answers].
  destruct (send_effect Exact var (name var) st false) as (S1 & _ & M1 & _).
  assert (QE : (fun q => q_var_name q = name var /\ answer_of idx var q)
                 (Query Exact (name var) (dataset var) (name var)
                        (rows (st_session st) var (name var)))).
  { split; [reflexivity|]. unfold answer_of. simpl. now split. }
  destruct (Nat.ltb 0 (rows (st_session st) var (name var))) eqn:L.
  - unfold of_class_step in Hs. rewrite Ex in Hs.
    destruct (send Exact var (name var) st false) as [st1 m1]. simpl in S1, M1.
    subst m1. simpl in Hs. injection Hs as <-.
    eexists. split; [exact S1|]. now constructor.
  - assert (E : of_class_step idx st var =
                of_class_step (Index [] (suffix_lookup idx) (sorted_suffixes idx)
                                     (compiled_patterns idx))
                  (fst (send Exact var (name var) st false)) var).
    { unfold of_class_step. rewrite Ex.
      destruct (send Exact var (name var) st false) as [st1 m1]. simpl in M1.
      subst m1. reflexivity. }
    rewrite E in Hs. apply later_answers in Hs; [|reflexivity].
    destruct Hs as (new & S2 & Q).
    eexists. split; [rewrite S2, S1, <- app_assoc; reflexivity|].
    constructor; [exact QE|].
    eapply Forall_impl; [|exact Q]. intros q [A B].
    split; [exact A | now apply answer_of_no_names].
Qed.

Lemma answer_shape_of (cvs : list variable) (idx : index) (var : variable) (q : query) :
  build_index cvs = Returned idx ->
  q_var_name q = name var -> answer_of idx var q -> answer_shape cvs q.
Proof.
  intros Hb Hn Ha. destruct (build_index_names cvs idx Hb) as (Hc & Hl & Hs & Hp).
  unfold answer_of in Ha. unfold answer_shape. rewrite Hn.
  destruct (q_tier q).
  - destruct Ha as [Ex ->]. split; [|reflexivity].
    apply existsb_eqb_In in Ex. now rewrite Hc in Ex.
  - destruct Ha as (s & F & G). rewrite Hl in G. rewrite Hs in F.
    apply find_some in F. destruct F as [_ He].
    destruct (suffix_lookup_get cvs s _ G) as [E Hin].
    split; [exact Hin|]. rewrite E.
    split; [apply (prefix_append "--" s) | exact He].
  - destruct Ha as (re & F). apply find_some in F. destruct F as [Hin Hm].
    simpl in Hm.
    assert (exists item, In item (fst (build_pattern_lookup cvs)) /\
                         compiles_to item (re, q_class_var_name q)) as (item & Hi & Hc').
    { clear - Hp Hin. induction Hp as [|x y l l' Hxy _ IH]; [destruct Hin|].
      destruct Hin as [->|Hin]; [exists x; split; [now left | assumption]|].
      destruct (IH Hin) as (item & Hi & Hc). exists item. split; [now right | assumption]. }
    destruct item as [k t]. destruct Hc' as [Hk Ht]. simpl in Hk, Ht. subst t.
    apply pattern_lookup_entries in Hi. destruct Hi as (Hn' & El & ->).
    split; [exact Hn'|]. split; [exact El|]. now exists re.
Qed.

(** X5: the class variable a query names is always a name of the catalogue.
    At tier exact it is the name of the variable itself; at tier suffix it
    is a template that starts with [--] and whose rest the name ends with;
    at tier pattern it is a template that does not start with [--], holds a
    lowercase letter, and whose compiled regular expression matches the
    name. *)
Theorem answers_come_from_the_catalogue (g : Neo4j.graph) (avs cvs : list variable)
    (r : run) :
  create_of_class_relationships g avs cvs = Returned r ->
  Forall (answer_shape cvs) (queries r).
Proof.
  unfold create_of_class_relationships.
  destruct (build_index cvs) as [idx| |] eqn:Hb; simpl; try discriminate.
  destruct (of_class_loop idx (State g 0 []) avs) as [st| |] eqn:L; simpl;
    try discriminate.
  intro H. injection H as <-. simpl.
  assert (K : forall avs st st',
             of_class_loop idx st avs = Returned st' ->
             exists new, st_sent st' = st_sent st ++ new /\
                         Forall (answer_shape cvs) new).
  { clear L st. intros l. induction l as [|av l IH]; intros s0 s' H; simpl in H.
    - injection H as <-. exists []. now rewrite app_nil_r.
    - destruct (of_class_step idx s0 av) as [s1| |] eqn:S1; try discriminate.
      simpl in H. destruct (step_answers idx s0 s1 av S1) as (new1 & E1 & Q1).
      destruct (IH s1 s' H) as (new2 & E2 & Q2).
      exists (new1 ++ new2). split; [now rewrite E2, E1, app_assoc|].
      apply Forall_app. split; [|exact Q2].
      eapply Forall_impl; [|exact Q1]. intros q [A B].
      exact (answer_shape_of cvs idx av q Hb A B). }
  destruct (K avs _ _ L) as (new & E & Q). simpl in E. now rewrite E.
Qed.

Lemma answers_come_from_the_catalogue_witness :
  exists r,
    create_of_class_relationships
      (Neo4j.Graph ["--SEQ"; "TRTxxP"; "USUBJID"]
                   [("AESEQ", "ADAE"); ("TRT01P", "ADSL"); ("USUBJID", "ADSL")] [])
      [Variable_ "AESEQ" "ADAE"; Variable_ "TRT01P" "ADSL"; Variable_ "USUBJID" "ADSL"]
      [Variable_ "--SEQ" "OCCDS"; Variable_ "TRTxxP" "ADSL"; Variable_ "USUBJID" "ADSL"]
    = Returned r /\
    map q_tier (queries r) = [Suffix; Pattern; Exact] /\
    Forall (answer_shape
              [Variable_ "--SEQ" "OCCDS"; Variable_ "TRTxxP" "ADSL";
               Variable_ "USUBJID" "ADSL"]) (queries r).
Proof.
  eexists. split; [reflexivity|]. split; [reflexivity|].
  apply (answers_come_from_the_catalogue
           (Neo4j.Graph ["--SEQ"; "TRTxxP"; "USUBJID"]
                        [("AESEQ", "ADAE"); ("TRT01P", "ADSL"); ("USUBJID", "ADSL")] [])
           [Variable_ "AESEQ" "ADAE"; Variable_ "TRT01P" "ADSL";
            Variable_ "USUBJID" "ADSL"]
           [Variable_ "--SEQ" "OCCDS"; Variable_ "TRTxxP" "ADSL";
            Variable_ "USUBJID" "ADSL"] _ eq_refl).
Defined.

End Answers.

Section CatalogueOrder.

Lemma Forall2_in_right (A B : Type) (R : A -> B -> Prop) (l : list A) (l' : list B)
    (b : B) :
  Forall2 R l l' -> In b l' -> exists a, In a l /\ R a b.
Proof.
  induction 1 as [|x y l l' Hxy _ IH]; intros Hin; [destruct Hin|].
  destruct Hin as [->|Hin].
  - exists x. split; [now left | assumption].
  - destruct (IH Hin) as [a [Ha Ra]]. exists a. split; [now right | assumption].
Qed.

(** a pattern that one catalogue compiles is compiled by every catalogue
    that holds its template *)
Lemma pattern_shared (cvs cvs' : list variable) (idx idx' : index) (r : Re.regex)
    (c : string) :
  build_index cvs = Returned idx -> build_index cvs' = Returned idx' ->
  (forall n, In n (map name cvs) -> In n (map name cvs')) ->
  In (r, c) (compiled_patterns idx) ->
  exists c', In (r, c') (compiled_patterns idx').
Proof.
  intros Hb Hb' Sub Hin.
  destruct (build_index_names cvs idx Hb) as (_ & _ & _ & Hp).
  destruct (build_index_names cvs' idx' Hb') as (_ & _ & _ & Hp').
  destruct (Forall2_in_right _ _ _ _ _ _ Hp Hin) as ([k t] & Hi & Hk & Ht).
  simpl in Hk, Ht. subst t.
  apply pattern_lookup_entries in Hi. destruct Hi as (Hn & El & ->).
  apply Sub, in_map_iff in Hn. destruct Hn as (cv' & E & Hcv').
  rewrite <- E in El.
  pose proof (pattern_lookup_registers cvs' cv' Hcv' El) as K. rewrite E in K.
  apply In_keys_get in K. destruct K as (t' & G). apply get_In in G.
  destruct (Forall2_in_left _ _ _ _ _ _ Hp' G) as ([r' c'] & Hi' & Hk' & _).
  simpl in Hk'. rewrite Hk in Hk'. injection Hk' as <-. now exists c'.
Qed.

Lemma classify_same_names (cvs cvs' : list variable) (idx idx' : index) (v : string)
    (t : tier) (c : string) :
  build_index cvs = Returned idx -> build_index cvs' = Returned idx' ->
  (forall n, In n (map name cvs) <-> In n (map name cvs')) ->
  classify idx v = Some (t, c) ->
  exists c', classify idx' v = Some (t, c') /\ (t <> Pattern -> c' = c).
Proof.
  intros Hb Hb' Same.
  destruct (build_index_names cvs idx Hb) as (Hc & Hl & Hs & _).
  destruct (build_index_names cvs' idx' Hb') as (Hc' & Hl' & Hs' & _).
  unfold classify. rewrite Hc, Hl, Hs, Hc', Hl', Hs'.
  assert (Keys : forall k, In k (PyDict.keys (build_suffix_lookup cvs)) <->
                           In k (PyDict.keys (build_suffix_lookup cvs'))).
  { intro k. now rewrite !suffix_lookup_keys. }
  destruct (existsb (String.eqb v) (map name cvs)) eqn:Ex.
  - apply existsb_eqb_In, Same, existsb_eqb_In in Ex. rewrite Ex.
    intro H. injection H as <- <-. now exists v.
  - assert (Ex' : existsb (String.eqb v) (map name cvs') = false).
    { destruct (existsb (String.eqb v) (map name cvs')) eqn:E; [|reflexivity].
      apply existsb_eqb_In, Same, existsb_eqb_In in E. congruence. }
    rewrite Ex'.
    destruct (find (PyStr.endswith v)
                   (sorted_by_len_desc (PyDict.keys (build_suffix_lookup cvs))))
      as [s|] eqn:F.
    + destruct (suffix_scan cvs v s F) as (Hin & He & Hmax).
      rewrite (suffix_lookup_value cvs s Hin). simpl.
      intro H. injection H as <- <-.
      destruct (find (PyStr.endswith v)
                     (sorted_by_len_desc (PyDict.keys (build_suffix_lookup cvs'))))
        as [s'|] eqn:F'.
      * destruct (suffix_scan cvs' v s' F') as (Hin' & He' & Hmax').
        assert (E : s' = s).
        { apply (endswith_unique v); [assumption | assumption |].
          apply Keys in Hin. apply Keys in Hin'.
          pose proof (Hmax s' Hin' He'). pose proof (Hmax' s Hin He). lia. }
        subst s'. rewrite (suffix_lookup_value cvs' s Hin'). simpl.
        eexists. split; reflexivity.
      * exfalso. apply find_none_iff with (x := s) in F'; [congruence|].
        apply (Permutation_in _ (Permutation_sym (sorted_by_len_desc_perm _))).
        now apply Keys.
    + assert (F' : find (PyStr.endswith v)
                     (sorted_by_len_desc (PyDict.keys (build_suffix_lookup cvs'))) = None).
      { destruct (find (PyStr.endswith v)
                       (sorted_by_len_desc (PyDict.keys (build_suffix_lookup cvs'))))
          as [s'|] eqn:F'; [|reflexivity].
        destruct (suffix_scan cvs' v s' F') as (Hin' & He' & _).
        apply find_none_iff with (x := s') in F; [congruence|].
        apply (Permutation_in _ (Permutation_sym (sorted_by_len_desc_perm _))).
        now apply Keys. }
      rewrite F'.
      destruct (find (fun item => Re.matches (fst item) v) (compiled_patterns idx))
        as [[r c0]|] eqn:Fp; [|discriminate].
      intro H. injection H as <- <-.
      apply find_some in Fp. destruct Fp as [Hin Hm]. simpl in Hm.
      destruct (pattern_shared cvs cvs' idx idx' r c0 Hb Hb'
                  (fun n => proj1 (Same n)) Hin) as (c' & Hin').
      destruct (find (fun item => Re.matches (fst item) v) (compiled_patterns idx'))
        as [[r' c'']|] eqn:Fp'.
      * exists c''. split; [reflexivity|]. intro N. now destruct N.
      * exfalso. apply find_none_iff with (x := (r, c')) in Fp'; [|exact Hin'].
        simpl in Fp'. congruence.
Qed.

(** X6: which tier answers a name does not depend on the order of the
    catalogue nor on repeated rows, and at the tiers exact and suffix the
    answer does not either: for two catalogues with the same names, a name
    is left unanswered by both or answered by both at the same tier, and
    with the same template unless the tier is pattern. *)
Theorem tiers_ignore_catalogue_order (cvs cvs' : list variable) (idx idx' : index) :
  build_index cvs = Returned idx -> build_index cvs' = Returned idx' ->
  (forall n, In n (map name cvs) <-> In n (map name cvs')) ->
  forall v,
    (classify idx v = None <-> classify idx' v = None) /\
    (forall t c, classify idx v = Some (t, c) ->
       exists c', classify idx' v = Some (t, c') /\ (t <> Pattern -> c' = c)).
Proof.
  intros Hb Hb' Same v.
  assert (Same' : forall n, In n (map name cvs') <-> In n (map name cvs))
    by (intro n; symmetry; apply Same).
  split; [split; intro H|].
  - destruct (classify idx' v) as [[t c]|] eqn:E; [|reflexivity].
    destruct (classify_same_names cvs' cvs idx' idx v t c Hb' Hb Same' E) as (c' & K & _).
    congruence.
  - destruct (classify idx v) as [[t c]|] eqn:E; [|reflexivity].
    destruct (classify_same_names cvs cvs' idx idx' v t c Hb Hb' Same E) as (c' & K & _).
    congruence.
  - intros t c. now apply classify_same_names with (cvs := cvs) (cvs' := cvs').
Qed.

Lemma tiers_ignore_catalogue_order_witness :
  exists idx idx',
    build_index [Variable_ "--SEQ" "OCCDS"; Variable_ "--ASEQ" "OCCDS";
                 Variable_ "USUBJID" "ADSL"] = Returned idx /\
    build_index [Variable_ "USUBJID" "BDS"; Variable_ "--ASEQ" "OCCDS";
                 Variable_ "--SEQ" "OCCDS"; Variable_ "--SEQ" "BDS"] = Returned idx' /\
    classify idx' "AEASEQ" = Some (Suffix, "--ASEQ").
Proof.
  eexists. eexists. split; [reflexivity|]. split; [reflexivity|].
  assert (Same : forall n,
             In n (map name [Variable_ "--SEQ" "OCCDS"; Variable_ "--ASEQ" "OCCDS";
                             Variable_ "USUBJID" "ADSL"]) <->
             In n (map name [Variable_ "USUBJID" "BDS"; Variable_ "--ASEQ" "OCCDS";
                             Variable_ "--SEQ" "OCCDS"; Variable_ "--SEQ" "BDS"])).
  { intro n. simpl. tauto. }
  destruct (proj2 (tiers_ignore_catalogue_order
                     [Variable_ "--SEQ" "OCCDS"; Variable_ "--ASEQ" "OCCDS";
                      Variable_ "USUBJID" "ADSL"]
                     [Variable_ "USUBJID" "BDS"; Variable_ "--ASEQ" "OCCDS";
                      Variable_ "--SEQ" "OCCDS"; Variable_ "--SEQ" "BDS"]
                     _ _ eq_refl eq_refl Same "AEASEQ")
              Suffix "--ASEQ" eq_refl) as (c' & E & Hc).
  rewrite E, Hc; [reflexivity | discriminate].
Defined.

End CatalogueOrder.

Section Traces.

Lemma exact_hit (idx : index) (st : state) (var : variable) :
  existsb (String.eqb (name var)) (class_var_names idx) = true ->
  snd (send Exact var (name var) st false) = true ->
  of_class_step idx st var = Returned (fst (send Exact var (name var) st false)).
Proof.
  intros Ex M. unfold of_class_step. rewrite Ex.
  destruct (send Exact var (name var) st false) as [st1 m1]. simpl in M. now subst m1.
Qed.

Lemma exact_missed (idx : index) (st : state) (var : variable) :
  existsb (String.eqb (name var)) (class_var_names idx) = true ->
  snd (send Exact var (name var) st false) = false ->
  of_class_step idx st var =
  of_class_step (Index [] (suffix_lookup idx) (sorted_suffixes idx)
                       (compiled_patterns idx))
                (fst (send Exact var (name var) st false)) var.
Proof.
  intros Ex M. unfold of_class_step. rewrite Ex.
  destruct (send Exact var (name var) st false) as [st1 m1]. simpl in M. now subst m1.
Qed.

Lemma later_trace (idx : index) (st st' : state) (var : variable) :
  existsb (String.eqb (name var)) (class_var_names idx) = false ->
  of_class_step idx st var = Returned st' ->
  exists trace, st' = sends trace st.
Proof.
  intros Ex. unfold of_class_step. rewrite Ex. simpl.
  destruct (find (PyStr.endswith (name var)) (sorted_suffixes idx)) as [s|].
  - destruct (PyDict.get s (suffix_lookup idx)) as [c|]; [|discriminate].
    destruct (send Suffix var c st false) as [st1 m1] eqn:S1.
    assert (E1 : st1 = sends [(var, Suffix, c)] st) by (unfold sends; simpl; now rewrite S1).
    simpl. destruct m1; simpl.
    + intro H. injection H as <-. now exists [(var, Suffix, c)].
    + destruct (find _ (compiled_patterns idx)) as [[r c']|].
      * intro H. injection H as <-. exists [(var, Suffix, c); (var, Pattern, c')].
        rewrite E1. reflexivity.
      * intro H. injection H as <-. now exists [(var, Suffix, c)].
  - simpl. destruct (find _ (compiled_patterns idx)) as [[r c']|].
    + intro H. injection H as <-. now exists [(var, Pattern, c')].
    + intro H. injection H as <-. now exists [].
Qed.

(** an iteration changes the state through its calls of [session.run] only *)
Lemma step_trace (idx : index) (st st' : state) (var : variable) :
  of_class_step idx st var = Returned st' -> exists trace, st' = sends trace st.
Proof.
  intro H.
  destruct (existsb (String.eqb (name var)) (class_var_names idx)) eqn:Ex;
    [|now apply later_trace with (idx := idx) (var := var)].
  destruct (snd (send Exact var (name var) st false)) eqn:M.
  - rewrite (exact_hit idx st var Ex M) in H. injection H as <-.
    now exists [(var, Exact, name var)].
  - rewrite (exact_missed idx st var Ex M) in H.
    apply later_trace in H; [|reflexivity]. destruct H as (trace & ->).
    now exists ((var, Exact, name var) :: trace).
Qed.

Lemma loop_trace (idx : index) (avs : list variable) (st st' : state) :
  of_class_loop idx st avs = Returned st' -> exists trace, st' = sends trace st.
Proof.
  revert st; induction avs as [|av avs IH]; intros st H; simpl in H.
  - injection H as <-. now exists [].
  - destruct (of_class_step idx st av) as [st1| |] eqn:S1; try discriminate.
    simpl in H. destruct (step_trace idx st st1 av S1) as (t1 & ->).
    destruct (IH _ H) as (t2 & ->). exists (t1 ++ t2).
    unfold sends. now rewrite fold_left_app.
Qed.

Lemma bound_pairs_same_nodes (g g' : Neo4j.graph) (q : query) :
  same_nodes g g' -> bound_pairs g' q = bound_pairs g q.
Proof. intros [Hc Ha]. unfold bound_pairs. now rewrite Hc, Ha. Qed.

Lemma send_edges (t : tier) (var : variable) (c : string) (st : state) (m : bool) :
  let q := Query t (name var) (dataset var) c (rows (st_session st) var c) in
  Neo4j.of_class (st_session (fst (send t var c st m)))
  = fold_left Neo4j.merge_edge (bound_pairs (st_session st) q)
              (Neo4j.of_class (st_session st)) /\
  q_cnt q = List.length (bound_pairs (st_session st) q).
Proof.
  unfold rows, send, bound_pairs, Neo4j.run_of_class. simpl.
  split; [|reflexivity].
  now destruct (Nat.ltb 0 _).
Qed.

(** what a sequence of calls leaves: the queries in the record, the nodes as
    they were, and the relationships merged for the pairs the queries bound *)
Lemma sends_edges (trace : list (variable * tier * string)) (st : state) :
  exists new,
    st_sent (sends trace st) = st_sent st ++ new /\
    same_nodes (st_session st) (st_session (sends trace st)) /\
    Neo4j.of_class (st_session (sends trace st))
    = fold_left Neo4j.merge_edge (flat_map (bound_pairs (st_session st)) new)
                (Neo4j.of_class (st_session st)) /\
    Forall (fun q => q_cnt q = List.length (bound_pairs (st_session st) q)) new.
Proof.
  revert st; induction trace as [|[[var t] c] trace IH]; intro st.
  - exists []. simpl. rewrite app_nil_r. repeat split. constructor.
  - change (sends ((var, t, c) :: trace) st)
      with (sends trace (fst (send t var c st false))).
    destruct (IH (fst (send t var c st false))) as (new & S & N & E & Q).
    destruct (send_effect t var c st false) as (S1 & _ & _ & N1 & _).
    destruct (send_edges t var c st false) as (E1 & Q1).
    eexists. split; [rewrite S, S1, <- app_assoc; reflexivity|].
    split; [destruct N as [A B], N1 as [A1 B1]; split; congruence|].
    split.
    + rewrite E, E1. simpl. rewrite fold_left_app. f_equal.
      apply flat_map_ext. intro q. now apply bound_pairs_same_nodes.
    + constructor; [exact Q1|]. eapply Forall_impl; [|exact Q].
      intros q Hq. now rewrite Hq, (bound_pairs_same_nodes _ _ q N1).
Qed.

(** X7: the relationships a run leaves are those it found, with the pairs
    of nodes that its queries bound merged into them in the order of the
    queries, and the count of a query is the number of pairs it bound. *)
Theorem relationships_of_a_run (g : Neo4j.graph) (avs cvs : list variable) (r : run) :
  create_of_class_relationships g avs cvs = Returned r ->
  Neo4j.of_class (final r)
  = fold_left Neo4j.merge_edge (flat_map (bound_pairs g) (queries r))
              (Neo4j.of_class g) /\
  Forall (fun q => q_cnt q = List.length (bound_pairs g q)) (queries r).
Proof.
  unfold create_of_class_relationships.
  destruct (build_index cvs) as [idx| |]; simpl; try discriminate.
  destruct (of_class_loop idx (State g 0 []) avs) as [st| |] eqn:L; simpl;
    try discriminate.
  intro H. injection H as <-. simpl.
  destruct (loop_trace idx avs _ _ L) as (trace & ->).
  destruct (sends_edges trace (State g 0 [])) as (new & S & _ & E & Q).
  simpl in S, E, Q. rewrite S. now split.
Qed.

Lemma relationships_of_a_run_witness :
  exists r,
    create_of_class_relationships
      (Neo4j.Graph ["--SEQ"; "--SEQ"] [("AESEQ", "ADAE")] [(0, 1)])
      [Variable_ "AESEQ" "ADAE"] [Variable_ "--SEQ" "OCCDS"] = Returned r /\
    map q_cnt (queries r) = [2] /\
    Neo4j.of_class (final r) = [(0, 1); (0, 0)].
Proof.
  eexists. split; [reflexivity|]. split; [reflexivity|].
  exact (proj1 (relationships_of_a_run
                  (Neo4j.Graph ["--SEQ"; "--SEQ"] [("AESEQ", "ADAE")] [(0, 1)])
                  [Variable_ "AESEQ" "ADAE"] [Variable_ "--SEQ" "OCCDS"] _ eq_refl)).
Defined.

End Traces.

Section Rerun.

Lemma alike_refl (st : state) : alike st st.
Proof. now repeat split. Qed.

Lemma send_alike (t : tier) (var : variable) (c : string) (st st' : state) (m : bool) :
  alike st st' ->
  alike (fst (send t var c st m)) (fst (send t var c st' m)) /\
  snd (send t var c st' m) = snd (send t var c st m).
Proof.
  intros (C & S & N).
  destruct (send_effect t var c st m) as (S1 & C1 & M1 & N1 & _).
  destruct (send_effect t var c st' m) as (S2 & C2 & M2 & N2 & _).
  rewrite (rows_same_nodes _ _ var c N) in S2, C2, M2.
  split; [|congruence]. split; [|split].
  - now rewrite C1, C2, C.
  - now rewrite S1, S2, S.
  - destruct N as [A B], N1 as [A1 B1], N2 as [A2 B2]. split; congruence.
Qed.

Lemma later_alike (idx : index) (st1 st2 st1' : state) (var : variable) :
  existsb (String.eqb (name var)) (class_var_names idx) = false ->
  alike st1 st2 ->
  of_class_step idx st1 var = Returned st1' ->
  exists st2', of_class_step idx st2 var = Returned st2' /\ alike st1' st2'.
Proof.
  intros Ex Al. unfold of_class_step. rewrite Ex. simpl.
  destruct (find (PyStr.endswith (name var)) (sorted_suffixes idx)) as [s|].
  - destruct (PyDict.get s (suffix_lookup idx)) as [c|]; [|discriminate].
    destruct (send_alike Suffix var c st1 st2 false Al) as [Al1 M1].
    destruct (send Suffix var c st1 false) as [a1 m1].
    destruct (send Suffix var c st2 false) as [b1 m2]. simpl in Al1, M1. subst m2.
    simpl. destruct m1; simpl.
    + intro H. injection H as <-. now exists b1.
    + destruct (find _ (compiled_patterns idx)) as [[r c']|].
      * intro H. injection H as <-. eexists. split; [reflexivity|].
        apply (send_alike Pattern var c' a1 b1 false Al1).
      * intro H. injection H as <-. now exists b1.
  - simpl. destruct (find _ (compiled_patterns idx)) as [[r c']|].
    + intro H. injection H as <-. eexists. split; [reflexivity|].
      apply (send_alike Pattern var c' st1 st2 false Al).
    + intro H. injection H as <-. now exists st2.
Qed.

(** the queries of an iteration and its count do not depend on the
    relationships in the store *)
Lemma step_alike (idx : index) (st1 st2 st1' : state) (var : variable) :
  alike st1 st2 ->
  of_class_step idx st1 var = Returned st1' ->
  exists st2', of_class_step idx st2 var = Returned st2' /\ alike st1' st2'.
Proof.
  intros Al H.
  destruct (existsb (String.eqb (name var)) (class_var_names idx)) eqn:Ex;
    [|now apply later_alike with (st1 := st1)].
  destruct (send_alike Exact var (name var) st1 st2 false Al) as [Al1 M1].
  destruct (snd (send Exact var (name var) st1 false)) eqn:M.
  - rewrite (exact_hit idx st1 var Ex M) in H. injection H as <-.
    rewrite (exact_hit idx st2 var Ex M1). eexists. split; [reflexivity | exact Al1].
  - rewrite (exact_missed idx st1 var Ex M) in H.
    rewrite (exact_missed idx st2 var Ex M1).
    now apply later_alike with (st1 := fst (send Exact var (name var) st1 false)).
Qed.

Lemma loop_alike (idx : index) (avs : list variable) (st1 st2 st1' : state) :
  alike st1 st2 ->
  of_class_loop idx st1 avs = Returned st1' ->
  exists st2', of_class_loop idx st2 avs = Returned st2' /\ alike st1' st2'.
Proof.
  revert st1 st2; induction avs as [|av avs IH]; intros st1 st2 Al H; simpl in *.
  - injection H as <-. now exists st2.
  - destruct (of_class_step idx st1 av) as [a1| |] eqn:S1; try discriminate.
    destruct (step_alike idx st1 st2 a1 av Al S1) as (b1 & -> & Al1).
    simpl in *. now apply IH with (st1 := a1).
Qed.

Lemma merge_edge_keeps (rws edges : list (nat * nat)) (e : nat * nat) :
  In e edges -> In e (fold_left Neo4j.merge_edge rws edges).
Proof.
  intro H. destruct (merge_edge_extends rws edges) as (added & ->).
  apply in_or_app. now left.
Qed.

Lemma merge_edge_holds (rws edges : list (nat * nat)) (e : nat * nat) :
  In e rws -> In e (fold_left Neo4j.merge_edge rws edges).
Proof.
  revert edges; induction rws as [|x rws IH]; intros edges Hin; [destruct Hin|].
  simpl. destruct Hin as [->|Hin]; [|now apply IH].
  apply merge_edge_keeps. unfold Neo4j.merge_edge.
  destruct (existsb (Neo4j.same_edge e) edges) eqn:E.
  - apply existsb_exists in E. destruct E as (e' & He' & Ee).
    apply same_edge_eq in Ee. now subst e'.
  - apply in_or_app. right. now left.
Qed.

Lemma merge_edge_present (rws edges : list (nat * nat)) :
  (forall e, In e rws -> In e edges) -> fold_left Neo4j.merge_edge rws edges = edges.
Proof.
  induction rws as [|x rws IH]; intro H; simpl; [reflexivity|].
  assert (E : Neo4j.merge_edge edges x = edges).
  { unfold Neo4j.merge_edge.
    assert (existsb (Neo4j.same_edge x) edges = true) as ->; [|reflexivity].
    apply existsb_exists. exists x. split; [apply H; now left | now apply same_edge_eq]. }
  rewrite E. apply IH. intros e He. apply H. now right.
Qed.

(** X8: a run is idempotent: run again on the store it left, with the same
    lists, [create_of_class_relationships] sends the same queries, gets the
    same counts, prints the same lines and leaves the store as it found it. *)
Theorem second_run_changes_nothing (g : Neo4j.graph) (avs cvs : list variable)
    (r : run) :
  create_of_class_relationships g avs cvs = Returned r ->
  create_of_class_relationships (final r) avs cvs = Returned r.
Proof.
  intro H. pose proof (relationships_of_a_run g avs cvs r H) as [E1 _].
  unfold create_of_class_relationships in *.
  destruct (build_index cvs) as [idx| |]; simpl in *; try discriminate.
  destruct (of_class_loop idx (State g 0 []) avs) as [st| |] eqn:L; simpl in *;
    try discriminate.
  injection H as <-. simpl in *.
  destruct (loop_effect idx avs _ _ L) as (groups & _ & _ & _ & N & _). simpl in N.
  assert (Al : alike (State g 0 []) (State (st_session st) 0 []))
    by (split; [reflexivity | split; [reflexivity | exact N]]).
  destruct (loop_alike idx avs _ _ st Al L) as (st2 & L2 & C & S & N2).
  rewrite L2. simpl. rewrite C, S. do 2 f_equal.
  destruct (loop_trace idx avs _ _ L2) as (trace & T).
  destruct (sends_edges trace (State (st_session st) 0 [])) as (new & S' & _ & E2 & _).
  rewrite <- T in S', E2. simpl in S', E2. rewrite S in S'. subst new.
  rewrite (flat_map_ext _ _ (fun q => bound_pairs_same_nodes _ _ q N)) in E2.
  rewrite merge_edge_present in E2.
  - destruct N2 as [A B]. destruct (st_session st2), (st_session st). simpl in *.
    congruence.
  - intros e He. rewrite E1. now apply merge_edge_holds.
Qed.

Lemma second_run_changes_nothing_witness :
  exists r,
    create_of_class_relationships
      (Neo4j.Graph ["--SEQ"; "TRTxxP"] [("AESEQ", "ADAE"); ("TRT01P", "ADSL")] [])
      [Variable_ "AESEQ" "ADAE"; Variable_ "TRT01P" "ADSL"; Variable_ "AVAL" "ADLB"]
      [Variable_ "--SEQ" "OCCDS"; Variable_ "TRTxxP" "ADSL"] = Returned r /\
    Neo4j.of_class (final r) = [(0, 0); (1, 1)] /\
    create_of_class_relationships (final r)
      [Variable_ "AESEQ" "ADAE"; Variable_ "TRT01P" "ADSL"; Variable_ "AVAL" "ADLB"]
      [Variable_ "--SEQ" "OCCDS"; Variable_ "TRTxxP" "ADSL"] = Returned r.
Proof.
  eexists. split; [reflexivity|]. split; [reflexivity|].
  apply (second_run_changes_nothing
           (Neo4j.Graph ["--SEQ"; "TRTxxP"] [("AESEQ", "ADAE"); ("TRT01P", "ADSL")] [])).
  reflexivity.
Defined.

End Rerun.

Section MainCounts.

Lemma run_inv (g : Neo4j.graph) (avs cvs : list variable) (r : run) :
  create_of_class_relationships g avs cvs = Returned r ->
  exists idx st,
    build_index cvs = Returned idx /\
    of_class_loop idx (State g 0 []) avs = Returned st /\
    r = Run (st_session st)
            ["Creating OF_CLASS relationships (ADaM Variable -> ADaM Class Variable)...";
             ("  Created " ++ PyStr.of_nat (st_count st)
                           ++ " OF_CLASS relationships")%string]
            (st_sent st).
Proof.
  unfold create_of_class_relationships.
  destruct (build_index cvs) as [idx| |]; simpl; try discriminate.
  destruct (of_class_loop idx (State g 0 []) avs) as [st| |] eqn:L; simpl;
    try discriminate.
  intro H. injection H as <-. now exists idx, st.
Qed.

Lemma positions_none (A : Type) (p : A -> bool) (from : nat) (l : list A) :
  (forall a, In a l -> p a = false) -> Neo4j.positions p from l = [].
Proof.
  revert from; induction l as [|x l IH]; intros from H; simpl; [reflexivity|].
  rewrite (H x (or_introl eq_refl)). apply IH. intros a Ha. apply H. now right.
Qed.

(** a [MATCH] on a key binds one node at most when no two nodes share it *)
Lemma positions_unique (A : Type) (p : A -> bool) (from : nat) (l : list A) :
  NoDup l -> (forall a b, p a = true -> p b = true -> a = b) ->
  List.length (Neo4j.positions p from l) <= 1.
Proof.
  intros D U. revert from; induction D as [|x l Hx D IH]; intro from; simpl; [lia|].
  destruct (p x) eqn:E; [|apply IH].
  rewrite positions_none; [simpl; lia|].
  intros a Ha. destruct (p a) eqn:Ea; [|reflexivity].
  rewrite (U a x Ea E) in Ha. contradiction.
Qed.

Lemma load_adam_class_data_keeps (cvs : list variable) (g : Neo4j.graph) :
  (NoDup (Neo4j.class_variable_nodes g) ->
   NoDup (Neo4j.class_variable_nodes (load_adam_class_data g cvs))) /\
  Neo4j.of_class (load_adam_class_data g cvs) = Neo4j.of_class g.
Proof.
  unfold load_adam_class_data.
  revert g; induction cvs as [|cv cvs IH]; intro g; simpl; [now split|].
  destruct (IH (Neo4j.merge_class_variable (name cv) g)) as [IH1 IH2].
  unfold Neo4j.merge_class_variable in *.
  destruct (existsb (String.eqb (name cv)) (Neo4j.class_variable_nodes g)) eqn:E;
    [now split|].
  simpl in *. split; [|exact IH2]. intro D. apply IH1.
  apply NoDup_app; [assumption | repeat constructor; intros [] |].
  intros x Hx [<-|[]]. apply existsb_eqb_In in Hx. congruence.
Qed.

Lemma load_adam_variables_keeps (avs : list variable) (g : Neo4j.graph) :
  (NoDup (Neo4j.adam_variable_nodes g) ->
   NoDup (Neo4j.adam_variable_nodes (load_adam_variables g avs))) /\
  Neo4j.of_class (load_adam_variables g avs) = Neo4j.of_class g.
Proof.
  unfold load_adam_variables.
  revert g; induction avs as [|av avs IH]; intro g; simpl; [now split|].
  destruct (IH (Neo4j.merge_adam_variable (name av, dataset av) g)) as [IH1 IH2].
  unfold Neo4j.merge_adam_variable in *.
  destruct (existsb (Neo4j.same_key (name av, dataset av))
                    (Neo4j.adam_variable_nodes g)) eqn:E; [now split|].
  simpl in *. split; [|exact IH2]. intro D. apply IH1.
  apply NoDup_app; [assumption | repeat constructor; intros [] |].
  intros x Hx [<-|[]].
  assert (existsb (Neo4j.same_key (name av, dataset av))
                  (Neo4j.adam_variable_nodes g) = true); [|congruence].
  apply existsb_exists. exists (name av, dataset av).
  split; [assumption | apply same_key_refl].
Qed.

(** a query binds one pair at most in a store that holds no node twice *)
Lemma rows_at_most_one (g : Neo4j.graph) (var : variable) (c : string) :
  NoDup (Neo4j.class_variable_nodes g) -> NoDup (Neo4j.adam_variable_nodes g) ->
  rows g var c <= 1.
Proof.
  intros Dc Da. unfold rows, Neo4j.run_of_class. simpl. rewrite length_prod.
  pose proof (positions_unique _ (Neo4j.same_key (name var, dataset var)) 0 _ Da) as Pa.
  pose proof (positions_unique _ (String.eqb c) 0 _ Dc) as Pc.
  assert (La : List.length (Neo4j.positions (Neo4j.same_key (name var, dataset var)) 0
                              (Neo4j.adam_variable_nodes g)) <= 1).
  { apply Pa. intros a b Ha Hb. apply same_key_eq in Ha, Hb. congruence. }
  assert (Lc : List.length (Neo4j.positions (String.eqb c) 0
                              (Neo4j.class_variable_nodes g)) <= 1).
  { apply Pc. intros a b Ha Hb. apply String.eqb_eq in Ha, Hb. congruence. }
  nia.
Qed.

Lemma merge_edge_length (rws edges : list (nat * nat)) :
  List.length (fold_left Neo4j.merge_edge rws edges)
  <= List.length edges + List.length rws.
Proof.
  revert edges; induction rws as [|e rws IH]; intro edges; simpl; [lia|].
  specialize (IH (Neo4j.merge_edge edges e)). unfold Neo4j.merge_edge in *.
  destruct (existsb (Neo4j.same_edge e) edges); [lia|].
  rewrite length_app in IH. simpl in IH. lia.
Qed.

Lemma bound_pairs_total (g : Neo4j.graph) (l : list query) :
  Forall (fun q => q_cnt q = List.length (bound_pairs g q)) l ->
  Forall (fun q => q_cnt q = 1) l ->
  List.length (flat_map (bound_pairs g) l) = List.length l.
Proof.
  induction 1 as [|q l Hq _ IH]; intro H1; simpl; [reflexivity|].
  inversion H1 as [|? ? Q1 Q2]; subst.
  rewrite length_app, (IH Q2). lia.
Qed.

Lemma filter_all (A : Type) (p : A -> bool) (l : list A) :
  Forall (fun a => p a = true) l -> filter p l = l.
Proof.
  induction 1 as [|a l Ha _ IH]; simpl; [reflexivity|]. now rewrite Ha, IH.
Qed.

Lemma classified_length (idx : index) (avs : list variable) :
  List.length (flat_map (classified idx) avs) = List.length (filter (answered idx) avs).
Proof.
  induction avs as [|av avs IH]; simpl; [reflexivity|].
  rewrite length_app, IH. unfold classified, answered.
  now destruct (classify idx (name av)) as [[t c]|].
Qed.

Lemma group_counts (g : Neo4j.graph) (avs : list variable) (groups : list (list query)) :
  Forall2 (group_ok g) avs groups ->
  Forall (fun q => exists var, q_cnt q = rows g var (q_class_var_name q))
         (concat groups).
Proof.
  induction 1 as [|av grp avs groups (_ & _ & Q) _ IH]; simpl; [constructor|].
  apply Forall_app. split; [|exact IH].
  eapply Forall_impl; [|exact Q]. intros q (_ & _ & C). now exists av.
Qed.

(** X9: in [main], where the loaders have merged the nodes into an empty
    store, every query of the classification is answered with exactly one
    row.  The number printed is therefore the number of queries, which is
    the number of rows of the variable list that Classify has an answer
    for; a variable listed twice is counted twice, while the relationships,
    of which none is held twice, can be fewer. *)
Theorem main_counts_rows_not_relationships (cvs avs : list variable) (r : run) :
  main cvs avs = Returned r ->
  Forall (fun q => q_cnt q = 1) (queries r) /\
  stdout r =
  ["Creating OF_CLASS relationships (ADaM Variable -> ADaM Class Variable)...";
   ("  Created " ++ PyStr.of_nat (List.length (queries r))
                 ++ " OF_CLASS relationships")%string] /\
  (exists idx, build_index cvs = Returned idx /\
               List.length (queries r) = List.length (filter (answered idx) avs)) /\
  NoDup (Neo4j.of_class (final r)) /\
  List.length (Neo4j.of_class (final r)) <= List.length (queries r).
Proof.
  intro H. pose proof H as H'. unfold main in H'.
  set (g := load_adam_variables (load_adam_class_data Neo4j.clear cvs) avs) in H'.
  destruct (run_inv g avs cvs r H') as (idx & st & Hb & L & ->). simpl.
  destruct (main_queries cvs avs idx Hb) as (r' & Hm & Hk & Hq & _).
  rewrite H in Hm. injection Hm as <-. simpl in Hk, Hq.
  destruct (loop_effect idx avs _ _ L) as (groups & G & S & C & N & _ & D).
  simpl in S, C, N, D.
  destruct (load_adam_class_data_keeps cvs Neo4j.clear) as [Dc E0].
  destruct (load_adam_variables_keeps avs (load_adam_class_data Neo4j.clear cvs))
    as [Da E1].
  destruct (load_adam_class_data_nodes cvs Neo4j.clear) as [_ Ea].
  destruct (load_adam_variables_nodes avs (load_adam_class_data Neo4j.clear cvs))
    as [_ Ec].
  fold g in Da, E1, Ec. simpl in Ea, E0.
  assert (Dcg : NoDup (Neo4j.class_variable_nodes g))
    by (rewrite Ec; apply Dc; constructor).
  assert (Dag : NoDup (Neo4j.adam_variable_nodes g))
    by (apply Da; rewrite Ea; constructor).
  assert (Eg : Neo4j.of_class g = []) by now rewrite E1, E0.
  assert (One : Forall (fun q => q_cnt q = 1) (st_sent st)).
  { rewrite S. apply Forall_forall. intros q Hin.
    pose proof (group_counts g avs groups G) as K. rewrite Forall_forall in K.
    destruct (K q Hin) as (var & Hc).
    pose proof (rows_at_most_one g var (q_class_var_name q) Dcg Dag).
    assert (0 < q_cnt q) by (apply Hq; rewrite S; exact Hin). lia. }
  split; [exact One|]. split; [|split; [|split]].
  - rewrite C. rewrite <- S. rewrite filter_all; [reflexivity|].
    eapply Forall_impl; [|exact One]. intros q Hc. unfold hit. now rewrite Hc.
  - exists idx. split; [exact Hb|].
    rewrite <- (length_map q_key), Hk. apply classified_length.
  - apply D. rewrite Eg. constructor.
  - destruct (loop_trace idx avs _ _ L) as (trace & T).
    destruct (sends_edges trace (State g 0 [])) as (new & S' & _ & E & Q).
    rewrite <- T in S', E. simpl in S', E, Q. subst new.
    rewrite E, Eg. etransitivity; [apply merge_edge_length|]. simpl.
    now rewrite (bound_pairs_total g (st_sent st) Q One).
Qed.

Lemma main_counts_rows_not_relationships_witness :
  exists r,
    main [Variable_ "--SEQ" "OCCDS"]
         [Variable_ "AESEQ" "ADAE"; Variable_ "AESEQ" "ADAE"] = Returned r /\
    stdout r =
    ["Creating OF_CLASS relationships (ADaM Variable -> ADaM Class Variable)...";
     "  Created 2 OF_CLASS relationships"] /\
    Neo4j.of_class (final r) = [(0, 0)] /\
    Forall (fun q => q_cnt q = 1) (queries r).
Proof.
  eexists. split; [reflexivity|]. split; [reflexivity|]. split; [reflexivity|].
  exact (proj1 (main_counts_rows_not_relationships
                  [Variable_ "--SEQ" "OCCDS"]
                  [Variable_ "AESEQ" "ADAE"; Variable_ "AESEQ" "ADAE"] _ eq_refl)).
Defined.

End MainCounts.

Section LiteralLetters.

Lemma lower_facts (c : ascii) :
  PyStr.is_lower c = true ->
  plain_char c = false /\ Ascii.eqb "-" c = false /\
  forall top stack s,
    Re.parse None top stack (String c s)
    = Re.parse None (Re.push_item (Re.Lit c) top) stack s.
Proof.
  intro Hc. destruct c as [b0 b1 b2 b3 b4 b5 b6 b7].
  destruct b0, b1, b2, b3, b4, b5, b6, b7; try discriminate Hc;
    repeat split; reflexivity.
Qed.

(** a lone character is not an occurrence of the doubled one *)
Lemma replace_double_single (o : ascii) (new r : string) :
  free_of o r = true ->
  PyStr.replace (String o (String o "")) new (String o r) = String o r.
Proof.
  intro H. unfold PyStr.replace. cbn [PyStr.replace_from].
  assert (P : String.prefix (String o (String o "")) (String o r) = false).
  { rewrite prefix_cons_eq. destruct r as [|c r]; [reflexivity|].
    rewrite free_of_cons in H. apply andb_true_iff in H. destruct H as [Hc _].
    apply negb_true_iff in Hc. now apply prefix_cons_neq. }
  rewrite P. f_equal. exact (replace_free o (String o "") new r H).
Qed.

Lemma literal_letter_split (c : ascii) :
  literal_letter c = true ->
  PyStr.is_lower c = true /\ Ascii.eqb "x" c = false /\
  Ascii.eqb "y" c = false /\ Ascii.eqb "w" c = false.
Proof.
  intro Hc. destruct c as [b0 b1 b2 b3 b4 b5 b6 b7].
  destruct b0, b1, b2, b3, b4, b5, b6, b7; try discriminate Hc;
    repeat split; reflexivity.
Qed.

Lemma free_of_around (o c : ascii) (p q : string) :
  plain_char o = false -> Ascii.eqb o c = false ->
  all_plain p = true -> all_plain q = true ->
  free_of o (p ++ String c q) = true.
Proof.
  intros Ho Hc Hp Hq.
  now rewrite free_of_append, free_of_cons, Hc, !plain_free_of.
Qed.

(** none of the five [replace] calls touches a template whose only
    lowercase letter has no replacement *)
Lemma template_regex_literal (p q : string) (c : ascii) :
  all_plain p = true -> all_plain q = true -> literal_letter c = true ->
  template_regex (p ++ String c q) = ("^" ++ (p ++ String c q) ++ "$")%string.
Proof.
  intros Hp Hq Hc. apply literal_letter_split in Hc.
  destruct Hc as (_ & Hx & Hy & Hw).
  unfold template_regex.
  rewrite (replace_free "x" "x" _ _ (free_of_around "x" c p q eq_refl Hx Hp Hq)).
  assert (E : PyStr.replace "zz" "(\d{2})" (p ++ String c q) = (p ++ String c q)%string).
  { destruct (Ascii.eqb "z" c) eqn:Hz.
    - apply Ascii.eqb_eq in Hz. subst c.
      rewrite (replace_free_prefix "z" "z" _ p _ (plain_free_of "z" p eq_refl Hp)).
      now rewrite (replace_double_single "z" _ q (plain_free_of "z" q eq_refl Hq)).
    - exact (replace_free "z" "z" _ _ (free_of_around "z" c p q eq_refl Hz Hp Hq)). }
  rewrite E.
  rewrite (replace_free "y" "" _ _ (free_of_around "y" c p q eq_refl Hy Hp Hq)).
  rewrite (replace_free "w" "" _ _ (free_of_around "w" c p q eq_refl Hw Hp Hq)).
  now rewrite (replace_free "x" "" _ _ (free_of_around "x" c p q eq_refl Hx Hp Hq)).
Qed.

Lemma literals_append (a b : string) : literals (a ++ b) = literals a ++ literals b.
Proof.
  induction a as [|c a IH]; [reflexivity|].
  change (String c a ++ b)%string with (String c (a ++ b)).
  now rewrite !literals_cons, IH.
Qed.

Lemma compile_literal (p q : string) (c : ascii) :
  all_plain p = true -> all_plain q = true -> PyStr.is_lower c = true ->
  Re.compile ("^" ++ (p ++ String c q) ++ "$")
  = Re.Compiled (literal_pattern (p ++ String c q)).
Proof.
  intros Hp Hq Hc.
  pose proof (compile_slot p q (String c "") (Re.Lit c) Hp Hq) as K.
  unfold literal_pattern. rewrite literals_append, literals_cons, <- app_assoc.
  replace ("^" ++ (p ++ String c q) ++ "$")%string
    with ("^" ++ p ++ String c "" ++ q ++ "$")%string
    by (simpl; now rewrite append_assoc).
  apply K. intros rest top stack. apply (lower_facts c Hc).
Qed.

Lemma literal_pattern_matches (t s : string) :
  Re.matches (literal_pattern t) s = true <->
  s = t \/ s = (t ++ String Re.newline "")%string.
Proof.
  unfold Re.matches, literal_pattern. rewrite run_seq_cons. cbn [Re.run Nat.eqb andb].
  apply run_tail.
Qed.

Lemma eligible_literal (p q : string) (c : ascii) :
  all_plain p = true -> PyStr.is_lower c = true ->
  eligible (p ++ String c q) = true.
Proof.
  intros Hp Hc. unfold eligible, has_placeholder.
  rewrite has_char_append. simpl. rewrite Hc, orb_true_r, andb_true_r.
  apply negb_true_iff. unfold PyStr.startswith.
  destruct p as [|a p].
  - apply prefix_cons_neq. apply (lower_facts c Hc).
  - simpl in Hp. apply andb_true_iff in Hp. destruct Hp as [Ha _].
    apply prefix_cons_neq. now apply plain_not_dash.
Qed.

(** X10: a lowercase letter other than [x], [y] and [w] makes a template a
    pattern without being a slot; a single [z] is such a letter, as only
    [zz] is replaced.  The template is eligible, its regular expression is
    its own name between the anchors, and the compiled pattern matches the
    name of the template (with or without a newline after it) and nothing
    else.  So at tier pattern the template answers no variable name but its
    own followed by a newline: its own name is answered at tier exact. *)
Theorem letters_without_replacement (p q : string) (c : ascii) :
  all_plain p = true -> all_plain q = true -> literal_letter c = true ->
  let t := (p ++ String c q)%string in
  eligible t = true /\
  template_regex t = ("^" ++ t ++ "$")%string /\
  Re.compile (template_regex t) = Re.Compiled (literal_pattern t) /\
  (forall s, Re.matches (literal_pattern t) s = true <->
             s = t \/ s = (t ++ String Re.newline "")%string) /\
  (forall cvs idx v,
     build_index cvs = Returned idx ->
     classify idx v = Some (Pattern, t) -> v = (t ++ String Re.newline "")%string).
Proof.
  intros Hp Hq Hc t.
  pose proof (proj1 (literal_letter_split c Hc)) as Hl.
  pose proof (template_regex_literal p q c Hp Hq Hc) as Et. fold t in Et.
  pose proof (compile_literal p q c Hp Hq Hl) as Ec. fold t in Ec.
  split; [exact (eligible_literal p q c Hp Hl)|].
  split; [exact Et|]. split; [now rewrite Et|].
  split; [apply literal_pattern_matches|].
  intros cvs idx v Hb.
  destruct (build_index_names cvs idx Hb) as (Hn & _ & _ & Hpat).
  unfold classify.
  destruct (existsb (String.eqb v) (class_var_names idx)) eqn:Ex; [discriminate|].
  destruct (find (PyStr.endswith v) (sorted_suffixes idx)) as [s|].
  - destruct (PyDict.get s (suffix_lookup idx)); discriminate.
  - destruct (find (fun item => Re.matches (fst item) v) (compiled_patterns idx))
      as [[r c']|] eqn:F; [|discriminate].
    intro H. injection H as ->.
    apply find_some in F. destruct F as [Hin Hm]. simpl in Hm.
    destruct (Forall2_in_right _ _ _ _ _ _ Hpat Hin) as ([k t'] & Hi & Hk & Ht).
    simpl in Hk, Ht. subst t'.
    apply pattern_lookup_entries in Hi. destruct Hi as (Hname & _ & ->).
    rewrite Et, Ec in Hk. injection Hk as <-.
    apply literal_pattern_matches in Hm. destruct Hm as [-> | ->]; [|reflexivity].
    rewrite Hn in Ex. apply existsb_eqb_In in Hname. congruence.
Qed.

Lemma letters_without_replacement_witness :
  template_regex "ANLzFL" = "^ANLzFL$" /\
  Re.compile "^ANLzFL$" = Re.Compiled (literal_pattern "ANLzFL") /\
  Re.matches (literal_pattern "ANLzFL") "ANL1FL" = false.
Proof.
  destruct (letters_without_replacement "ANL" "FL" "z" eq_refl eq_refl eq_refl)
    as (_ & E & C & _).
  split; [exact E|]. split; [exact C | reflexivity].
Defined.

End LiteralLetters.

Section BareMarker.

Lemma endswith_empty (s : string) : PyStr.endswith s "" = true.
Proof.
  induction s as [|c s IH]; [reflexivity|].
  rewrite endswith_cons, IH. apply orb_true_r.
Qed.

(** with the template [--] in the catalogue, the tiers exact and suffix
    leave no name to the pattern tier *)
Lemma classify_bare_marker (cvs : list variable) (idx : index) (v : string) :
  In "--" (map name cvs) -> build_index cvs = Returned idx ->
  exists t c, classify idx v = Some (t, c) /\ t <> Pattern.
Proof.
  intros Hin Hb. destruct (build_index_names cvs idx Hb) as (Hc & Hl & Hs & _).
  unfold classify. rewrite Hl, Hs.
  destruct (existsb (String.eqb v) (class_var_names idx)).
  - exists Exact, v. split; [reflexivity | discriminate].
  - destruct (find (PyStr.endswith v)
                   (sorted_by_len_desc (PyDict.keys (build_suffix_lookup cvs))))
      as [s|] eqn:F.
    + destruct (suffix_scan cvs v s F) as (Hk & _).
      rewrite (suffix_lookup_value cvs s Hk). simpl.
      eexists; eexists. split; [reflexivity | discriminate].
    + exfalso. apply find_none_iff with (x := "") in F.
      * rewrite endswith_empty in F. discriminate.
      * apply (Permutation_in _ (Permutation_sym (sorted_by_len_desc_perm _))).
        now apply suffix_lookup_keys.
Qed.

Lemma classified_names (idx : index) (avs : list variable) :
  (forall v, exists t c, classify idx v = Some (t, c) /\ t <> Pattern) ->
  map (fun k => snd (fst (fst k))) (flat_map (classified idx) avs) = map name avs.
Proof.
  intro H. induction avs as [|av avs IH]; simpl; [reflexivity|].
  rewrite map_app, IH. unfold classified.
  destruct (H (name av)) as (t & c & -> & _). reflexivity.
Qed.

(** X11: a class variable named [--] alone registers the empty suffix,
    which every name ends with.  With it in the catalogue, [main] sends
    exactly one query for every row of the variable list, in the order of
    the list, and none at tier pattern: a name that is in no tier's reach
    otherwise is linked to a [--] template. *)
Theorem bare_marker_answers_every_name (cvs avs : list variable) (r : run) :
  In "--" (map name cvs) ->
  main cvs avs = Returned r ->
  map q_var_name (queries r) = map name avs /\
  Forall (fun q => q_tier q <> Pattern /\ 0 < q_cnt q) (queries r).
Proof.
  intros Hin H. pose proof H as H'. unfold main in H'.
  destruct (run_inv _ avs cvs r H') as (idx & st & Hb & _).
  destruct (main_queries cvs avs idx Hb) as (r' & Hm & Hk & Hq & _).
  rewrite H in Hm. injection Hm as <-.
  split.
  - rewrite <- (classified_names idx avs
                  (fun v => classify_bare_marker cvs idx v Hin Hb)).
    rewrite <- Hk, map_map. reflexivity.
  - apply Forall_forall. intros q Hq'. destruct (Hq q Hq') as [Hc Hcnt].
    split; [|exact Hcnt].
    destruct (classify_bare_marker cvs idx (q_var_name q) Hin Hb) as (t & c & E & Ht).
    rewrite E in Hc. now injection Hc as <- _.
Qed.

Lemma bare_marker_answers_every_name_witness :
  exists r,
    main [Variable_ "--" "OCCDS"; Variable_ "TRTxxP" "ADSL"]
         [Variable_ "TRT01P" "ADSL"; Variable_ "AVAL" "ADLB"] = Returned r /\
    map q_class_var_name (queries r) = ["--"; "--"] /\
    map q_var_name (queries r) = ["TRT01P"; "AVAL"].
Proof.
  eexists. split; [reflexivity|]. split; [reflexivity|].
  apply (bare_marker_answers_every_name
           [Variable_ "--" "OCCDS"; Variable_ "TRTxxP" "ADSL"]
           [Variable_ "TRT01P" "ADSL"; Variable_ "AVAL" "ADLB"]).
  - simpl. now left.
  - reflexivity.
Defined.

End BareMarker.

(** ** Reading the rows of [adam-class-var.csv] *)

Section StripFacts.

Variable p : ascii -> bool.

Lemma lstrip_front (s : string) :
  match Strip.lstrip p s with String c _ => p c = false | EmptyString => True end.
Proof.
  induction s as [|c s IH]; simpl; [exact I|].
  destruct (p c) eqn:E; [exact IH | exact E].
Qed.

Lemma lstrip_fixed (s : string) :
  match s with String c _ => p c = false | EmptyString => True end ->
  Strip.lstrip p s = s.
Proof. destruct s as [|c s]; simpl; [reflexivity|]. now intros ->. Qed.

Lemma rstrip_front (s : string) :
  match s with String c _ => p c = false | EmptyString => True end ->
  match Strip.rstrip p s with String c _ => p c = false | EmptyString => True end.
Proof.
  destruct s as [|c s]; simpl; [trivial|]. intro H.
  destruct (Strip.rstrip p s); [rewrite H|]; exact H.
Qed.

Lemma rstrip_idem (s : string) : Strip.rstrip p (Strip.rstrip p s) = Strip.rstrip p s.
Proof.
  induction s as [|c s IH]; simpl; [reflexivity|].
  destruct (Strip.rstrip p s) as [|c' r] eqn:E.
  - destruct (p c) eqn:Hc; simpl; [reflexivity | now rewrite Hc].
  - change (Strip.rstrip p (String c (String c' r)))
      with (match Strip.rstrip p (String c' r) with
            | EmptyString => if p c then EmptyString else String c EmptyString
            | String c'' r' => String c (String c'' r')
            end).
    now rewrite IH.
Qed.

Lemma rstrip_last (s : string) :
  match Strip.last_char (Strip.rstrip p s) with
  | Some c => p c = false
  | None => True
  end.
Proof.
  induction s as [|c s IH]; simpl; [exact I|].
  destruct (Strip.rstrip p s) as [|c' r] eqn:E.
  - destruct (p c) eqn:Hc; simpl; [exact I | exact Hc].
  - exact IH.
Qed.

Lemma rstrip_empty (s : string) :
  Strip.rstrip p s = EmptyString <-> Strip.all_chars p s = true.
Proof.
  induction s as [|c s IH]; simpl; [tauto|].
  destruct (Strip.rstrip p s) as [|c' r].
  - destruct (p c); simpl; [tauto|]. split; discriminate.
  - split; [discriminate|]. intro H. apply andb_true_iff in H.
    destruct H as [_ H]. apply IH in H. discriminate.
Qed.

Lemma lstrip_all (s : string) :
  Strip.all_chars p (Strip.lstrip p s) = Strip.all_chars p s.
Proof.
  induction s as [|c s IH]; simpl; [reflexivity|].
  destruct (p c) eqn:E; simpl; [exact IH | now rewrite E].
Qed.

End StripFacts.

Section ReadFacts.

Lemma strip_idem (s : string) : Strip.strip (Strip.strip s) = Strip.strip s.
Proof.
  unfold Strip.strip.
  rewrite (lstrip_fixed Strip.is_space (Strip.rstrip Strip.is_space _)).
  - apply rstrip_idem.
  - apply rstrip_front, lstrip_front.
Qed.

Lemma strip_blank (s : string) :
  Strip.strip s = EmptyString <-> Strip.all_chars Strip.is_space s = true.
Proof. unfold Strip.strip. now rewrite rstrip_empty, lstrip_all. Qed.

Lemma last_char_append (a : string) (c : ascii) :
  Strip.last_char (a ++ String c "") = Some c.
Proof.
  induction a as [|x a IH]; [reflexivity|].
  change (String x a ++ String c "")%string with (String x (a ++ String c "")).
  simpl. rewrite IH. now destruct (a ++ String c "")%string.
Qed.

(** what [strip] returns has no whitespace at either end; a newline in
    particular is not its last character *)
Lemma stripped_ends (s : string) :
  stripped s ->
  match s with String c _ => Strip.is_space c = false | EmptyString => True end /\
  match Strip.last_char s with Some c => Strip.is_space c = false | None => True end /\
  forall t, s <> (t ++ String Re.newline "")%string.
Proof.
  unfold stripped. intro H.
  assert (L : match Strip.last_char s with
              | Some c => Strip.is_space c = false
              | None => True
              end).
  { rewrite <- H. unfold Strip.strip. apply rstrip_last. }
  split; [|split; [exact L|]].
  - rewrite <- H. unfold Strip.strip. apply rstrip_front, lstrip_front.
  - intros t ->. rewrite last_char_append in L. discriminate L.
Qed.

Lemma get_strip_complete (r : Csv.row) (key : string) :
  Csv.complete r -> get_strip r key = Returned (Strip.strip (Csv.value r key)).
Proof.
  intro H. unfold get_strip, Csv.value. specialize (H key).
  destruct (PyDict.get key r) as [[v|]|]; [reflexivity | now destruct H | reflexivity].
Qed.

Lemma get_strip_none (r : Csv.row) (key : string) :
  PyDict.get key r = Some None ->
  get_strip r key
  = Raised "AttributeError" "'NoneType' object has no attribute 'strip'".
Proof. unfold get_strip. now intros ->. Qed.

Lemma get_strip_value (r : Csv.row) (key : string) :
  PyDict.get key r <> Some None ->
  get_strip r key = Returned (Strip.strip (Csv.value r key)).
Proof.
  intro H. unfold get_strip, Csv.value.
  destruct (PyDict.get key r) as [[v|]|]; [reflexivity | now destruct H | reflexivity].
Qed.

Lemma read_row_complete (r : Csv.row) (acc : list ClassData.class_variable) :
  Csv.complete r ->
  ClassData.read_row r acc = Returned (if kept r then acc ++ [entry r] else acc).
Proof.
  intro H. unfold ClassData.read_row, kept.
  rewrite !(get_strip_complete r _ H). simpl.
  destruct (truthy (Strip.strip (Csv.value r "Variable Name"))); reflexivity.
Qed.

Lemma read_rows_complete (reader : list Csv.row) (acc : list ClassData.class_variable) :
  Forall Csv.complete reader ->
  ClassData.read_rows reader acc = Returned (acc ++ map entry (filter kept reader)).
Proof.
  intro H. revert acc. induction H as [|r reader Hr _ IH]; intro acc; simpl.
  - now rewrite app_nil_r.
  - rewrite (read_row_complete r acc Hr). simpl. rewrite IH.
    destruct (kept r); simpl; [now rewrite <- app_assoc | reflexivity].
Qed.

Lemma read_rows_app (a b : list Csv.row) (acc : list ClassData.class_variable) :
  ClassData.read_rows (a ++ b) acc
  = (vs <- ClassData.read_rows a acc ;; ClassData.read_rows b vs).
Proof.
  revert acc; induction a as [|r a IH]; intro acc; simpl; [reflexivity|].
  destruct (ClassData.read_row r acc) as [vs| |]; simpl; [apply IH | reflexivity..].
Qed.

Lemma truthy_nonempty (s : string) : truthy s = true <-> s <> EmptyString.
Proof.
  unfold truthy. rewrite negb_true_iff. split.
  - intros H ->. discriminate.
  - intro H. apply String.eqb_neq. exact H.
Qed.

(** X12: from rows without [None], [load_adam_class_data] keeps exactly the
    rows whose [Variable Name] is not blank, in the order of the file, with
    each of the six fields stripped.  A name it returns is not empty and
    has no whitespace at either end, so no name ends with a newline; the
    dataset of a kept row may be empty. *)
Theorem rows_kept (reader : list Csv.row) :
  Forall Csv.complete reader ->
  ClassData.read_rows reader [] = Returned (map entry (filter kept reader)) /\
  Forall (fun v =>
            ClassData.cv_name v <> EmptyString /\
            stripped (ClassData.cv_name v) /\ stripped (ClassData.cv_dataset v) /\
            forall t, ClassData.cv_name v <> (t ++ String Re.newline "")%string)
         (map entry (filter kept reader)) /\
  (forall r, In r reader ->
     Strip.all_chars Strip.is_space (Csv.value r "Variable Name") = true ->
     ~ In r (filter kept reader)).
Proof.
  intro H. split; [exact (read_rows_complete reader [] H)|]. split.
  - apply Forall_forall. intros v Hv. apply in_map_iff in Hv.
    destruct Hv as (r & <- & Hr). apply filter_In in Hr. destruct Hr as [_ Hk].
    unfold kept in Hk. apply truthy_nonempty in Hk. simpl.
    split; [exact Hk|]. split; [apply strip_idem|]. split; [apply strip_idem|].
    apply stripped_ends. apply strip_idem.
  - intros r _ Hb Hin. apply filter_In in Hin. destruct Hin as [_ Hk].
    unfold kept in Hk. apply truthy_nonempty in Hk. apply Hk. now apply strip_blank.
Qed.

Lemma rows_kept_witness :
  ClassData.read_rows
    [[("Data Structure Name", Some " ADSL"); ("Variable Name", Some "TRTxxP ")];
     [("Data Structure Name", Some "ADSL"); ("Variable Name", Some "  ")];
     [("Variable Name", Some "--SEQ")]] []
  = Returned [ClassData.ClassVariable "ADSL" "TRTxxP" "" "" "" "";
              ClassData.ClassVariable "" "--SEQ" "" "" "" ""].
Proof.
  refine (proj1 (rows_kept _ _)).
  repeat constructor; intro key; unfold PyDict.get;
    repeat (destruct (_ =? key)%string; [discriminate|]); discriminate.
Defined.

End ReadFacts.

Section ShortLines.

(** X13: a line that is too short for a column makes [load_adam_class_data]
    raise [AttributeError] when the column is [Data Structure Name] or
    [Variable Name], whatever the line holds, and when it is one of the
    other four columns only if the name of the line is not blank: a line
    with a blank name is skipped before these columns are read. *)
Theorem short_line (before after : list Csv.row) (r : Csv.row) :
  Forall Csv.complete before ->
  let missing key := PyDict.get key r = Some None in
  let error : outcome (list ClassData.class_variable) :=
    Raised "AttributeError" "'NoneType' object has no attribute 'strip'" in
  (missing "Data Structure Name" \/ missing "Variable Name" ->
   ClassData.read_rows (before ++ r :: after) [] = error) /\
  (~ missing "Data Structure Name" -> ~ missing "Variable Name" -> kept r = true ->
   missing "Variable Label" \/ missing "Type" \/ missing "Core" \/ missing "Variable Set" ->
   ClassData.read_rows (before ++ r :: after) [] = error) /\
  (~ missing "Data Structure Name" -> ~ missing "Variable Name" -> kept r = false ->
   ClassData.read_rows (before ++ r :: after) []
   = ClassData.read_rows (before ++ after) []).
Proof.
  intros Hb missing error. unfold missing.
  rewrite !read_rows_app, (read_rows_complete before [] Hb). simpl.
  unfold ClassData.read_row. split; [|split].
  - intros [H|H].
    + now rewrite (get_strip_none r _ H).
    + rewrite (get_strip_none r "Variable Name" H).
      unfold get_strip at 1.
      now destruct (PyDict.get "Data Structure Name" r) as [[?|]|].
  - intros Hd Hv Hk Hm.
    rewrite (get_strip_value r _ Hd), (get_strip_value r _ Hv). simpl.
    unfold kept in Hk. rewrite Hk. unfold get_strip.
    destruct (PyDict.get "Variable Label" r) as [[?|]|]; simpl; try reflexivity;
      (destruct (PyDict.get "Type" r) as [[?|]|]; simpl; try reflexivity;
       (destruct (PyDict.get "Core" r) as [[?|]|]; simpl; try reflexivity;
        (destruct (PyDict.get "Variable Set" r) as [[?|]|]; simpl; try reflexivity;
         exfalso; destruct Hm as [Hm|[Hm|[Hm|Hm]]]; discriminate Hm))).
  - intros Hd Hv Hk.
    rewrite (get_strip_value r _ Hd), (get_strip_value r _ Hv). simpl.
    unfold kept in Hk. now rewrite Hk.
Qed.

Lemma short_line_witness :
  ClassData.read_rows
    [[("Data Structure Name", Some "ADSL"); ("Variable Name", Some "AGE");
      ("Variable Label", Some "Age"); ("Type", Some "Num"); ("Core", Some "Req");
      ("Variable Set", Some "Demographics")];
     [("Data Structure Name", Some "ADSL"); ("Variable Name", Some " ");
      ("Variable Label", None); ("Type", None); ("Core", None);
      ("Variable Set", None)]] []
  = Returned [ClassData.ClassVariable "ADSL" "AGE" "Age" "Num" "Req" "Demographics"].
Proof.
  refine (eq_trans
            (proj2 (proj2 (short_line
               [[("Data Structure Name", Some "ADSL"); ("Variable Name", Some "AGE");
                 ("Variable Label", Some "Age"); ("Type", Some "Num");
                 ("Core", Some "Req"); ("Variable Set", Some "Demographics")]]
               []
               [("Data Structure Name", Some "ADSL"); ("Variable Name", Some " ");
                ("Variable Label", None); ("Type", None); ("Core", None);
                ("Variable Set", None)] _)) _ _ _) _).
  - repeat constructor; intro key; unfold PyDict.get;
      repeat (destruct (_ =? key)%string; [discriminate|]); discriminate.
  - discriminate.
  - discriminate.
  - reflexivity.
  - reflexivity.
Defined.

End ShortLines.

(** ** The nodes and relationships of [load_adam_class_data] *)

Section ClassNodes.

Lemma existsb_same_name (var : ClassData.class_variable)
    (nodes : list ClassData.class_variable) :
  existsb (ClassData.same_name var) nodes
  = existsb (String.eqb (ClassData.cv_name var)) (map ClassData.cv_name nodes).
Proof.
  induction nodes as [|n nodes IH]; simpl; [reflexivity|].
  unfold ClassData.same_name at 1. now rewrite IH, String.eqb_sym.
Qed.

Lemma merge_set_names (var : ClassData.class_variable) (g : ClassData.graph) :
  map ClassData.cv_name (ClassData.class_variable_nodes (ClassData.merge_set var g))
  = add_key (map ClassData.cv_name (ClassData.class_variable_nodes g))
            (ClassData.cv_name var).
Proof.
  unfold ClassData.merge_set, add_key. simpl. rewrite <- existsb_same_name.
  destruct (existsb (ClassData.same_name var) (ClassData.class_variable_nodes g)).
  - rewrite map_map. apply map_ext. intro n. unfold ClassData.same_name.
    destruct (ClassData.cv_name n =? ClassData.cv_name var)%string eqn:E;
      [|reflexivity].
    apply String.eqb_eq in E. now rewrite E.
  - now rewrite map_app.
Qed.

Lemma merge_set_fold_names (vars : list ClassData.class_variable) (g : ClassData.graph) :
  map ClassData.cv_name
      (ClassData.class_variable_nodes
         (fold_left (fun g var => ClassData.merge_set var g) vars g))
  = fold_left add_key (map ClassData.cv_name vars)
              (map ClassData.cv_name (ClassData.class_variable_nodes g)).
Proof.
  revert g; induction vars as [|v vars IH]; intro g; simpl; [reflexivity|].
  now rewrite IH, merge_set_names.
Qed.

Lemma merge_set_fold_rest (vars : list ClassData.class_variable) (g : ClassData.graph) :
  ClassData.class_dataset_nodes
    (fold_left (fun g var => ClassData.merge_set var g) vars g)
  = ClassData.class_dataset_nodes g /\
  ClassData.contains (fold_left (fun g var => ClassData.merge_set var g) vars g)
  = ClassData.contains g.
Proof.
  revert g; induction vars as [|v vars IH]; intro g; simpl; [now split|].
  destruct (IH (ClassData.merge_set v g)) as [A B]. now rewrite A, B.
Qed.

Lemma contains_fold_nodes (vars : list ClassData.class_variable) (g : ClassData.graph) :
  let g' :=
    fold_left (fun g var => if truthy (ClassData.cv_dataset var)
                            then ClassData.merge_contains var g else g) vars g in
  ClassData.class_dataset_nodes g' = ClassData.class_dataset_nodes g /\
  ClassData.class_variable_nodes g' = ClassData.class_variable_nodes g.
Proof.
  revert g; induction vars as [|v vars IH]; intro g; simpl; [now split|].
  destruct (IH (if truthy (ClassData.cv_dataset v)
                then ClassData.merge_contains v g else g)) as [A B].
  simpl in A, B. rewrite A, B. now destruct (truthy (ClassData.cv_dataset v)).
Qed.

Lemma first_occurrences_incl (l : list string) (x : string) :
  In x (first_occurrences l) -> In x l.
Proof.
  revert x; induction l as [|a l IH]; intros x H; [destruct H|].
  simpl in H. destruct H as [->|H]; [now left|].
  apply filter_In in H. right. apply IH, H.
Qed.

Lemma first_occurrences_NoDup (l : list string) : NoDup (first_occurrences l).
Proof.
  induction l as [|a l IH]; simpl; constructor.
  - intro H. apply filter_In in H. destruct H as [_ H].
    now rewrite String.eqb_refl in H.
  - now apply NoDup_filter.
Qed.

Lemma first_occurrences_length (l : list string) :
  List.length (first_occurrences l) <= List.length l.
Proof.
  induction l as [|a l IH]; simpl; [lia|].
  pose proof (filter_length_le (fun y => negb (y =? a)%string) (first_occurrences l)).
  lia.
Qed.

Lemma filter_true (A : Type) (l : list A) : filter (fun _ => true) l = l.
Proof. induction l as [|a l IH]; simpl; [reflexivity | now rewrite IH]. Qed.

(** the node of a name carries the properties of the last row of that name *)
Lemma merge_set_fold_last (vars : list ClassData.class_variable) (g : ClassData.graph)
    (n : ClassData.class_variable) :
  In n (ClassData.class_variable_nodes
          (fold_left (fun g var => ClassData.merge_set var g) vars g)) ->
  (In n (ClassData.class_variable_nodes g) /\
   Forall (fun v => ClassData.cv_name v <> ClassData.cv_name n) vars) \/
  (exists before after,
     vars = before ++ n :: after /\
     Forall (fun v => ClassData.cv_name v <> ClassData.cv_name n) after).
Proof.
  revert g; induction vars as [|v vars IH]; intros g H; simpl in H.
  - left. now split.
  - destruct (IH _ H) as [[Hin Hall] | (before & after & -> & Hall)].
    + assert (K : n = v \/
                  (In n (ClassData.class_variable_nodes g) /\
                   ClassData.cv_name v <> ClassData.cv_name n)).
      { unfold ClassData.merge_set in Hin. simpl in Hin.
        destruct (existsb (ClassData.same_name v) (ClassData.class_variable_nodes g))
          eqn:E.
        - apply in_map_iff in Hin. destruct Hin as (m & Hm & Hin).
          unfold ClassData.same_name in Hm.
          destruct (ClassData.cv_name m =? ClassData.cv_name v)%string eqn:Em.
          + left. now symmetry.
          + right. subst m. split; [exact Hin|].
            apply String.eqb_neq in Em. congruence.
        - apply in_app_or in Hin. destruct Hin as [Hin | [<- | []]]; [|now left].
          right. split; [exact Hin|]. intro Ev.
          assert (existsb (ClassData.same_name v) (ClassData.class_variable_nodes g)
                  = true); [|congruence].
          apply existsb_exists. exists n. split; [exact Hin|].
          unfold ClassData.same_name. rewrite Ev. apply String.eqb_refl. }
      destruct K as [-> | [Hin' Hne]].
      * right. exists [], vars. now split.
      * left. split; [exact Hin' | now constructor].
    + right. exists (v :: before), after. now split.
Qed.

(** X14: [load_adam_class_data] creates one node for a name, however many
    rows carry it: in a store without class-variable nodes, the nodes it
    leaves are those of the names it kept, each where the name first occurs
    and none twice, and the node of a name carries the properties of the
    last row of that name.  The number it prints is the number of rows
    kept, which the number of nodes does not exceed; the class-dataset
    nodes stay as they are. *)
Theorem one_node_for_a_name (session : ClassData.graph) (csv_path : string)
    (reader : list Csv.row) (res : ClassData.loaded) :
  ClassData.class_variable_nodes session = [] ->
  ClassData.load_adam_class_data session csv_path reader = Returned res ->
  let nodes := ClassData.class_variable_nodes (ClassData.session res) in
  map ClassData.cv_name nodes
  = first_occurrences (map ClassData.cv_name (ClassData.variables res)) /\
  NoDup (map ClassData.cv_name nodes) /\
  (forall n, In n nodes ->
     exists before after,
       ClassData.variables res = before ++ n :: after /\
       Forall (fun v => ClassData.cv_name v <> ClassData.cv_name n) after) /\
  List.length nodes <= List.length (ClassData.variables res) /\
  ClassData.printed res =
  [("Loading ADaM Class Variables from " ++ csv_path ++ "...")%string;
   ("  Creating " ++ PyStr.of_nat (List.length (ClassData.variables res))
                  ++ " ADaM Class Variable nodes...")%string;
   "  Creating CONTAINS relationships (Class Dataset -> Class Variable)..."] /\
  ClassData.class_dataset_nodes (ClassData.session res)
  = ClassData.class_dataset_nodes session.
Proof.
  intros Hempty H. unfold ClassData.load_adam_class_data in H.
  destruct (ClassData.read_rows reader []) as [vars| |]; simpl in H; try discriminate.
  injection H as <-. simpl.
  set (g1 := fold_left (fun g var => ClassData.merge_set var g) vars session).
  destruct (contains_fold_nodes vars g1) as [Hd Hn]. simpl in Hd, Hn.
  rewrite Hd, Hn.
  assert (Names : map ClassData.cv_name (ClassData.class_variable_nodes g1)
                  = first_occurrences (map ClassData.cv_name vars)).
  { unfold g1. rewrite merge_set_fold_names, Hempty, add_keys_first_occurrences.
    simpl. apply filter_true. }
  split; [exact Names|]. split; [rewrite Names; apply first_occurrences_NoDup|].
  split; [|split; [|split; [reflexivity|]]].
  - intros n Hin. destruct (merge_set_fold_last vars session n Hin)
      as [[Hin' _] | K]; [|exact K].
    rewrite Hempty in Hin'. destruct Hin'.
  - rewrite <- (length_map ClassData.cv_name), Names, <- (length_map ClassData.cv_name vars).
    apply first_occurrences_length.
  - apply (merge_set_fold_rest vars session).
Qed.

Lemma one_node_for_a_name_witness :
  exists res,
    ClassData.load_adam_class_data (ClassData.Graph ["ADSL"; "BDS"] [] [])
      "adam-class-var.csv"
      [[("Data Structure Name", Some "ADSL"); ("Variable Name", Some "STUDYID")];
       [("Data Structure Name", Some "BDS"); ("Variable Name", Some "STUDYID")]]
    = Returned res /\
    ClassData.class_variable_nodes (ClassData.session res)
    = [ClassData.ClassVariable "BDS" "STUDYID" "" "" "" ""] /\
    map ClassData.cv_name (ClassData.class_variable_nodes (ClassData.session res))
    = ["STUDYID"].
Proof.
  eexists. split; [reflexivity|]. split; [reflexivity|].
  exact (proj1 (one_node_for_a_name (ClassData.Graph ["ADSL"; "BDS"] [] [])
                  "adam-class-var.csv"
                  [[("Data Structure Name", Some "ADSL"); ("Variable Name", Some "STUDYID")];
                   [("Data Structure Name", Some "BDS"); ("Variable Name", Some "STUDYID")]]
                  _ eq_refl eq_refl)).
Defined.

End ClassNodes.

Section ClassContains.

(** the nodes a [MATCH] binds are the nodes that have the property values *)
Lemma positions_in (A : Type) (p : A -> bool) (from : nat) (l : list A) (i : nat) :
  In i (Neo4j.positions p from l) <->
  from <= i /\ exists a, nth_error l (i - from) = Some a /\ p a = true.
Proof.
  revert from; induction l as [|x l IH]; intro from; simpl.
  - split; [intros [] | intros (_ & a & H & _)]. now destruct (i - from).
  - assert (Step : In i (Neo4j.positions p (S from) l) <->
                   from <= i /\ i <> from /\
                   exists a, nth_error (x :: l) (i - from) = Some a /\ p a = true).
    { rewrite IH. split.
      - intros (L & a & Hn & Hp). split; [lia|]. split; [lia|]. exists a.
        replace (i - from) with (S (i - S from)) by lia. now split.
      - intros (L & N & a & Hn & Hp). split; [lia|]. exists a.
        replace (i - from) with (S (i - S from)) in Hn by lia. now split. }
    destruct (p x) eqn:E.
    + simpl. rewrite Step. split.
      * intros [<- | (L & _ & K)]; [|now split].
        split; [lia|]. exists x. rewrite Nat.sub_diag. now split.
      * intros (L & a & Hn & Hp).
        destruct (Nat.eq_dec i from) as [->|N]; [now left|].
        right. split; [exact L|]. split; [exact N|]. now exists a.
    + rewrite Step. split.
      * intros (L & _ & K). now split.
      * intros (L & a & Hn & Hp). split; [exact L|]. split; [|now exists a].
        intros ->. rewrite Nat.sub_diag in Hn. simpl in Hn. congruence.
Qed.

Lemma merge_edge_in (rws edges : list (nat * nat)) (e : nat * nat) :
  In e (fold_left Neo4j.merge_edge rws edges) <-> In e edges \/ In e rws.
Proof.
  split.
  - revert edges; induction rws as [|x rws IH]; intros edges H; simpl in H; [now left|].
    destruct (IH _ H) as [K|K]; [|right; now right].
    unfold Neo4j.merge_edge in K. destruct (existsb _ edges); [now left|].
    apply in_app_or in K. destruct K as [K | [<- | []]]; [now left | right; now left].
  - intros [H|H]; [now apply merge_edge_keeps | now apply merge_edge_holds].
Qed.

Lemma contains_fold_in (vars : list ClassData.class_variable) (g : ClassData.graph)
    (e : nat * nat) :
  In e (ClassData.contains
          (fold_left (fun g var => if truthy (ClassData.cv_dataset var)
                                   then ClassData.merge_contains var g else g) vars g))
  <->
  In e (ClassData.contains g) \/
  exists var,
    In var vars /\ truthy (ClassData.cv_dataset var) = true /\
    In e (list_prod
            (Neo4j.positions (String.eqb (ClassData.cv_dataset var)) 0
                             (ClassData.class_dataset_nodes g))
            (Neo4j.positions (ClassData.same_name var) 0
                             (ClassData.class_variable_nodes g))).
Proof.
  revert g; induction vars as [|v vars IH]; intro g; simpl.
  - split; [now left | intros [H | (var & [] & _)]; exact H].
  - rewrite IH. clear IH.
    destruct (truthy (ClassData.cv_dataset v)) eqn:T.
    + unfold ClassData.merge_contains at 1 2 3. simpl. rewrite merge_edge_in. split.
      * intros [[H|H] | (var & Hin & K)]; [now left | right | right].
        -- exists v. split; [now left|]. now split.
        -- exists var. split; [now right | exact K].
      * intros [H | (var & [<-|Hin] & Tv & K)].
        -- left. now left.
        -- left. now right.
        -- right. exists var. now split.
    + split.
      * intros [H | (var & Hin & K)]; [now left|].
        right. exists var. split; [now right | exact K].
      * intros [H | (var & [<-|Hin] & Tv & K)]; [now left | congruence |].
        right. exists var. now split.
Qed.

(** X15: the [CONTAINS] relationships [load_adam_class_data] leaves are
    those it found and, for every row kept whose dataset is not empty, the
    ones from the class-dataset nodes of that name to the node of the
    variable.  A row with an empty dataset, or with a dataset that has no
    node, adds none and is passed over in silence. *)
Theorem contains_of_the_rows (session : ClassData.graph) (csv_path : string)
    (reader : list Csv.row) (res : ClassData.loaded) :
  ClassData.load_adam_class_data session csv_path reader = Returned res ->
  forall d v,
    In (d, v) (ClassData.contains (ClassData.session res)) <->
    In (d, v) (ClassData.contains session) \/
    exists var n,
      In var (ClassData.variables res) /\
      ClassData.cv_dataset var <> EmptyString /\
      nth_error (ClassData.class_dataset_nodes session) d
      = Some (ClassData.cv_dataset var) /\
      nth_error (ClassData.class_variable_nodes (ClassData.session res)) v = Some n /\
      ClassData.cv_name n = ClassData.cv_name var.
Proof.
  intros H d v. unfold ClassData.load_adam_class_data in H.
  destruct (ClassData.read_rows reader []) as [vars| |]; simpl in H; try discriminate.
  injection H as <-. simpl.
  set (g1 := fold_left (fun g var => ClassData.merge_set var g) vars session).
  destruct (contains_fold_nodes vars g1) as [_ Hn]. simpl in Hn. rewrite Hn.
  destruct (merge_set_fold_rest vars session) as [Hd Hc]. fold g1 in Hd, Hc.
  rewrite contains_fold_in, Hc, Hd.
  apply or_iff_compat_l. split.
  - intros (var & Hin & T & K). apply in_prod_iff in K. destruct K as [Kd Kv].
    apply positions_in in Kd, Kv.
    destruct Kd as (_ & a & Ha & Ea), Kv as (_ & n & Hnth & En).
    rewrite Nat.sub_0_r in Ha, Hnth. apply String.eqb_eq in Ea. subst a.
    unfold ClassData.same_name in En. apply String.eqb_eq in En.
    exists var, n. split; [exact Hin|]. split; [now apply truthy_nonempty|].
    now repeat split.
  - intros (var & n & Hin & T & Ha & Hnth & En).
    exists var. split; [exact Hin|]. split; [now apply truthy_nonempty|].
    apply in_prod_iff. split; apply positions_in; (split; [lia|]);
      rewrite Nat.sub_0_r.
    + exists (ClassData.cv_dataset var). split; [exact Ha | apply String.eqb_refl].
    + exists n. split; [exact Hnth|]. unfold ClassData.same_name. rewrite En.
      apply String.eqb_refl.
Qed.

Lemma contains_of_the_rows_witness :
  exists res,
    ClassData.load_adam_class_data (ClassData.Graph ["ADSL"; "BDS"] [] [])
      "adam-class-var.csv"
      [[("Data Structure Name", Some "BDS"); ("Variable Name", Some "STUDYID")];
       [("Data Structure Name", Some " "); ("Variable Name", Some "AVAL")];
       [("Data Structure Name", Some "OCCDS"); ("Variable Name", Some "--SEQ")]]
    = Returned res /\
    map ClassData.cv_name (ClassData.class_variable_nodes (ClassData.session res))
    = ["STUDYID"; "AVAL"; "--SEQ"] /\
    ClassData.contains (ClassData.session res) = [(1, 0)] /\
    In (1, 0) (ClassData.contains (ClassData.session res)).
Proof.
  eexists. split; [reflexivity|]. split; [reflexivity|]. split; [reflexivity|].
  apply (contains_of_the_rows (ClassData.Graph ["ADSL"; "BDS"] [] [])
           "adam-class-var.csv"
           [[("Data Structure Name", Some "BDS"); ("Variable Name", Some "STUDYID")];
            [("Data Structure Name", Some " "); ("Variable Name", Some "AVAL")];
            [("Data Structure Name", Some "OCCDS"); ("Variable Name", Some "--SEQ")]]
           _ eq_refl 1 0).
  right. exists (ClassData.ClassVariable "BDS" "STUDYID" "" "" "" "").
  exists (ClassData.ClassVariable "BDS" "STUDYID" "" "" "" "").
  split; [now left|]. split; [discriminate|]. now repeat split.
Defined.

End ClassContains.

(** ** From the rows of the files to the classification *)

Section Pipeline.

Lemma simple_load_names (cvs : list variable) (g : Neo4j.graph) :
  Neo4j.class_variable_nodes (load_adam_class_data g cvs)
  = fold_left add_key (map name cvs) (Neo4j.class_variable_nodes g).
Proof.
  unfold load_adam_class_data.
  revert g; induction cvs as [|cv cvs IH]; intro g; simpl; [reflexivity|].
  rewrite IH. f_equal. unfold Neo4j.merge_class_variable, add_key.
  now destruct (existsb (String.eqb (name cv)) (Neo4j.class_variable_nodes g)).
Qed.

(** X16: the store of names that the classification is verified on is an
    abstraction of what [load_adam_class_data] does to the nodes with their
    properties: from stores that agree on the names of the class-variable
    nodes, the function with its [MERGE ... SET] and the merge of the names
    alone leave stores that agree on them. *)
Theorem names_abstract_the_nodes (session : ClassData.graph) (csv_path : string)
    (reader : list Csv.row) (res : ClassData.loaded) (g : Neo4j.graph) :
  ClassData.load_adam_class_data session csv_path reader = Returned res ->
  map ClassData.cv_name (ClassData.class_variable_nodes session)
  = Neo4j.class_variable_nodes g ->
  map ClassData.cv_name (ClassData.class_variable_nodes (ClassData.session res))
  = Neo4j.class_variable_nodes
      (load_adam_class_data g (map ClassData.as_variable (ClassData.variables res))).
Proof.
  intros H Hg. unfold ClassData.load_adam_class_data in H.
  destruct (ClassData.read_rows reader []) as [vars| |]; simpl in H; try discriminate.
  injection H as <-. simpl.
  destruct (contains_fold_nodes vars
              (fold_left (fun g var => ClassData.merge_set var g) vars session))
    as [_ Hn].
  simpl in Hn. rewrite Hn, merge_set_fold_names, simple_load_names, Hg, map_map.
  reflexivity.
Qed.

Lemma names_abstract_the_nodes_witness :
  exists res,
    ClassData.load_adam_class_data
      (ClassData.Graph ["BDS"] [ClassData.ClassVariable "BDS" "AVAL" "" "Num" "" ""] [])
      "adam-class-var.csv"
      [[("Data Structure Name", Some "BDS"); ("Variable Name", Some "PARAMCD")];
       [("Data Structure Name", Some "BDS"); ("Variable Name", Some "AVAL");
        ("Variable Label", Some "Analysis Value")]]
    = Returned res /\
    map ClassData.cv_name (ClassData.class_variable_nodes (ClassData.session res))
    = Neo4j.class_variable_nodes
        (load_adam_class_data (Neo4j.Graph ["AVAL"] [] [])
           [Variable_ "PARAMCD" "BDS"; Variable_ "AVAL" "BDS"]).
Proof.
  eexists. split; [reflexivity|].
  apply (names_abstract_the_nodes
           (ClassData.Graph ["BDS"]
                            [ClassData.ClassVariable "BDS" "AVAL" "" "Num" "" ""] [])
           "adam-class-var.csv"
           [[("Data Structure Name", Some "BDS"); ("Variable Name", Some "PARAMCD")];
            [("Data Structure Name", Some "BDS"); ("Variable Name", Some "AVAL");
             ("Variable Label", Some "Analysis Value")]]
           _ (Neo4j.Graph ["AVAL"] [] []) eq_refl eq_refl).
Defined.

Lemma get_strip_stripped (r : Csv.row) (key s : string) :
  get_strip r key = Returned s -> stripped s.
Proof.
  unfold get_strip, stripped.
  destruct (PyDict.get key r) as [[v|]|]; intro H; try discriminate;
    injection H as <-; apply strip_idem.
Qed.

Lemma class_row_clean (r : Csv.row) (acc vs : list ClassData.class_variable) :
  ClassData.read_row r acc = Returned vs ->
  Forall (fun v => clean (ClassData.cv_name v)) acc ->
  Forall (fun v => clean (ClassData.cv_name v)) vs.
Proof.
  unfold ClassData.read_row. intros H Hacc.
  destruct (get_strip r "Data Structure Name") as [ds| |]; simpl in H; try discriminate.
  destruct (get_strip r "Variable Name") as [vn| |] eqn:E; simpl in H; try discriminate.
  destruct (truthy vn) eqn:T; [|now injection H as <-].
  destruct (get_strip r "Variable Label") as [l| |]; simpl in H; try discriminate.
  destruct (get_strip r "Type") as [ty| |]; simpl in H; try discriminate.
  destruct (get_strip r "Core") as [co| |]; simpl in H; try discriminate.
  destruct (get_strip r "Variable Set") as [vset| |]; simpl in H; try discriminate.
  injection H as <-. apply Forall_app. split; [exact Hacc|].
  constructor; [|constructor]. simpl. split.
  - now apply truthy_nonempty.
  - exact (get_strip_stripped r _ vn E).
Qed.

Lemma class_rows_clean (reader : list Csv.row) (acc vs : list ClassData.class_variable) :
  ClassData.read_rows reader acc = Returned vs ->
  Forall (fun v => clean (ClassData.cv_name v)) acc ->
  Forall (fun v => clean (ClassData.cv_name v)) vs.
Proof.
  revert acc; induction reader as [|r reader IH]; intros acc H Hacc; simpl in H.
  - now injection H as <-.
  - destruct (ClassData.read_row r acc) as [acc'| |] eqn:E; simpl in H; try discriminate.
    exact (IH acc' H (class_row_clean r acc acc' E Hacc)).
Qed.

Lemma var_row_clean (r : Csv.row) (acc vs : list VarData.adam_variable) :
  VarData.read_row r acc = Returned vs ->
  Forall (fun v => clean (VarData.av_name v) /\ clean (VarData.av_dataset v)) acc ->
  Forall (fun v => clean (VarData.av_name v) /\ clean (VarData.av_dataset v)) vs.
Proof.
  unfold VarData.read_row. intros H Hacc.
  destruct (get_strip r "Variable") as [vn| |] eqn:E1; simpl in H; try discriminate.
  destruct (get_strip r "Dataset") as [ds| |] eqn:E2; simpl in H; try discriminate.
  destruct (truthy vn && truthy ds) eqn:T; [|now injection H as <-].
  apply andb_true_iff in T. destruct T as [Tv Td].
  destruct (get_strip r "Variable Label") as [l| |]; simpl in H; try discriminate.
  destruct (get_strip r "Type") as [ty| |]; simpl in H; try discriminate.
  destruct (get_strip r "Length") as [len| |]; simpl in H; try discriminate.
  destruct (get_strip r "Display Format") as [df| |]; simpl in H; try discriminate.
  destruct (get_strip r "Controlled Terms") as [ct| |]; simpl in H; try discriminate.
  injection H as <-. apply Forall_app. split; [exact Hacc|].
  constructor; [|constructor]. simpl. split; split.
  - now apply truthy_nonempty.
  - exact (get_strip_stripped r _ vn E1).
  - now apply truthy_nonempty.
  - exact (get_strip_stripped r _ ds E2).
Qed.

Lemma var_rows_clean (reader : list Csv.row) (acc vs : list VarData.adam_variable) :
  VarData.read_rows reader acc = Returned vs ->
  Forall (fun v => clean (VarData.av_name v) /\ clean (VarData.av_dataset v)) acc ->
  Forall (fun v => clean (VarData.av_name v) /\ clean (VarData.av_dataset v)) vs.
Proof.
  revert acc; induction reader as [|r reader IH]; intros acc H Hacc; simpl in H.
  - now injection H as <-.
  - destruct (VarData.read_row r acc) as [acc'| |] eqn:E; simpl in H; try discriminate.
    exact (IH acc' H (var_row_clean r acc acc' E Hacc)).
Qed.

(** an answer of Classify is a name of the catalogue *)
Lemma classify_in_catalogue (cvs : list variable) (idx : index) (v : string)
    (t : tier) (c : string) :
  build_index cvs = Returned idx ->
  classify idx v = Some (t, c) -> In c (map name cvs).
Proof.
  intros Hb. destruct (build_index_names cvs idx Hb) as (Hc & Hl & Hs & Hp).
  unfold classify.
  destruct (existsb (String.eqb v) (class_var_names idx)) eqn:Ex.
  - intro H. injection H as <- <-. apply existsb_eqb_In in Ex. now rewrite Hc in Ex.
  - destruct (find (PyStr.endswith v) (sorted_suffixes idx)) as [s|].
    + destruct (PyDict.get s (suffix_lookup idx)) as [c'|] eqn:G; [|discriminate].
      simpl. intro H. injection H as <- <-. rewrite Hl in G.
      now apply suffix_lookup_get in G.
    + destruct (find (fun item => Re.matches (fst item) v) (compiled_patterns idx))
        as [[r c']|] eqn:F; [|discriminate].
      intro H. injection H as <- <-. apply find_some in F. destruct F as [Hin _].
      destruct (Forall2_in_right _ _ _ _ _ _ Hp Hin) as ([k t'] & Hi & _ & Ht).
      simpl in Ht. subst t'. now apply pattern_lookup_entries in Hi.
Qed.

(** at tier pattern a template whose lowercase letter has no replacement
    answers its own name followed by a newline, and no other name *)
Lemma literal_template_answer (p q : string) (c : ascii) (cvs : list variable)
    (idx : index) (v : string) :
  all_plain p = true -> all_plain q = true -> literal_letter c = true ->
  build_index cvs = Returned idx ->
  classify idx v = Some (Pattern, (p ++ String c q)%string) ->
  v = ((p ++ String c q) ++ String Re.newline "")%string.
Proof.
  intros Hp Hq Hc Hb.
  pose proof (proj1 (literal_letter_split c Hc)) as Hl.
  pose proof (template_regex_literal p q c Hp Hq Hc) as Et.
  pose proof (compile_literal p q c Hp Hq Hl) as Ec.
  destruct (build_index_names cvs idx Hb) as (Hn & _ & _ & Hpat).
  unfold classify.
  destruct (existsb (String.eqb v) (class_var_names idx)) eqn:Ex; [discriminate|].
  destruct (find (PyStr.endswith v) (sorted_suffixes idx)) as [s|].
  - destruct (PyDict.get s (suffix_lookup idx)); discriminate.
  - destruct (find (fun item => Re.matches (fst item) v) (compiled_patterns idx))
      as [[r c']|] eqn:F; [|discriminate].
    intro H. injection H as ->.
    apply find_some in F. destruct F as [Hin Hm]. simpl in Hm.
    destruct (Forall2_in_right _ _ _ _ _ _ Hpat Hin) as ([k t'] & Hi & Hk & Ht).
    simpl in Hk, Ht. subst t'.
    apply pattern_lookup_entries in Hi. destruct Hi as (Hname & _ & ->).
    rewrite Et, Ec in Hk. injection Hk as <-.
    apply literal_pattern_matches in Hm. destruct Hm as [-> | ->]; [|reflexivity].
    rewrite Hn in Ex. apply existsb_eqb_In in Hname. congruence.
Qed.

(** X17: in [main] with the reading of the two files, every name that
    reaches a query has gone through [strip] and the test for emptiness of
    its loader: the name and the dataset of the variable and the name of
    the class variable are not empty and have no whitespace at either end.
    No name therefore ends with the newline that [$] lets pass, so a
    template whose lowercase letter has no replacement (a single [z], say)
    is never the answer of the pattern tier. *)
Theorem names_reach_the_queries_stripped (class_reader var_reader : list Csv.row)
    (r : run) :
  main_from_rows class_reader var_reader = Returned r ->
  Forall (fun q => clean (q_var_name q) /\ clean (q_dataset q) /\
                   clean (q_class_var_name q)) (queries r) /\
  (forall q p c s,
     In q (queries r) -> q_tier q = Pattern ->
     all_plain p = true -> all_plain s = true -> literal_letter c = true ->
     q_class_var_name q <> (p ++ String c s)%string).
Proof.
  unfold main_from_rows. intro H.
  destruct (ClassData.read_rows class_reader []) as [cvs| |] eqn:Rc; simpl in H;
    try discriminate.
  destruct (VarData.read_rows var_reader []) as [avs| |] eqn:Rv; simpl in H;
    try discriminate.
  pose proof (class_rows_clean class_reader [] cvs Rc (Forall_nil _)) as Cc.
  pose proof (var_rows_clean var_reader [] avs Rv (Forall_nil _)) as Cv.
  pose proof H as H'. unfold main in H'.
  destruct (run_inv _ _ _ r H') as (idx & st & Hb & _).
  destruct (main_queries _ (map VarData.as_variable avs) idx Hb)
    as (r' & Hm & Hk & _).
  rewrite H in Hm. injection Hm as <-.
  assert (K : forall q, In q (queries r) ->
                exists av, In av avs /\
                  q_var_name q = VarData.av_name av /\
                  q_dataset q = VarData.av_dataset av /\
                  classify idx (VarData.av_name av)
                  = Some (q_tier q, q_class_var_name q)).
  { intros q Hq.
    assert (Hin : In (q_key q)
                     (flat_map (classified idx) (map VarData.as_variable avs)))
      by (rewrite <- Hk; now apply in_map).
    apply in_flat_map in Hin. destruct Hin as (v & Hv & Hin).
    apply in_map_iff in Hv. destruct Hv as (av & <- & Hav).
    unfold classified in Hin. simpl in Hin.
    destruct (classify idx (VarData.av_name av)) as [[t c]|] eqn:E; [|destruct Hin].
    destruct Hin as [Hin|[]]. unfold q_key in Hin. injection Hin as E1 E2 E3 E4.
    exists av. split; [exact Hav|]. now rewrite <- E1, <- E2, <- E3, <- E4. }
  rewrite Forall_forall in Cc, Cv. split.
  - apply Forall_forall. intros q Hq.
    destruct (K q Hq) as (av & Hav & -> & -> & E).
    destruct (Cv av Hav) as [Cn Cd]. split; [exact Cn|]. split; [exact Cd|].
    apply (classify_in_catalogue _ idx _ _ _ Hb) in E.
    rewrite map_map in E. apply in_map_iff in E. destruct E as (cv & <- & Hcv).
    exact (Cc cv Hcv).
  - intros q p c s Hq Ht Hp Hs Hc E.
    destruct (K q Hq) as (av & Hav & _ & _ & Ecl).
    rewrite Ht, E in Ecl.
    apply (literal_template_answer p s c _ idx _ Hp Hs Hc Hb) in Ecl.
    destruct (Cv av Hav) as [[_ Cn] _].
    exact (proj2 (proj2 (stripped_ends _ Cn)) _ Ecl).
Qed.

Lemma names_reach_the_queries_stripped_witness :
  exists r,
    main_from_rows
      [[("Data Structure Name", Some "ADSL"); ("Variable Name", Some " TRTxxP ")];
       [("Data Structure Name", Some "OCCDS"); ("Variable Name", Some "--SEQ")]]
      [[("Dataset", Some "ADSL "); ("Variable", Some "TRT01P")];
       [("Dataset", Some ""); ("Variable", Some "AESEQ")];
       [("Dataset", Some "ADAE"); ("Variable", Some "AESEQ")]]
    = Returned r /\
    map q_key (queries r)
    = [(Pattern, "TRT01P", "ADSL", "TRTxxP"); (Suffix, "AESEQ", "ADAE", "--SEQ")] /\
    Forall (fun q => clean (q_var_name q) /\ clean (q_dataset q) /\
                     clean (q_class_var_name q)) (queries r).
Proof.
  eexists. split; [vm_compute; reflexivity|]. split; [reflexivity|].
  apply (names_reach_the_queries_stripped
           [[("Data Structure Name", Some "ADSL"); ("Variable Name", Some " TRTxxP ")];
            [("Data Structure Name", Some "OCCDS"); ("Variable Name", Some "--SEQ")]]
           [[("Dataset", Some "ADSL "); ("Variable", Some "TRT01P")];
            [("Dataset", Some ""); ("Variable", Some "AESEQ")];
            [("Dataset", Some "ADAE"); ("Variable", Some "AESEQ")]]).
  vm_compute. reflexivity.
Defined.

End Pipeline.
